(** * ChittyApps bundle exporter: a shallow embedding of
      [scripts/export_bundles.py] and the properties of its specification.

    The Python values the script handles (parsed YAML, the JSON replies of the
    remote service, the rows it builds) are modelled by one type [json]: the
    JSON values, and the dates YAML reads timestamps as.  Dictionaries are
    association lists read at their first binding, in insertion order.
    Exceptions are the [Raise] branch of [result].  What the interpreter and
    its libraries provide and the script does not define (the text of a float
    or of a container, [pathlib]) is the class [PyRuntime]; what the process
    is started with and runs against (the command line as [argparse] reads
    it, the environment, the files, the encoding of text files, the remote
    service) is the record [world]. *)

From Stdlib Require Import String Ascii List ZArith Bool Lia.
From Stdlib Require Import Sorted Permutation DecimalString.
Import ListNotations.
Open Scope string_scope.
Open Scope Z_scope.
#[local] Set Warnings "-register-all".

(** ** Python values *)

Inductive json : Type :=
| JNull
| JBool (b : bool)
| JInt (z : Z)
| JFloat (m e : Z)                    (* the float m * 2^e *)
| JStr (s : string)
| JList (l : list json)
| JDict (d : list (string * json))
| JDate (text : string).              (* a datetime.date or datetime of YAML:
                                         text is its str() *)

Inductive exn : Type :=
| AttributeError | TypeError | KeyError | ValueError | OSError
| UnicodeEncodeError
| APIResponseError
| SystemExit (code : Z).

Inductive result (A : Type) : Type :=
| Ok (a : A)
| Raise (e : exn).
Arguments Ok {A} a.
Arguments Raise {A} e.

Definition rbind {A B} (r : result A) (k : A -> result B) : result B :=
  match r with
  | Ok a => k a
  | Raise e => Raise e
  end.

Declare Scope py_scope.
Delimit Scope py_scope with py.
Notation "x <- c ;; k" := (rbind c (fun x => k))
  (at level 100, c at next level, right associativity) : py_scope.
Open Scope py_scope.

Fixpoint map_result {A B} (f : A -> result B) (l : list A) : result (list B) :=
  match l with
  | [] => Ok []
  | a :: l' => b <- f a ;; bs <- map_result f l' ;; Ok (b :: bs)
  end.

(** ** Dictionaries *)

Module Dict.

Definition t := list (string * json).

Fixpoint get (d : t) (k : string) : option json :=
  match d with
  | [] => None
  | (k', v) :: d' => if String.eqb k' k then Some v else get d' k
  end.

Definition mem (k : string) (d : t) : bool :=
  match get d k with Some _ => true | None => false end.

(* keys in insertion order, each one once *)
Fixpoint keys (d : t) : list string :=
  match d with
  | [] => []
  | (k, _) :: d' => k :: remove string_dec k (keys d')
  end.

(* d[k] = v: an existing key keeps its place, a new one goes last *)
Fixpoint set (d : t) (k : string) (v : json) : t :=
  match d with
  | [] => [(k, v)]
  | (k', v') :: d' =>
      if String.eqb k' k then (k, v) :: d' else (k', v') :: set d' k v
  end.

End Dict.

(** ** Built-ins *)

Definition py_truthy (v : json) : bool :=
  match v with
  | JNull => false
  | JBool b => b
  | JInt z => negb (z =? 0)
  | JFloat m _ => negb (m =? 0)
  | JStr s => negb (String.eqb s "")
  | JList l => match l with [] => false | _ => true end
  | JDict d => match d with [] => false | _ => true end
  | JDate _ => true
  end.

(* v == "literal" *)
Definition is_str (v : json) (s : string) : bool :=
  match v with
  | JStr t => String.eqb t s
  | _ => false
  end.

(* v.get(k, default) with a literal key *)
Definition py_get (v : json) (k : string) (default : json) : result json :=
  match v with
  | JDict d => Ok (match Dict.get d k with Some x => x | None => default end)
  | _ => Raise AttributeError
  end.

(* v.get(k, default) with a computed key; a list or dict key is unhashable *)
Definition py_get_dyn (v : json) (k : json) (default : json) : result json :=
  match v with
  | JDict d =>
      match k with
      | JStr s => Ok (match Dict.get d s with Some x => x | None => default end)
      | JList _ | JDict _ => Raise TypeError
      | _ => Ok default
      end
  | _ => Raise AttributeError
  end.

Definition chars (s : string) : list json :=
  map (fun c => JStr (String c EmptyString)) (list_ascii_of_string s).

(* for x in v *)
Definition py_iter (v : json) : result (list json) :=
  match v with
  | JList l => Ok l
  | JDict d => Ok (map JStr (Dict.keys d))
  | JStr s => Ok (chars s)
  | _ => Raise TypeError
  end.

Definition py_len (v : json) : result Z :=
  match v with
  | JList l => Ok (Z.of_nat (List.length l))
  | JDict d => Ok (Z.of_nat (List.length (Dict.keys d)))
  | JStr s => Ok (Z.of_nat (String.length s))
  | _ => Raise TypeError
  end.

Definition str_of_Z (z : Z) : string := NilZero.string_of_int (Z.to_int z).

(* what json.dump and json.dumps can write: everything but a date, on its own
   or inside a list or a dict *)
Fixpoint serializable (v : json) : bool :=
  match v with
  | JDate _ => false
  | JList l => forallb serializable l
  | JDict d => forallb (fun kv => serializable (snd kv)) d
  | _ => true
  end.

(* sep.join(parts): every part has to be a str *)
Fixpoint py_join (sep : string) (parts : list json) : result string :=
  match parts with
  | [] => Ok ""
  | JStr s :: [] => Ok s
  | JStr s :: rest => r <- py_join sep rest ;; Ok (s ++ sep ++ r)
  | _ :: _ => Raise TypeError
  end.

(** ** Strings *)

Definition startswith (s p : string) : bool := String.prefix p s.

(* sub in s *)
Fixpoint contains (sub s : string) : bool :=
  String.prefix sub s ||
  match s with
  | EmptyString => false
  | String _ s' => contains sub s'
  end.

(* s.split(sep) for a one-character separator: never empty *)
Fixpoint split (sep : ascii) (s : string) : list string :=
  match s with
  | EmptyString => [EmptyString]
  | String c s' =>
      if Ascii.eqb c sep then EmptyString :: split sep s'
      else match split sep s' with
           | h :: t => String c h :: t
           | [] => [String c EmptyString]
           end
  end.

(* s.replace(c, "") *)
Fixpoint remove_char (c : ascii) (s : string) : string :=
  match s with
  | EmptyString => EmptyString
  | String a s' =>
      if Ascii.eqb a c then remove_char c s' else String a (remove_char c s')
  end.

(* s[:n] *)
Definition take (n : nat) (s : string) : string := String.substring 0 n s.

(* sorted(l) on strings: a stable insertion sort under the code-point order *)
Fixpoint insert_sorted (x : string) (l : list string) : list string :=
  match l with
  | [] => [x]
  | y :: l' => if String.leb x y then x :: l else y :: insert_sorted x l'
  end.

Definition sorted (l : list string) : list string :=
  fold_right insert_sorted [] l.

Fixpoint has_char (c : ascii) (s : string) : bool :=
  match s with
  | EmptyString => false
  | String a s' => Ascii.eqb a c || has_char c s'
  end.


(** ** Identifier resolver *)

(* the tail of [extract_notion_id], reached from both of its branches *)
Definition raw_uuid (url_or_id : string) : string :=
  let clean := remove_char "-" url_or_id in
  if (String.length clean =? 32)%nat then clean else url_or_id.

(* path.split("/")[-1].split("-")[-1] for path = url_or_id.split("?")[0] *)
Definition url_raw_id (url_or_id : string) : string :=
  let path := hd "" (split "?" url_or_id) in
  last (split "-" (last (split "/" path) "")) "".

(* None is Python's None *)
Definition extract_notion_id (url_or_id : string) : option string :=
  if startswith url_or_id "TODO:" then None
  else if contains "notion.so" url_or_id then
    let raw_id := url_raw_id url_or_id in
    if (String.length raw_id =? 32)%nat then Some raw_id
    else Some (raw_uuid url_or_id)
  else Some (raw_uuid url_or_id).

(** ** Command line *)

(* the namespace argparse returns *)
Record args : Type := mkArgs {
  bundle : string;
  config : string;
  dry_run : bool
}.

(* what ArgumentParser.parse_args makes of sys.argv for the parser of
   [parse_args]: the bundle with the options that were given, or the text it
   prints before it leaves the process, with status 2 for a command line it
   does not accept and with status 0 for -h *)
Inductive command_line : Type :=
| Namespace (bundle : string) (config : option string) (dry_run : bool)
| UsageError (message : string)
| HelpRequested (message : string).

(** ** What the interpreter provides *)

Class PyRuntime : Type := {
  (* str(x) of a float, of a list and of a dict *)
  float_str : Z -> Z -> string;
  container_str : json -> string;
  (* x + y when one of them is a float *)
  float_add : json -> json -> json;
  (* pathlib.Path: Path(s), p / s, p.parent, str(p) *)
  Path : Type;
  path_of : string -> Path;
  path_div : Path -> string -> Path;
  path_parent : Path -> Path;
  path_str : Path -> string;
  path_eqb : Path -> Path -> bool
}.

Declare Scope io_scope.
Delimit Scope io_scope with io.

Section Exporter.

Context {RT : PyRuntime}.

(* str(v), also what an f-string prints for v *)
Definition py_str (v : json) : string :=
  match v with
  | JNull => "None"
  | JBool true => "True"
  | JBool false => "False"
  | JInt z => str_of_Z z
  | JFloat m e => float_str m e
  | JStr s => s
  | JList _ | JDict _ => container_str v
  | JDate s => s
  end.

(** ** Property flattener *)

(* sep.join(t.get(key, "") for t in prop.get(field, [])) *)
Definition join_field (sep : string) (prop : json) (field key : string)
  : result json :=
  v <- py_get prop field (JList []) ;;
  ts <- py_iter v ;;
  parts <- map_result (fun t => py_get t key (JStr "")) ts ;;
  s <- py_join sep parts ;;
  Ok (JStr s).

(* sel = prop.get(field); sel.get("name", "") if sel else "" *)
Definition name_of (prop : json) (field : string) : result json :=
  sel <- py_get prop field JNull ;;
  if py_truthy sel then py_get sel "name" (JStr "") else Ok (JStr "").

(* prop.get(field, "") or "" *)
Definition get_or_empty (prop : json) (field : string) : result json :=
  v <- py_get prop field (JStr "") ;;
  Ok (if py_truthy v then v else JStr "").

(* f.get("external", {}).get("url", "") or f.get("file", {}).get("url", "") *)
Definition file_url (f : json) : result json :=
  ext <- py_get f "external" (JDict []) ;;
  u <- py_get ext "url" (JStr "") ;;
  if py_truthy u then Ok u
  else fl <- py_get f "file" (JDict []) ;; py_get fl "url" (JStr "").

Definition flatten_property (prop : json) : result json :=
  prop_type <- py_get prop "type" (JStr "") ;;
  if is_str prop_type "title" then join_field "" prop "title" "plain_text"
  else if is_str prop_type "rich_text" then
    join_field "" prop "rich_text" "plain_text"
  else if is_str prop_type "number" then
    val <- py_get prop "number" JNull ;;
    Ok (match val with JNull => JStr "" | _ => JStr (py_str val) end)
  else if is_str prop_type "select" then name_of prop "select"
  else if is_str prop_type "multi_select" then
    join_field ", " prop "multi_select" "name"
  else if is_str prop_type "date" then
    d <- py_get prop "date" JNull ;;
    if py_truthy d then
      start <- py_get d "start" (JStr "") ;;
      end_ <- py_get d "end" (JStr "") ;;
      Ok (if py_truthy end_
          then JStr (py_str start ++ " - " ++ py_str end_)
          else start)
    else Ok (JStr "")
  else if is_str prop_type "checkbox" then
    v <- py_get prop "checkbox" (JBool false) ;; Ok (JStr (py_str v))
  else if is_str prop_type "url" then get_or_empty prop "url"
  else if is_str prop_type "email" then get_or_empty prop "email"
  else if is_str prop_type "phone_number" then get_or_empty prop "phone_number"
  else if is_str prop_type "status" then name_of prop "status"
  else if is_str prop_type "relation" then join_field ", " prop "relation" "id"
  else if is_str prop_type "formula" then
    f <- py_get prop "formula" (JDict []) ;;
    f_type <- py_get f "type" (JStr "") ;;
    v <- py_get_dyn f f_type (JStr "") ;;
    Ok (JStr (py_str v))
  else if is_str prop_type "rollup" then
    r <- py_get prop "rollup" (JDict []) ;;
    r_type <- py_get r "type" (JStr "") ;;
    if is_str r_type "array" then
      a <- py_get r "array" (JList []) ;;
      n <- py_len a ;;
      Ok (JStr (str_of_Z n))
    else
      v <- py_get_dyn r r_type (JStr "") ;;
      Ok (JStr (py_str v))
  else if is_str prop_type "created_time" then
    py_get prop "created_time" (JStr "")
  else if is_str prop_type "last_edited_time" then
    py_get prop "last_edited_time" (JStr "")
  else if is_str prop_type "created_by" then
    u <- py_get prop "created_by" (JDict []) ;; py_get u "name" (JStr "")
  else if is_str prop_type "last_edited_by" then
    u <- py_get prop "last_edited_by" (JDict []) ;; py_get u "name" (JStr "")
  else if is_str prop_type "people" then join_field ", " prop "people" "name"
  else if is_str prop_type "files" then
    v <- py_get prop "files" (JList []) ;;
    fs <- py_iter v ;;
    parts <- map_result file_url fs ;;
    s <- py_join ", " parts ;;
    Ok (JStr s)
  else Ok (JStr (py_str prop)).

(** ** The world the script runs in *)

(* what one call of notion.databases.query gives *)
Inductive reply : Type :=
| Response (r : json)
| Failure.

(* a CSV file as the header and the rows that have reached it, a JSON file as
   the value json.dump was given; [JsonPrefix v] is the file json.dump leaves
   when it raises: the text of v up to the first value it cannot write *)
Inductive content : Type :=
| Empty
| CsvFile (fieldnames : list string) (rows : list (list json))
| JsonFile (v : json)
| JsonPrefix (v : json).

(* one print call: its text, or the value handed to json.dumps *)
Inductive line : Type :=
| Text (s : string)
| JsonText (v : json).

(* what open + yaml.safe_load do with a path *)
Inductive config_load : Type :=
| FileNotFound
| YAMLError (msg : string)
| Loaded (v : json).

Record filesystem : Type := mkFs {
  dirs : list Path;                 (* directories made by mkdir *)
  files : list (Path * content)     (* files written, last written first *)
}.

Record world : Type := mkWorld {
  argv : command_line;                 (* sys.argv as argparse reads it *)
  env : string -> option string;       (* os.getenv *)
  config_files : string -> config_load;
  clock : string;                      (* datetime.now(utc).isoformat() *)
  encodes : ascii -> bool;             (* has the character a code in the
                                          encoding open() gives a text file? *)
  writable : Path -> bool;             (* may this path be created? *)
  remote : list reply;                 (* replies still to come, in order *)
  queries : list Dict.t;               (* kwargs of the queries issued *)
  fs : filesystem;
  stdout : list line;
  stderr : list line
}.

Definition with_remote (w : world) (r : list reply) (q : list Dict.t) : world :=
  mkWorld (argv w) (env w) (config_files w) (clock w) (encodes w) (writable w)
          r q (fs w) (stdout w) (stderr w).

Definition with_fs (w : world) (f : filesystem) : world :=
  mkWorld (argv w) (env w) (config_files w) (clock w) (encodes w) (writable w)
          (remote w) (queries w) f (stdout w) (stderr w).

Definition with_stdout (w : world) (l : list line) : world :=
  mkWorld (argv w) (env w) (config_files w) (clock w) (encodes w) (writable w)
          (remote w) (queries w) (fs w) l (stderr w).

Definition with_stderr (w : world) (l : list line) : world :=
  mkWorld (argv w) (env w) (config_files w) (clock w) (encodes w) (writable w)
          (remote w) (queries w) (fs w) (stdout w) l.

(* a run ends with a value, with an exception, or is still waiting for a
   reply the service has not given *)
Inductive outcome (A : Type) : Type :=
| Done (a : A) (w : world)
| Raised (e : exn) (w : world)
| Pending (w : world).
Arguments Done {A} a w.
Arguments Raised {A} e w.
Arguments Pending {A} w.

Definition M (A : Type) : Type := world -> outcome A.

Definition ret {A} (a : A) : M A := fun w => Done a w.

Definition bind {A B} (m : M A) (k : A -> M B) : M B :=
  fun w =>
    match m w with
    | Done a w' => k a w'
    | Raised e w' => Raised e w'
    | Pending w' => Pending w'
    end.

Definition raise {A} (e : exn) : M A := fun w => Raised e w.

Definition lift {A} (r : result A) : M A :=
  match r with
  | Ok a => ret a
  | Raise e => raise e
  end.

Definition final_world {A} (o : outcome A) : world :=
  match o with
  | Done _ w | Raised _ w | Pending w => w
  end.

Notation "x <- c ;; k" := (bind c (fun x => k))
  (at level 100, c at next level, right associativity) : io_scope.
Notation "c ;;; k" := (bind c (fun _ => k))
  (at level 100, right associativity) : io_scope.

Definition print (s : string) : M unit :=
  fun w => Done tt (with_stdout w (stdout w ++ [Text s])).

(* print(json.dumps(v, indent=2)): json.dumps raises before anything is
   printed *)
Definition print_json (v : json) : M unit :=
  fun w =>
    if serializable v then Done tt (with_stdout w (stdout w ++ [JsonText v]))
    else Raised TypeError w.

Definition eprint (s : string) : M unit :=
  fun w => Done tt (with_stderr w (stderr w ++ [Text s])).

(* notion.databases.query called with the keyword arguments kwargs *)
Definition databases_query (kwargs : Dict.t) : M json :=
  fun w =>
    let q := (queries w ++ [kwargs])%list in
    match remote w with
    | [] => Pending (with_remote w [] q)
    | Response r :: rest => Done r (with_remote w rest q)
    | Failure :: rest => Raised APIResponseError (with_remote w rest q)
    end.

(* p.mkdir(parents=True, exist_ok=True) *)
Definition mkdir (p : Path) : M unit :=
  fun w =>
    if writable w p
    then Done tt (with_fs w (mkFs (p :: dirs (fs w)) (files (fs w))))
    else Raised OSError w.

Definition put_file (p : Path) (c : content) (f : filesystem) : filesystem :=
  mkFs (dirs f)
       ((p, c) :: filter (fun e => negb (path_eqb (fst e) p)) (files f)).

(* open(p, "w"): the file exists and is empty from here on *)
Definition open_w (p : Path) : M unit :=
  fun w =>
    if writable w p then Done tt (with_fs w (put_file p Empty (fs w)))
    else Raised OSError w.

(* the text the csv writer puts in a cell: nothing for None, str(v) else *)
Definition cell_text (v : json) : string :=
  match v with
  | JNull => ""
  | _ => py_str v
  end.

(* can the text be written to a text file?  The delimiters, the quotes and
   the line ends of the csv writer and the text of json.dump, which escapes
   what is not ASCII, are taken to be *)
Definition encodable (w : world) (s : string) : bool :=
  forallb (encodes w) (list_ascii_of_string s).

(* one f.write of the csv writer, of the line made of cells: the line reaches
   the file, which then holds the table after, unless one of its characters
   cannot be encoded *)
Definition write_line (p : Path) (cells : list string) (after : content)
  : M unit :=
  fun w =>
    if forallb (encodable w) cells
    then Done tt (with_fs w (put_file p after (fs w)))
    else Raised UnicodeEncodeError w.

(* json.dump(v, f, indent=2) on the file open at p: the text is written piece
   by piece, so what cannot be written raises after the text before it *)
Definition json_dump (v : json) (p : Path) : M unit :=
  fun w =>
    if serializable v
    then Done tt (with_fs w (put_file p (JsonFile v) (fs w)))
    else Raised TypeError (with_fs w (put_file p (JsonPrefix v) (fs w))).

Local Open Scope io_scope.

(** ** Paginated fetcher *)

(* the keyword arguments of one query *)
Definition query_kwargs (database_id : string) (start_cursor : json) : Dict.t :=
  let kwargs : Dict.t :=
    [("database_id", JStr database_id); ("page_size", JInt 100)] in
  if py_truthy start_cursor
  then Dict.set kwargs "start_cursor" start_cursor else kwargs.

(* what pages.extend(response.get("results", [])) appends *)
Definition results_of (response : json) : result (list json) :=
  (v <- py_get response "results" (JList []) ;; py_iter v)%py.

(* one turn of the [while True] loop per unit of fuel *)
Fixpoint query_loop (fuel : nat) (database_id : string) (start_cursor : json)
    (pages : list json) : M (list json) :=
  match fuel with
  | O => fun w => Pending w
  | S fuel' =>
      let kwargs := query_kwargs database_id start_cursor in
      response <- databases_query kwargs ;;
      results <- lift (results_of response) ;;
      let pages := (pages ++ results)%list in
      has_more <- lift (py_get response "has_more" JNull) ;;
      if negb (py_truthy has_more) then ret pages
      else
        next_cursor <- lift (py_get response "next_cursor" JNull) ;;
        query_loop fuel' database_id next_cursor pages
  end.

(* every turn takes one reply, so the replies left bound the turns *)
Definition query_all_pages (database_id : string) : M (list json) :=
  fun w => query_loop (S (List.length (remote w))) database_id JNull [] w.

(** ** Bundle exporter *)

(* v[k] *)
Definition py_index (v : json) (k : string) : result json :=
  match v with
  | JDict d =>
      match Dict.get d k with Some x => Ok x | None => Raise KeyError end
  | _ => Raise TypeError
  end.

(* k in v *)
Definition py_in (k : string) (v : json) : result bool :=
  match v with
  | JDict d => Ok (Dict.mem k d)
  | JList l => Ok (existsb (fun x => is_str x k) l)
  | JStr s => Ok (contains k s)
  | _ => Raise TypeError
  end.

(* v.keys() *)
Definition py_keys (v : json) : result (list string) :=
  match v with
  | JDict d => Ok (Dict.keys d)
  | _ => Raise AttributeError
  end.

(* the [for col in columns] loop *)
Fixpoint fill_columns (columns : list string) (props : json) (row : Dict.t)
  : result Dict.t :=
  match columns with
  | [] => Ok row
  | col :: rest =>
      (present <- py_in col props ;;
       v <- (if present : bool
             then (p <- py_index props col ;; flatten_property p)
             else Ok (JStr "")) ;;
       fill_columns rest props (Dict.set row col v))%py
  end.

(* the body of the [for page in pages] loop *)
Definition build_row (columns : list string) (page : json) : result Dict.t :=
  (props <- py_get page "properties" (JDict []) ;;
   row <- fill_columns columns props [] ;;
   id <- py_get page "id" (JStr "") ;;
   let row := Dict.set row "_notion_id" id in
   edited <- py_get page "last_edited_time" (JStr "") ;;
   Ok (Dict.set row "_last_edited" edited))%py.

(* csv.DictWriter._dict_to_list, with extrasaction = "raise", restval = "" *)
Definition dict_to_list (fieldnames : list string) (row : Dict.t)
  : result (list json) :=
  if forallb (fun k => existsb (String.eqb k) fieldnames) (Dict.keys row)
  then Ok (map (fun k => match Dict.get row k with
                         | Some v => v
                         | None => JStr ""
                         end) fieldnames)
  else Raise ValueError.

(* writer.writeheader(): the field names are the first line *)
Definition writeheader (p : Path) (fieldnames : list string) : M unit :=
  write_line p fieldnames (CsvFile fieldnames []).

(* writer.writerows(rows): the rows reach the file one at a time *)
Fixpoint writerows (p : Path) (fieldnames : list string) (rows : list Dict.t)
    (written : list (list json)) : M unit :=
  match rows with
  | [] => ret tt
  | r :: rest =>
      cells <- lift (dict_to_list fieldnames r) ;;
      let written := (written ++ [cells])%list in
      write_line p (map cell_text cells) (CsvFile fieldnames written) ;;;
      writerows p fieldnames rest written
  end.

Definition len {A} (l : list A) : json := JInt (Z.of_nat (List.length l)).

Definition export_database (db_config : json) (output_dir : Path)
    (dry_run : bool) : M json :=
  db_key <- lift (py_index db_config "key") ;;
  notion_url <- lift (py_get db_config "notion_url" (JStr "")) ;;
  db_id <- lift (match notion_url with
                 | JStr s => Ok (extract_notion_id s)
                 | _ => Raise AttributeError
                 end) ;;
  let skip :=
    eprint ("  Skipping '" ++ py_str db_key ++ "': placeholder URL") ;;;
    ret JNull in
  match db_id with
  | None => skip
  | Some db_id =>
    if String.eqb db_id "" then skip
    else
      print ("  Exporting '" ++ py_str db_key ++ "' (ID: "
             ++ take 8 db_id ++ "...)") ;;;
      pages <- query_all_pages db_id ;;
      print ("    Fetched " ++ py_str (len pages) ++ " rows") ;;;
      match pages with
      | [] =>
          print ("    No data to export for '" ++ py_str db_key ++ "'") ;;;
          ret (JDict [("db_key", db_key);
                      ("output", JStr ("data/" ++ py_str db_key ++ ".csv"));
                      ("row_count", JInt 0)])
      | first :: _ =>
          first_props <- lift (py_get first "properties" (JDict [])) ;;
          keys <- lift (py_keys first_props) ;;
          let columns := sorted keys in
          rows <- lift (map_result (build_row columns) pages) ;;
          let all_columns := (columns ++ ["_notion_id"; "_last_edited"])%list in
          (if dry_run then
             print ("    [DRY RUN] Would write " ++ py_str (len rows)
                    ++ " rows to data/" ++ py_str db_key ++ ".csv")
           else
             let csv_path :=
               path_div (path_div output_dir "data")
                        (py_str db_key ++ ".csv") in
             mkdir (path_parent csv_path) ;;;
             open_w csv_path ;;;
             writeheader csv_path all_columns ;;;
             writerows csv_path all_columns rows [] ;;;
             print ("    Wrote " ++ py_str (len rows) ++ " rows to "
                    ++ path_str csv_path)) ;;;
          ret (JDict [("db_key", db_key);
                      ("output", JStr ("data/" ++ py_str db_key ++ ".csv"));
                      ("row_count", len rows);
                      ("columns", len all_columns)])
      end
  end.

(** ** Manifest writer and entry point *)

Definition nl : string := String "010"%char EmptyString.

(* the parser takes the bundle, --config with its default and --dry-run;
   argparse prints a usage error on stderr and the help on stdout *)
Definition parse_args : M args :=
  fun w =>
    match argv w with
    | Namespace b c d =>
        Done (mkArgs b (match c with
                        | Some path => path
                        | None => "chittyos-export.yaml"
                        end) d) w
    | UsageError msg => (eprint msg ;;; raise (SystemExit 2)) w
    | HelpRequested msg => (print msg ;;; raise (SystemExit 0)) w
    end.

Definition load_yaml_config (path : string) : M json :=
  fun w =>
    match config_files w path with
    | Loaded v => Done v w
    | FileNotFound =>
        (eprint ("Config file not found: " ++ path) ;;;
         raise (SystemExit 1)) w
    | YAMLError msg =>
        (eprint ("Invalid YAML in " ++ path ++ ": " ++ msg) ;;;
         raise (SystemExit 1)) w
    end.

(* os.getenv(name, default) *)
Definition getenv (name default : string) : M string :=
  fun w => Done (match env w name with Some v => v | None => default end) w.

(* datetime.now(timezone.utc).isoformat() *)
Definition utcnow_isoformat : M string :=
  fun w => Done (clock w) w.

(* Path(v) and p / v want a str *)
Definition py_path (v : json) : result Path :=
  match v with
  | JStr s => Ok (path_of s)
  | _ => Raise TypeError
  end.

Definition py_path_div (p : Path) (v : json) : result Path :=
  match v with
  | JStr s => Ok (path_div p s)
  | _ => Raise TypeError
  end.

Definition as_int (v : json) : option Z :=
  match v with
  | JInt z => Some z
  | JBool b => Some (if b then 1 else 0)
  | _ => None
  end.

(* a + b for the accumulator of sum() *)
Definition py_add (a b : json) : result json :=
  match as_int a, as_int b with
  | Some x, Some y => Ok (JInt (x + y))
  | _, _ =>
      match a, b with
      | JFloat _ _, (JInt _ | JBool _ | JFloat _ _)
      | (JInt _ | JBool _), JFloat _ _ => Ok (float_add a b)
      | _, _ => Raise TypeError
      end
  end.

(* sum(i.get("row_count", 0) for i in items), from the accumulator acc *)
Fixpoint sum_row_counts (items : list json) (acc : json) : result json :=
  match items with
  | [] => Ok acc
  | i :: rest =>
      (v <- py_get i "row_count" (JInt 0) ;;
       acc' <- py_add acc v ;;
       sum_row_counts rest acc')%py
  end.

(* the [for db_config in databases] loop *)
Fixpoint export_all (databases : list json) (output_dir : Path)
    (dry : bool) (manifest_items : list json) : M (list json) :=
  match databases with
  | [] => ret manifest_items
  | db_config :: rest =>
      result <- export_database db_config output_dir dry ;;
      export_all rest output_dir dry
        (if py_truthy result then (manifest_items ++ [result])%list
         else manifest_items)
  end.

Definition main : M unit :=
  a <- parse_args ;;
  cfg <- load_yaml_config (config a) ;;
  bundles <- lift (py_get cfg "export_bundles" (JDict [])) ;;
  defaults <- lift (py_get cfg "defaults" (JDict [])) ;;
  known <- lift (py_in (bundle a) bundles) ;;
  if negb known then
    eprint ("Bundle '" ++ bundle a ++ "' not found in config") ;;;
    names <- lift (py_keys bundles) ;;
    print ("Available bundles: " ++ String.concat ", " names) ;;;
    raise (SystemExit 1)
  else
    bundle_cfg <- lift (py_index bundles (bundle a)) ;;
    root <- lift (py_get defaults "output_root" (JStr "packages")) ;;
    output_root <- lift (py_path root) ;;
    let output_dir := path_div output_root (bundle a) in
    print ("ChittyApps Bundle Export: " ++ bundle a) ;;;
    name <- lift (py_get bundle_cfg "name" (JStr "unknown")) ;;
    print ("  Name: " ++ py_str name) ;;;
    schema <- lift (py_get bundle_cfg "schema_version" (JStr "1.0.0")) ;;
    print ("  Schema: " ++ py_str schema) ;;;
    print ("  Output: " ++ path_str output_dir) ;;;
    (if dry_run a then print "  Mode: DRY RUN" else ret tt) ;;;
    print "" ;;;
    notion_token <- getenv "NOTION_TOKEN" "" ;;
    if String.eqb notion_token "" then
      eprint "NOTION_TOKEN environment variable not set" ;;;
      raise (SystemExit 1)
    else
      dbs <- lift (py_get bundle_cfg "databases" (JList [])) ;;
      databases <- lift (py_iter dbs) ;;
      manifest_items <- export_all databases output_dir (dry_run a) [] ;;
      manifest_name <- lift (py_get bundle_cfg "name" JNull) ;;
      exported_at <- utcnow_isoformat ;;
      chitty_id <- getenv "CHITTY_ID" "" ;;
      workflow <- getenv "GITHUB_WORKFLOW" "manual" ;;
      actor <- getenv "GITHUB_ACTOR" "local" ;;
      total_rows <- lift (sum_row_counts manifest_items (JInt 0)) ;;
      let totals :=
        JDict [("databases", len manifest_items);
               ("total_rows", total_rows)] in
      let manifest :=
        JDict [("bundle", JStr (bundle a));
               ("name", manifest_name);
               ("schema_version", schema);
               ("exported_at", JStr exported_at);
               ("items", JList manifest_items);
               ("audit", JDict [("chitty_id", JStr chitty_id);
                                ("workflow", JStr workflow);
                                ("actor", JStr actor)]);
               ("totals", totals)] in
      manifest_filename <-
        lift (py_get defaults "manifest_filename" (JStr "manifest.json")) ;;
      (if dry_run a then
         target <- lift (py_path_div output_dir manifest_filename) ;;
         print (nl ++ "[DRY RUN] Would write manifest to "
                ++ path_str target) ;;;
         print_json manifest
       else
         mkdir output_dir ;;;
         manifest_path <- lift (py_path_div output_dir manifest_filename) ;;
         open_w manifest_path ;;;
         json_dump manifest manifest_path ;;;
         print (nl ++ "Manifest written to " ++ path_str manifest_path)) ;;;
      print (nl ++ "Export complete: " ++ py_str (len manifest_items)
             ++ " databases, " ++ py_str total_rows ++ " total rows").

End Exporter.

Arguments Done {RT A} a w.
Arguments Raised {RT A} e w.
Arguments Pending {RT A} w.

Notation "x <- c ;; k" := (bind c (fun x => k))
  (at level 100, c at next level, right associativity) : io_scope.
Notation "c ;;; k" := (bind c (fun _ => k))
  (at level 100, right associativity) : io_scope.

(** ** Vocabulary of the properties *)

Definition has_field (v : json) (k : string) : bool :=
  match v with
  | JDict d => Dict.mem k d
  | _ => false
  end.


(* the record has something to put under the column c *)
Definition record_provides (page : json) (c : string) : Prop :=
  (exists props, py_get page "properties" (JDict []) = Ok props /\
                 py_in c props = Ok true) \/
  (c = "_notion_id" /\ py_in "id" page = Ok true) \/
  (c = "_last_edited" /\ py_in "last_edited_time" page = Ok true).

(* the cells csv.DictWriter writes for a row *)
Definition row_cells (fieldnames : list string) (row : Dict.t) : list json :=
  map (fun k => match Dict.get row k with Some v => v | None => JStr "" end)
      fieldnames.

(* response.get("has_more") is truthy *)
Definition has_more (response : json) : bool :=
  match py_get response "has_more" JNull with
  | Ok h => py_truthy h
  | Raise _ => false
  end.

(* response.get("next_cursor") *)
Definition next_cursor (response : json) : json :=
  match py_get response "next_cursor" JNull with
  | Ok c => c
  | Raise _ => JNull
  end.

(* i.get("row_count", 0) of a manifest item, as a number *)
Definition row_count (item : json) : Z :=
  match py_get item "row_count" (JInt 0) with
  | Ok (JInt n) => n
  | _ => 0
  end.

Definition total_rows (items : list json) : Z :=
  fold_right (fun i s => row_count i + s) 0 items.

(* a manifest item: a non-empty dict whose row count is a number *)
Definition is_item (v : json) : Prop :=
  py_truthy v = true /\
  exists n, py_index v "row_count" = Ok (JInt n) /\ 0 <= n.

(* every exception the computation can end with satisfies P *)
Definition raises_only {A} (P : exn -> Prop) (r : result A) : Prop :=
  forall e, r = Raise e -> P e.

Definition lookup_error (e : exn) : Prop :=
  e = AttributeError \/ e = TypeError.

Definition known_types : list string :=
  ["title"; "rich_text"; "number"; "select"; "multi_select"; "date";
   "checkbox"; "url"; "email"; "phone_number"; "status"; "relation";
   "formula"; "rollup"; "created_time"; "last_edited_time"; "created_by";
   "last_edited_by"; "people"; "files"].

(* where the text of one entry of a files property comes from *)
Definition file_text (f : json) (u : string) : Prop :=
  exists fd,
    f = JDict fd /\
    ((exists e, Dict.get fd "external" = Some (JDict e) /\
                Dict.get e "url" = Some (JStr u) /\ u <> "") \/
     (Dict.get fd "external" = None /\
      exists fl, Dict.get fd "file" = Some (JDict fl) /\
                 Dict.get fl "url" = Some (JStr u))).

(* the queries issued against replies rs, from the cursor on *)
Definition issued_for (id : string) (cursor : json) (rs : list json)
  : list Dict.t :=
  query_kwargs id cursor :: map (fun r => query_kwargs id (next_cursor r)) rs.

(* how a reply can make the fetcher raise *)
Definition reply_raises (bad : reply) (e : exn) : Prop :=
  (bad = Failure /\ e = APIResponseError) \/
  (exists r, bad = Response r /\ results_of r = Raise e).

(* the exceptions of the script's own computations *)
Definition plain_error (e : exn) : Prop :=
  e = AttributeError \/ e = TypeError \/ e = KeyError \/ e = ValueError.

(* an exception that is no request to leave the process *)
Definition not_exit (e : exn) : Prop :=
  match e with
  | SystemExit _ => False
  | _ => True
  end.

Section Vocabulary.

Context {RT : PyRuntime}.

(* a computation that never touches the file system *)
Definition fs_frame {A} (m : M A) : Prop :=
  forall w, fs (final_world (m w)) = fs w.

(* what the loop over the columns stores under the column c *)
Definition column_value (props : json) (c : string) (x : json) : Prop :=
  (py_in c props = Ok true /\
   exists p, py_index props c = Ok p /\ flatten_property p = Ok x) \/
  (py_in c props = Ok false /\ x = JStr "").


(* can the line of these cells be written to a text file of w? *)
Definition line_fits (w : world) (cells : list json) : bool :=
  forallb (encodable w) (map cell_text cells).

(* the exports of the databases one after the other, from the world w to the
   world w', with what each of them returned, in the order of the databases *)
Inductive exported (out : Path) (dry : bool)
  : world -> list json -> list json -> world -> Prop :=
| exported_nil (w : world) : exported out dry w [] [] w
| exported_cons (w w1 w' : world) (db r : json) (dbs rs : list json) :
    export_database db out dry w = Done r w1 ->
    exported out dry w1 dbs rs w' ->
    exported out dry w (db :: dbs) (r :: rs) w'.

(* the result of the export of db is nothing, or an item under the key of db *)
Definition item_of (db r : json) : Prop :=
  r = JNull \/
  (is_item r /\
   exists key, py_index db "key" = Ok key /\ py_index r "db_key" = Ok key).

Definition item3 (db_key : json) : json :=
  JDict [("db_key", db_key);
         ("output", JStr ("data/" ++ py_str db_key ++ ".csv"));
         ("row_count", JInt 0)].

Definition item4 (db_key : json) (rows columns : nat) : json :=
  JDict [("db_key", db_key);
         ("output", JStr ("data/" ++ py_str db_key ++ ".csv"));
         ("row_count", JInt (Z.of_nat rows));
         ("columns", JInt (Z.of_nat columns))].

(* a computation that never leaves the process *)
Definition never_exits {A} (m : M A) : Prop :=
  forall w e w', m w = Raised e w' -> not_exit e.

(* nothing of the service and of the file system has moved between w and w' *)
Definition untouched (w w' : world) : Prop :=
  queries w' = queries w /\ remote w' = remote w /\ fs w' = fs w.

(* a computation that leaves the environment and the clock alone *)
Definition settings_kept {A} (m : M A) : Prop :=
  forall w, env (final_world (m w)) = env w /\
            clock (final_world (m w)) = clock w.

(* os.getenv(name, default) at the start of the run *)
Definition getenv_or (w : world) (name default : string) : string :=
  match env w name with Some v => v | None => default end.






End Vocabulary.

(** ** A concrete runtime and sample data, for the closed examples *)

Module Demo.

(* paths as text; floats and containers are not printed by the examples *)
Definition runtime : PyRuntime := {|
  float_str := fun _ _ => "<float>";
  container_str := fun _ => "<object>";
  float_add := fun a _ => a;
  Path := string;
  path_of := fun s => s;
  path_div := fun p s => p ++ "/" ++ s;
  path_parent := fun p => String.concat "/" (removelast (split "/" p));
  path_str := fun p => p;
  path_eqb := String.eqb
|}.

Definition uuid : string := "0123456789abcdef0123456789abcdef".

(* the command line that names the bundle services and nothing else *)
Definition services : command_line := Namespace "services" None false.

Definition empty_world (script : list reply) : @world runtime :=
  mkWorld services
          (fun name => if String.eqb name "NOTION_TOKEN"
                       then Some "secret" else None)
          (fun _ => FileNotFound) "2024-01-01T00:00:00+00:00"
          (fun _ => true) (fun _ => true) script [] (mkFs [] []) [] [].

(* the world w of a process started with another command line *)
Definition called (c : command_line) (w : @world runtime) : @world runtime :=
  mkWorld c (env w) (config_files w) (clock w) (encodes w) (writable w)
          (remote w) (queries w) (fs w) (stdout w) (stderr w).

Definition text (s : string) : json :=
  JDict [("type", JStr "rich_text");
         ("rich_text", JList [JDict [("plain_text", JStr s)]])].

Definition record (id name status : string) : json :=
  JDict [("id", JStr id);
         ("last_edited_time", JStr "2024-01-01");
         ("properties",
          JDict [("Status", JDict [("type", JStr "status");
                                   ("status", JDict [("name", JStr status)])]);
                 ("Name", JDict [("type", JStr "title");
                                 ("title", JList [JDict [("plain_text",
                                                          JStr name)]])])])].

Definition page_reply (results : list json) (more : bool) (cursor : json)
  : json :=
  JDict [("object", JStr "list"); ("results", JList results);
         ("next_cursor", cursor); ("has_more", JBool more)].

Definition db (key url : string) : json :=
  JDict [("key", JStr key); ("notion_url", JStr url)].

(* n records numbered from start *)
Definition numbered (start n : nat) : list json :=
  map (fun i => JDict [("id", JStr (str_of_Z (Z.of_nat i)))]) (seq start n).

(* 150 records in two pages *)
Definition page1 : json := page_reply (numbered 0 100) true (JStr "cursor-1").
Definition page2 : json := page_reply (numbered 100 50) false JNull.

(* a bundle of a placeholder and of a database with three records *)
Definition three : list json :=
  [record "a" "N1" "Open"; record "b" "N2" "Done"; record "c" "N3" "Open"].

Definition bundle_config : json :=
  JDict [("export_bundles",
          JDict [("services",
                  JDict [("name", JStr "Services");
                         ("databases",
                          JList [db "pending" "TODO: paste the URL";
                                 db "svc" uuid])])])].

Definition bundle_world : @world runtime :=
  mkWorld services
          (fun name => if String.eqb name "NOTION_TOKEN"
                       then Some "secret" else None)
          (fun _ => Loaded bundle_config) "2024-01-01T00:00:00+00:00"
          (fun _ => true) (fun _ => true)
          [Response (page_reply three false JNull)] []
          (mkFs [] []) [] [].

(* a formula whose result is the empty text, and one whose result is null *)
Definition formula (value : json) : Dict.t :=
  [("type", JStr "formula");
   ("formula", JDict [("type", JStr "string"); ("string", value)])].

End Demo.

(** ** More sample data *)

Module Sample.


(* the same bundle against a service whose first query fails *)
Definition failing_world : @world Demo.runtime :=
  mkWorld Demo.services
          (fun name => if String.eqb name "NOTION_TOKEN"
                       then Some "secret" else None)
          (fun _ => Loaded Demo.bundle_config) "2024-01-01T00:00:00+00:00"
          (fun _ => true) (fun _ => true) [Failure] [] (mkFs [] []) [] [].

Definition run_args (dry : bool) : args :=
  mkArgs "services" "chittyos-export.yaml" dry.

Definition two_records : list json :=
  [Demo.record "a" "N1" "Open"; Demo.record "b" "N2" "Done"].



(* a process whose text files are ASCII, and a record with a name that is not *)
Definition ascii_only (c : ascii) : bool := (nat_of_ascii c <? 128)%nat.

Definition ascii_world (script : list reply) : @world Demo.runtime :=
  mkWorld Demo.services
          (fun name => if String.eqb name "NOTION_TOKEN"
                       then Some "secret" else None)
          (fun _ => FileNotFound) "2024-01-01T00:00:00+00:00"
          ascii_only (fun _ => true) script [] (mkFs [] []) [] [].

Definition accented : json :=
  Demo.record "c" (String "233"%char EmptyString) "Open".

End Sample.

(** * Properties *)

(** ** Strings and sorting *)

Lemma split_not_nil (sep : ascii) (s : string) : split sep s <> [].
Proof.
  induction s as [|c s IH]; simpl; [discriminate|].
  destruct (Ascii.eqb c sep); [discriminate|].
  destruct (split sep s); discriminate.
Qed.

(* joining the pieces with the separator gives the string back *)
Lemma concat_split (sep : ascii) (s : string) :
  String.concat (String sep "") (split sep s) = s.
Proof.
  induction s as [|c s IH]; simpl; [reflexivity|].
  destruct (Ascii.eqb_spec c sep) as [->|Hne].
  - pose proof (split_not_nil sep s) as Hnil.
    simpl. destruct (split sep s) as [|h t]; [contradiction|].
    simpl in *. now rewrite IH.
  - pose proof (split_not_nil sep s) as Hnil.
    destruct (split sep s) as [|h t]; [contradiction|].
    simpl in *. destruct t; simpl in *; now rewrite <- IH.
Qed.

(* no piece contains the separator *)
Lemma split_no_sep (sep : ascii) (s : string) :
  Forall (fun p => has_char sep p = false) (split sep s).
Proof.
  induction s as [|c s IH]; simpl.
  - repeat constructor.
  - destruct (Ascii.eqb c sep) eqn:E.
    + constructor; [reflexivity | exact IH].
    + destruct (split sep s) as [|h t]; inversion IH; subst;
        constructor; simpl; try rewrite E; auto.
Qed.

(* the first piece is what stands before the first separator *)
Lemma hd_split (sep : ascii) (s : string) :
  has_char sep (hd "" (split sep s)) = false /\
  (hd "" (split sep s) = s \/
   exists rest, s = hd "" (split sep s) ++ String sep rest).
Proof.
  split.
  - pose proof (split_no_sep sep s) as H.
    destruct (split sep s); [reflexivity | now inversion H].
  - induction s as [|c s IH]; simpl; [now left|].
    destruct (Ascii.eqb_spec c sep) as [->|Hne]; simpl.
    + right. now exists s.
    + pose proof (split_not_nil sep s) as Hnil.
      destruct (split sep s) as [|h t]; [contradiction|]. simpl in *.
      destruct IH as [-> | [rest ->]]; [now left|].
      right. now exists rest.
Qed.

Lemma append_nil_r (s : string) : s ++ "" = s.
Proof. induction s; simpl; congruence. Qed.

Lemma append_assoc (a b c : string) : (a ++ b) ++ c = a ++ b ++ c.
Proof. induction a; simpl; congruence. Qed.

Lemma concat_last (sep : string) (l : list string) :
  l <> [] ->
  exists front,
    String.concat sep l = front ++ last l "" /\
    (front = "" \/ exists f, front = f ++ sep).
Proof.
  induction l as [|x l IH]; [congruence|]. intros _.
  destruct l as [|y t].
  - exists "". simpl. auto.
  - destruct IH as (front & Hc & Hf); [discriminate|].
    exists (x ++ sep ++ front). split.
    + change (String.concat sep (x :: y :: t))
        with (x ++ sep ++ String.concat sep (y :: t)).
      change (last (x :: y :: t) "") with (last (y :: t) "").
      now rewrite Hc, !append_assoc.
    + right. destruct Hf as [-> | [f ->]].
      * exists x. now rewrite append_nil_r.
      * exists (x ++ sep ++ f). now rewrite !append_assoc.
Qed.

(* the last piece is what stands after the last separator *)
Lemma last_split (sep : ascii) (s : string) :
  has_char sep (last (split sep s) "") = false /\
  exists front,
    s = front ++ last (split sep s) "" /\
    (front = "" \/ exists f, front = f ++ String sep "").
Proof.
  split.
  - pose proof (split_no_sep sep s) as H.
    induction H as [|p l Hp Hl IH]; [reflexivity|].
    destruct l; [exact Hp | exact IH].
  - destruct (concat_last (String sep "") (split sep s) (split_not_nil sep s))
      as (front & Hc & Hf).
    rewrite concat_split in Hc. now exists front.
Qed.

Lemma remove_char_gone (c : ascii) (s : string) :
  has_char c (remove_char c s) = false.
Proof.
  induction s as [|a s IH]; simpl; [reflexivity|].
  destruct (Ascii.eqb a c) eqn:E; simpl; [exact IH | now rewrite E].
Qed.

(* replace keeps every other character, in order *)
Lemma remove_char_filter (c : ascii) (s : string) :
  list_ascii_of_string (remove_char c s)
  = filter (fun a => negb (Ascii.eqb a c)) (list_ascii_of_string s).
Proof.
  induction s as [|a s IH]; simpl; [reflexivity|].
  destruct (Ascii.eqb a c); simpl; congruence.
Qed.

Lemma insert_sorted_perm (x : string) (l : list string) :
  Permutation (x :: l) (insert_sorted x l).
Proof.
  induction l as [|y l IH]; simpl; [reflexivity|].
  destruct (String.leb x y); [reflexivity|].
  rewrite perm_swap. now constructor.
Qed.

Lemma sorted_perm (l : list string) : Permutation l (sorted l).
Proof.
  induction l as [|x l IH]; simpl; [constructor|].
  rewrite <- insert_sorted_perm. now constructor.
Qed.




(** ** Identifier resolver *)

(** C6. A reference that is no placeholder and does not contain the web
    domain marker resolves to itself with its hyphens removed when that
    leaves exactly 32 characters, and to itself unchanged otherwise.
    Removing the hyphens keeps every other character in place. *)
Theorem resolver_raw_reference (s : string) :
  startswith s "TODO:" = false ->
  contains "notion.so" s = false ->
  let clean := remove_char "-" s in
  extract_notion_id s
  = Some (if (String.length clean =? 32)%nat then clean else s) /\
  list_ascii_of_string clean
  = filter (fun a => negb (Ascii.eqb a "-")) (list_ascii_of_string s).
Proof.
  intros Htodo Hdom clean. split.
  - unfold extract_notion_id, raw_uuid. rewrite Htodo, Hdom. reflexivity.
  - apply remove_char_filter.
Qed.

(** C5, as amended. A reference that is no placeholder and contains the web
    domain marker: the text before the first question mark is cut at its last
    slash and then at its last hyphen, and when what remains has exactly 32
    characters the resolver returns it. *)
Theorem resolver_url (s : string) :
  startswith s "TODO:" = false ->
  contains "notion.so" s = true ->
  String.length (url_raw_id s) = 32%nat ->
  extract_notion_id s = Some (url_raw_id s) /\
  has_char "-" (url_raw_id s) = false /\
  has_char "/" (url_raw_id s) = false /\
  has_char "?" (url_raw_id s) = false.
Proof.
  intros Htodo Hdom Hlen.
  unfold extract_notion_id. rewrite Htodo, Hdom, Hlen. simpl.
  split; [reflexivity|].
  unfold url_raw_id.
  set (path := hd "" (split "?" s)).
  set (seg := last (split "/" path) "").
  destruct (last_split "-" seg) as [Hh [f1 [E1 _]]].
  destruct (last_split "/" path) as [Hs [f2 [E2 _]]].
  destruct (hd_split "?" s) as [Hq _].
  fold path in Hq. fold seg in Hs, E2.
  assert (sub : forall c a b, has_char c (a ++ b) = false ->
                              has_char c b = false).
  { intros c a b. induction a as [|x a IH]; simpl; [auto|].
    intros H. apply orb_false_iff in H. now apply IH. }
  split; [exact Hh|]. split.
  - apply (sub _ f1). now rewrite <- E1.
  - apply (sub _ f1). rewrite <- E1. apply (sub _ f2). now rewrite <- E2.
Qed.

(** C5, the claim as written fails: a placeholder that contains the web
    domain marker and ends in a 32-character segment is not resolved. *)
Lemma resolver_url_placeholder :
  let s := "TODO:https://www.notion.so/ws/Services-0123456789abcdef0123456789abcdef?v=1" in
  contains "notion.so" s = true /\
  String.length (url_raw_id s) = 32%nat /\
  extract_notion_id s = None /\
  extract_notion_id s <> Some (url_raw_id s).
Proof. repeat split; try reflexivity. discriminate. Qed.

(** ** Property flattener *)

Section Flattener.

Context {RT : PyRuntime}.

(* what the formula branch, and the rollup branch off arrays, compute *)
Lemma flatten_tagged (kind : string) (d f : Dict.t) (t : string) :
  kind = "formula" \/ kind = "rollup" /\ t <> "array" ->
  Dict.get d "type" = Some (JStr kind) ->
  py_get (JDict d) kind (JDict []) = Ok (JDict f) ->
  py_get (JDict f) "type" (JStr "") = Ok (JStr t) ->
  flatten_property (JDict d)
  = Ok (JStr (match Dict.get f t with Some v => py_str v | None => "" end)).
Proof.
  intros Hkind Htype Hf Ht.
  unfold flatten_property.
  change (py_get (JDict d) "type" (JStr "")) with
    (Ok (A := json) (match Dict.get d "type" with
                     | Some x => x | None => JStr "" end)).
  rewrite Htype.
  destruct Hkind as [-> | [-> Hna]]; cbn [rbind is_str String.eqb Ascii.eqb
                                           Bool.eqb].
  - rewrite Hf. cbn [rbind]. rewrite Ht. cbn [rbind py_get_dyn].
    destruct (Dict.get f t); reflexivity.
  - rewrite Hf. cbn [rbind]. rewrite Ht. cbn [rbind is_str].
    apply String.eqb_neq in Hna. rewrite Hna. cbn [py_get_dyn rbind].
    destruct (Dict.get f t); reflexivity.
Qed.

(** C10, as amended. A formula property, or a rollup property whose
    result-type tag is not an array, whose value under its own result-type tag
    is null flattens to the text None; it flattens to the empty text when the
    tagged key is absent, and only then or when the value under the tag itself
    prints as the empty text. *)
Theorem flatten_null_is_None (kind : string) (d f : Dict.t) (t : string) :
  kind = "formula" \/ kind = "rollup" /\ t <> "array" ->
  Dict.get d "type" = Some (JStr kind) ->
  py_get (JDict d) kind (JDict []) = Ok (JDict f) ->
  py_get (JDict f) "type" (JStr "") = Ok (JStr t) ->
  (Dict.get f t = Some JNull -> flatten_property (JDict d) = Ok (JStr "None")) /\
  (Dict.get f t = None -> flatten_property (JDict d) = Ok (JStr "")) /\
  (flatten_property (JDict d) = Ok (JStr "") ->
   Dict.get f t = None \/
   exists v, Dict.get f t = Some v /\ v <> JNull /\ py_str v = "").
Proof.
  intros Hkind Htype Hf Ht.
  rewrite (flatten_tagged kind d f t Hkind Htype Hf Ht).
  split; [|split].
  - now intros ->.
  - now intros ->.
  - destruct (Dict.get f t) as [v|]; [|now left].
    intros H. right. exists v. split; [reflexivity|].
    injection H as H. split; [|exact H].
    intros ->. discriminate.
Qed.

End Flattener.

(** ** Runs: what they leave untouched *)

Section Frames.

Context {RT : PyRuntime}.

Lemma fs_frame_ret {A} (a : A) : fs_frame (ret a).
Proof. now intros w. Qed.

Lemma fs_frame_raise {A} (e : exn) : fs_frame (raise (A := A) e).
Proof. now intros w. Qed.

Lemma fs_frame_lift {A} (r : result A) : fs_frame (lift r).
Proof. destruct r; now intros w. Qed.

Lemma fs_frame_bind {A B} (m : M A) (k : A -> M B) :
  fs_frame m -> (forall a, fs_frame (k a)) -> fs_frame (bind m k).
Proof.
  intros Hm Hk w. unfold bind. specialize (Hm w).
  destruct (m w) as [a w1|e w1|w1]; simpl in *; [|assumption..].
  now rewrite Hk.
Qed.

Lemma fs_frame_print (s : string) : fs_frame (print s).
Proof. now intros w. Qed.

Lemma fs_frame_print_json (v : json) : fs_frame (print_json v).
Proof. intros w. unfold print_json. now destruct (serializable v). Qed.

Lemma fs_frame_eprint (s : string) : fs_frame (eprint s).
Proof. now intros w. Qed.

Lemma fs_frame_getenv (name default : string) : fs_frame (getenv name default).
Proof. now intros w. Qed.

Lemma fs_frame_query (kwargs : Dict.t) : fs_frame (databases_query kwargs).
Proof. intros w. unfold databases_query. now destruct (remote w) as [|[]]. Qed.

Lemma fs_frame_utcnow : fs_frame utcnow_isoformat.
Proof. now intros w. Qed.

Lemma fs_frame_load (path : string) : fs_frame (load_yaml_config path).
Proof. intros w. unfold load_yaml_config. now destruct (config_files w path). Qed.


Ltac frame :=
  repeat first
    [ apply fs_frame_ret | apply fs_frame_raise | apply fs_frame_lift
    | apply fs_frame_print | apply fs_frame_print_json | apply fs_frame_eprint
    | apply fs_frame_getenv | apply fs_frame_query | apply fs_frame_load
    | apply fs_frame_utcnow
    | apply fs_frame_bind; [|intros ?]
    | match goal with
      | |- fs_frame (if ?b then _ else _) => destruct b
      | |- fs_frame (match ?x with _ => _ end) => destruct x
      end ].

Lemma fs_frame_query_loop (fuel : nat) (id : string) (cursor : json)
    (pages : list json) : fs_frame (query_loop fuel id cursor pages).
Proof.
  revert cursor pages.
  induction fuel as [|fuel IH]; intros cursor pages; simpl.
  - now intros w.
  - frame. apply IH.
Qed.

Lemma fs_frame_query_all_pages (id : string) : fs_frame (query_all_pages id).
Proof. intros w. apply fs_frame_query_loop. Qed.

Lemma fs_frame_export_database (db_config : json) (out : Path) :
  fs_frame (export_database db_config out true).
Proof.
  unfold export_database. frame; try apply fs_frame_query_all_pages.
Qed.

Lemma fs_frame_export_all (dbs : list json) (out : Path) (items : list json) :
  fs_frame (export_all dbs out true items).
Proof.
  revert items. induction dbs as [|db dbs IH]; intros items; simpl.
  - frame.
  - apply fs_frame_bind; [apply fs_frame_export_database | intros r; apply IH].
Qed.

End Frames.

(** ** Dictionaries *)

Lemma get_set_same (d : Dict.t) (k : string) (v : json) :
  Dict.get (Dict.set d k v) k = Some v.
Proof.
  induction d as [|[k' v'] d IH]; simpl.
  - now rewrite String.eqb_refl.
  - destruct (String.eqb k' k) eqn:E; simpl.
    + now rewrite String.eqb_refl.
    + now rewrite E.
Qed.

Lemma get_set_other (d : Dict.t) (k k' : string) (v : json) :
  k <> k' -> Dict.get (Dict.set d k v) k' = Dict.get d k'.
Proof.
  intros Hne. induction d as [|[k0 v0] d IH]; simpl.
  - apply String.eqb_neq in Hne. now rewrite Hne.
  - destruct (String.eqb_spec k0 k) as [->|Hk]; simpl.
    + apply String.eqb_neq in Hne. now rewrite Hne.
    + now rewrite IH.
Qed.

Lemma In_keys (d : Dict.t) (k : string) :
  In k (Dict.keys d) <-> Dict.get d k <> None.
Proof.
  induction d as [|[k0 v0] d IH]; simpl.
  - split; [contradiction | congruence].
  - destruct (String.eqb_spec k0 k) as [->|Hk].
    + split; [discriminate | now left].
    + rewrite <- IH. split.
      * intros [H|H]; [contradiction|]. now apply in_remove in H.
      * intros H. right. apply in_in_remove; [congruence | exact H].
Qed.

Lemma In_keys_set (d : Dict.t) (k k' : string) (v : json) :
  In k' (Dict.keys (Dict.set d k v)) <-> k' = k \/ In k' (Dict.keys d).
Proof.
  rewrite !In_keys.
  destruct (string_dec k k') as [->|Hne].
  - rewrite get_set_same. split; [now left | discriminate].
  - rewrite get_set_other by exact Hne. split; [now right|].
    intros [->|H]; [contradiction | exact H].
Qed.

Lemma mem_In_keys (d : Dict.t) (k : string) :
  Dict.mem k d = true <-> In k (Dict.keys d).
Proof.
  rewrite In_keys. unfold Dict.mem.
  destruct (Dict.get d k); split; congruence.
Qed.

(** ** Inverting runs *)

Lemma rbind_Ok {A B} (r : result A) (k : A -> result B) (b : B) :
  rbind r k = Ok b -> exists a, r = Ok a /\ k a = Ok b.
Proof. destruct r; simpl; [eauto | discriminate]. Qed.

Lemma map_result_length {A B} (f : A -> result B) (l : list A) (l' : list B) :
  map_result f l = Ok l' -> List.length l' = List.length l.
Proof.
  revert l'. induction l as [|a l IH]; simpl; intros l' H.
  - now injection H as <-.
  - apply rbind_Ok in H as (b & _ & H).
    apply rbind_Ok in H as (bs & Hbs & H). injection H as <-.
    simpl. f_equal. now apply IH.
Qed.

Lemma map_result_Forall2 {A B} (f : A -> result B) (l : list A) (l' : list B) :
  map_result f l = Ok l' -> Forall2 (fun a b => f a = Ok b) l l'.
Proof.
  revert l'. induction l as [|a l IH]; simpl; intros l' H.
  - injection H as <-. constructor.
  - apply rbind_Ok in H as (b & Hb & H).
    apply rbind_Ok in H as (bs & Hbs & H). injection H as <-.
    constructor; [exact Hb | now apply IH].
Qed.

Section Runs.

Context {RT : PyRuntime}.

Lemma bind_Done {A B} (m : M A) (k : A -> M B) (w w' : world) (b : B) :
  bind m k w = Done b w' ->
  exists a w1, m w = Done a w1 /\ k a w1 = Done b w'.
Proof. unfold bind. destruct (m w); [eauto | discriminate..]. Qed.

Lemma lift_Done {A} (r : result A) (w w' : world) (a : A) :
  lift r w = Done a w' -> r = Ok a /\ w' = w.
Proof.
  destruct r; simpl; [|discriminate].
  unfold ret. intros H. now injection H as -> ->.
Qed.

Lemma print_Done (s : string) (w w' : world) (u : unit) :
  print s w = Done u w' -> w' = with_stdout w (stdout w ++ [Text s]).
Proof. unfold print. intros H. now injection H as _ <-. Qed.

Lemma write_line_Done (p : Path) (cells : list string) (after : content)
    (w w' : world) (u : unit) :
  write_line p cells after w = Done u w' ->
  forallb (encodable w) cells = true /\
  w' = with_fs w (put_file p after (fs w)).
Proof.
  unfold write_line. destruct (forallb _ cells); [|discriminate].
  intros H. now injection H as <-.
Qed.

Lemma writerows_Done (p : Path) (fn : list string) (rows : list Dict.t)
    (written : list (list json)) (w w' : world) (u : unit) :
  writerows p fn rows written w = Done u w' ->
  exists cells,
    map_result (dict_to_list fn) rows = Ok cells /\
    stdout w' = stdout w /\
    (rows = [] -> w' = w) /\
    (rows <> [] ->
     hd_error (files (fs w')) = Some (p, CsvFile fn (written ++ cells))).
Proof.
  revert written w. induction rows as [|r rows IH]; intros written w H; simpl in H.
  - unfold ret in H. injection H as _ <-. exists []. repeat split; auto. congruence.
  - apply bind_Done in H as (cells & w1 & H1 & H).
    apply lift_Done in H1 as [Hc ->].
    apply bind_Done in H as ([] & w2 & H2 & H).
    apply write_line_Done in H2 as [_ ->].
    apply IH in H as (rest & Hrest & Hout & Hnil & Hcons).
    exists (cells :: rest). simpl. rewrite Hc, Hrest. simpl.
    split; [reflexivity|]. split; [rewrite Hout; reflexivity|].
    split; [discriminate|]. intros _.
    destruct rows as [|r' rows'].
    + rewrite (Hnil eq_refl). simpl in Hrest. injection Hrest as <-. reflexivity.
    + rewrite Hcons by discriminate. now rewrite <- app_assoc.
Qed.

Lemma fill_columns_spec (columns : list string) (props : json)
    (row0 row : Dict.t) :
  fill_columns columns props row0 = Ok row ->
  (forall c, In c (Dict.keys row) <-> In c columns \/ In c (Dict.keys row0)) /\
  (forall c, In c columns ->
             exists x, Dict.get row c = Some x /\ column_value props c x) /\
  (forall c, ~ In c columns -> Dict.get row c = Dict.get row0 c).
Proof.
  revert row0. induction columns as [|col rest IH]; intros row0 H; simpl in H.
  - injection H as <-. repeat split; simpl; tauto.
  - apply rbind_Ok in H as (present & Hin & H).
    apply rbind_Ok in H as (v & Hv & H).
    apply IH in H as (Hkeys & Hvals & Hother).
    assert (Hcv : column_value props col v).
    { destruct present.
      - apply rbind_Ok in Hv as (p & Hp & Hf). left. eauto.
      - injection Hv as <-. right. auto. }
    split; [|split].
    + intros c. rewrite Hkeys, In_keys_set. simpl. intuition congruence.
    + intros c Hc.
      destruct (in_dec string_dec c rest) as [Hr|Hr]; [now apply Hvals|].
      destruct Hc as [<-|Hc]; [|contradiction].
      exists v. split; [|exact Hcv].
      rewrite (Hother _ Hr). apply get_set_same.
    + intros c Hc. simpl in Hc.
      rewrite Hother by tauto. apply get_set_other. tauto.
Qed.

Lemma build_row_spec (columns : list string) (page : json) (row : Dict.t) :
  build_row columns page = Ok row ->
  exists props,
    py_get page "properties" (JDict []) = Ok props /\
    (forall c, In c (Dict.keys row) <->
               In c (columns ++ ["_notion_id"; "_last_edited"])) /\
    py_get page "last_edited_time" (JStr "") = Ok
      (match Dict.get row "_last_edited" with Some x => x | None => JNull end) /\
    py_get page "id" (JStr "") = Ok
      (match Dict.get row "_notion_id" with Some x => x | None => JNull end) /\
    (forall c, In c columns -> c <> "_notion_id" -> c <> "_last_edited" ->
               exists x, Dict.get row c = Some x /\ column_value props c x).
Proof.
  unfold build_row. intros H.
  apply rbind_Ok in H as (props & Hprops & H).
  apply rbind_Ok in H as (row1 & Hfill & H).
  apply rbind_Ok in H as (id & Hid & H).
  apply rbind_Ok in H as (edited & Hed & H).
  injection H as <-.
  apply fill_columns_spec in Hfill as (Hkeys & Hvals & _).
  exists props. split; [exact Hprops|]. split; [|split; [|split]].
  - intros c. rewrite !In_keys_set, Hkeys, in_app_iff. simpl. intuition.
  - now rewrite get_set_same.
  - rewrite get_set_other by discriminate. now rewrite get_set_same.
  - intros c Hc Hn He. rewrite !get_set_other by congruence. now apply Hvals.
Qed.

(* what an export does with the records it has fetched *)
Lemma export_database_fetched (cfg db_key : json) (url id : string)
    (out : Path) (dry : bool) (w w1 w2 w' : world) (pages : list json)
    (v : json) :
  py_index cfg "key" = Ok db_key ->
  py_get cfg "notion_url" (JStr "") = Ok (JStr url) ->
  extract_notion_id url = Some id -> id <> "" ->
  print ("  Exporting '" ++ py_str db_key ++ "' (ID: "
         ++ take 8 id ++ "...)") w = Done tt w1 ->
  query_all_pages id w1 = Done pages w2 ->
  export_database cfg out dry w = Done v w' ->
  (pages = [] /\ v = item3 db_key /\ fs w' = fs w) \/
  exists first rest first_props rows,
    pages = first :: rest /\
    py_get first "properties" (JDict []) = Ok (JDict first_props) /\
    let columns := sorted (Dict.keys first_props) in
    let all_columns := (columns ++ ["_notion_id"; "_last_edited"])%list in
    map_result (build_row columns) pages = Ok rows /\
    v = item4 db_key (List.length rows) (List.length all_columns) /\
    if dry then
      fs w' = fs w /\
      stdout w' = (stdout w2 ++
        [Text ("    Fetched " ++ py_str (len pages) ++ " rows");
         Text ("    [DRY RUN] Would write " ++ py_str (len rows)
               ++ " rows to data/" ++ py_str db_key ++ ".csv")])%list
    else
      exists cells,
        map_result (dict_to_list all_columns) rows = Ok cells /\
        hd_error (files (fs w'))
        = Some (path_div (path_div out "data") (py_str db_key ++ ".csv"),
                CsvFile all_columns cells).
Proof.
  intros Hkey Hurl Hid Hne H1 H2 H.
  apply String.eqb_neq in Hne.
  unfold export_database in H.
  unfold bind at 1 in H. rewrite Hkey in H. cbn [lift ret] in H.
  unfold bind at 1 in H. rewrite Hurl in H. cbn [lift ret] in H.
  unfold bind at 1 in H. cbn [lift ret] in H. rewrite Hid, Hne in H.
  unfold bind at 1 in H. rewrite H1 in H.
  unfold bind at 1 in H. rewrite H2 in H.
  assert (Hfs : fs w2 = fs w).
  { pose proof (fs_frame_query_all_pages id w1) as F.
    rewrite H2 in F. simpl in F. rewrite F.
    apply print_Done in H1. now subst w1. }
  apply bind_Done in H as ([] & w3 & H3 & H).
  apply print_Done in H3.
  destruct pages as [|first rest].
  - left. apply bind_Done in H as ([] & w4 & H4 & H).
    apply print_Done in H4. unfold ret in H. injection H as <- <-.
    subst. auto.
  - right.
    apply bind_Done in H as (fp & w4 & H4 & H).
    apply lift_Done in H4 as [Hfp ->].
    apply bind_Done in H as (keys & w4 & H4 & H).
    apply lift_Done in H4 as [Hkeys ->].
    destruct fp as [| | | | | |first_props|]; try discriminate.
    injection Hkeys as <-.
    apply bind_Done in H as (rows & w4 & H4 & H).
    apply lift_Done in H4 as [Hrows ->].
    exists first, rest, first_props, rows.
    split; [reflexivity|]. split; [exact Hfp|].
    cbv zeta. split; [exact Hrows|].
    apply bind_Done in H as ([] & w4 & H4 & H).
    unfold ret in H. injection H as <- <-.
    split; [reflexivity|].
    destruct dry.
    + apply print_Done in H4. subst w4 w3. simpl. split; [exact Hfs|].
      now rewrite <- app_assoc.
    + apply bind_Done in H4 as ([] & w5 & H5 & H4).
      apply bind_Done in H4 as ([] & w6 & H6 & H4).
      apply bind_Done in H4 as ([] & w7 & H7 & H4).
      apply bind_Done in H4 as ([] & w8 & H8 & H4).
      apply print_Done in H4.
      apply writerows_Done in H8 as (cells & Hcells & _ & _ & Hhd).
      exists cells. split; [exact Hcells|].
      subst w4. simpl. apply Hhd.
      destruct rows; [|discriminate].
      apply map_result_length in Hrows. discriminate.
Qed.

(* a completed export has skipped the database or has fetched its records *)
Lemma export_database_resolved (cfg : json) (out : Path) (dry : bool)
    (w w' : world) (v : json) :
  export_database cfg out dry w = Done v w' ->
  exists db_key,
    py_index cfg "key" = Ok db_key /\
    ((v = JNull /\ queries w' = queries w /\ remote w' = remote w /\
      fs w' = fs w) \/
     exists url id w1 pages w2,
       py_get cfg "notion_url" (JStr "") = Ok (JStr url) /\
       extract_notion_id url = Some id /\ id <> "" /\
       print ("  Exporting '" ++ py_str db_key ++ "' (ID: "
              ++ take 8 id ++ "...)") w = Done tt w1 /\
       query_all_pages id w1 = Done pages w2).
Proof.
  unfold export_database. intros H.
  apply bind_Done in H as (db_key & w0 & H0 & H).
  apply lift_Done in H0 as [Hkey ->].
  exists db_key. split; [exact Hkey|].
  apply bind_Done in H as (url & w0 & H0 & H).
  apply lift_Done in H0 as [Hurl ->].
  apply bind_Done in H as (db_id & w0 & H0 & H).
  apply lift_Done in H0 as [Hid ->].
  assert (Hskip : forall s, (bind (eprint s) (fun _ => ret JNull)) w = Done v w' ->
            v = JNull /\ queries w' = queries w /\ remote w' = remote w /\
            fs w' = fs w).
  { intros s Hs. unfold bind, eprint, ret in Hs. injection Hs as <- <-. auto. }
  destruct db_id as [id|]; [|left; eapply Hskip; exact H].
  destruct (String.eqb id "") eqn:Hne; [left; eapply Hskip; exact H|].
  right.
  destruct url as [| | | |url| | |]; try discriminate.
  injection Hid as Hid. apply String.eqb_neq in Hne.
  apply bind_Done in H as ([] & w1 & H1 & H).
  apply bind_Done in H as (pages & w2 & H2 & H).
  exists url, id, w1, pages, w2. auto.
Qed.

Lemma export_database_Done (cfg : json) (out : Path) (dry : bool)
    (w w' : world) (v : json) :
  export_database cfg out dry w = Done v w' ->
  exists db_key,
    py_index cfg "key" = Ok db_key /\
    ((v = JNull /\ queries w' = queries w /\ remote w' = remote w /\
      fs w' = fs w) \/
     exists id w1 pages w2,
       print ("  Exporting '" ++ py_str db_key ++ "' (ID: "
              ++ take 8 id ++ "...)") w = Done tt w1 /\
       query_all_pages id w1 = Done pages w2 /\
       ((pages = [] /\ v = item3 db_key /\ fs w' = fs w) \/
        exists first rest first_props rows,
          pages = first :: rest /\
          py_get first "properties" (JDict []) = Ok (JDict first_props) /\
          let columns := sorted (Dict.keys first_props) in
          let all_columns := (columns ++ ["_notion_id"; "_last_edited"])%list in
          map_result (build_row columns) pages = Ok rows /\
          v = item4 db_key (List.length rows) (List.length all_columns) /\
          if dry then
            fs w' = fs w /\
            stdout w' = (stdout w2 ++
              [Text ("    Fetched " ++ py_str (len pages) ++ " rows");
               Text ("    [DRY RUN] Would write " ++ py_str (len rows)
                     ++ " rows to data/" ++ py_str db_key ++ ".csv")])%list
          else
            exists cells,
              map_result (dict_to_list all_columns) rows = Ok cells /\
              hd_error (files (fs w'))
              = Some (path_div (path_div out "data") (py_str db_key ++ ".csv"),
                      CsvFile all_columns cells))).
Proof.
  intros H. pose proof H as H0.
  apply export_database_resolved in H
    as (db_key & Hkey &
        [Hskip | (url & id & w1 & pages & w2 & Hurl & Hid & Hne & Hp & Hq)]).
  - exists db_key. split; [exact Hkey | now left].
  - exists db_key. split; [exact Hkey|]. right.
    exists id, w1, pages, w2. split; [exact Hp|]. split; [exact Hq|].
    exact (export_database_fetched cfg db_key url id out dry w w1 w2 w' pages v
             Hkey Hurl Hid Hne Hp Hq H0).
Qed.



Lemma py_get_missing (page : json) (k : string) (v : json) :
  py_get page k (JStr "") = Ok v -> py_in k page <> Ok true -> v = JStr "".
Proof.
  destruct page; simpl; try discriminate.
  unfold Dict.mem. destruct (Dict.get d k); [congruence|].
  now intros [= <-].
Qed.

(* one row against the fixed column set *)
Lemma build_row_columns (columns : list string) (page : json) (row : Dict.t) :
  build_row columns page = Ok row ->
  let all_columns := (columns ++ ["_notion_id"; "_last_edited"])%list in
  (forall c, In c (Dict.keys row) <-> In c all_columns) /\
  (forall c, In c all_columns -> ~ record_provides page c ->
             Dict.get row c = Some (JStr "")) /\
  (forall c, In c columns -> c <> "_notion_id" -> c <> "_last_edited" ->
             forall props p,
               py_get page "properties" (JDict []) = Ok props ->
               py_index props c = Ok p ->
               exists x, flatten_property p = Ok x /\ Dict.get row c = Some x).
Proof.
  intros H all_columns.
  apply build_row_spec in H as (props & Hprops & Hkeys & Hed & Hid & Hvals).
  split; [exact Hkeys|]. split.
  - intros c Hc Hlack.
    assert (Hsome : forall k, In k all_columns -> exists x, Dict.get row k = Some x).
    { intros k Hk. apply Hkeys, In_keys in Hk.
      destruct (Dict.get row k); [eauto | congruence]. }
    destruct (string_dec c "_last_edited") as [->|He].
    { destruct (Hsome _ Hc) as [x Hx]. rewrite Hx in Hed |- *.
      f_equal. eapply py_get_missing; [exact Hed|].
      intros Hin. apply Hlack. right. right. auto. }
    destruct (string_dec c "_notion_id") as [->|Hn].
    { destruct (Hsome _ Hc) as [x Hx]. rewrite Hx in Hid |- *.
      f_equal. eapply py_get_missing; [exact Hid|].
      intros Hin. apply Hlack. right. left. auto. }
    assert (Hcol : In c columns).
    { unfold all_columns in Hc. apply in_app_iff in Hc as [Hc|Hc]; [exact Hc|].
      simpl in Hc. intuition congruence. }
    destruct (Hvals c Hcol Hn He) as (x & Hx & [[Hin _] | [_ ->]]);
      [|exact Hx].
    exfalso. apply Hlack. left. eauto.
  - intros c Hc Hn He props' p Hprops' Hp.
    rewrite Hprops in Hprops'. injection Hprops' as <-.
    destruct (Hvals c Hc Hn He) as (x & Hx & [[_ (p' & Hp' & Hf)] | [Hin _]]).
    + rewrite Hp in Hp'. injection Hp' as <-. eauto.
    + exfalso. destruct props; try discriminate. simpl in Hp, Hin.
      unfold Dict.mem in Hin. destruct (Dict.get d c); discriminate.
Qed.




(** C2. A reference that begins with the placeholder marker is not
    resolvable; the export of a database configured with it issues no query,
    returns no manifest item, and the run goes on to the next database with
    the manifest as it was. *)
Theorem placeholder_skipped (cfg : json) (url : string) (out : Path)
    (dry : bool) (w : world) :
  startswith url "TODO:" = true ->
  py_get cfg "notion_url" (JStr "") = Ok (JStr url) ->
  extract_notion_id url = None /\
  queries (final_world (export_database cfg out dry w)) = queries w /\
  (forall v w', export_database cfg out dry w = Done v w' -> v = JNull) /\
  (forall db_key, py_index cfg "key" = Ok db_key ->
     exists w',
       export_database cfg out dry w = Done JNull w' /\
       queries w' = queries w /\ remote w' = remote w /\ fs w' = fs w /\
       forall rest items,
         export_all (cfg :: rest) out dry items w
         = export_all rest out dry items w').
Proof.
  intros Htodo Hurl.
  assert (Hid : extract_notion_id url = None).
  { unfold extract_notion_id. now rewrite Htodo. }
  split; [exact Hid|].
  assert (Hrun : forall db_key, py_index cfg "key" = Ok db_key ->
            export_database cfg out dry w
            = Done JNull (with_stderr w (stderr w ++
                [Text ("  Skipping '" ++ py_str db_key
                       ++ "': placeholder URL")]))).
  { intros db_key Hkey. unfold export_database, bind.
    rewrite Hkey. cbn [lift ret]. rewrite Hurl. cbn [lift ret].
    rewrite Hid. reflexivity. }
  destruct (py_index cfg "key") as [db_key|e] eqn:Hkey.
  - rewrite (Hrun db_key eq_refl). split; [reflexivity|].
    split; [now intros v w' [= <- _]|].
    intros k [= <-]. eexists. split; [reflexivity|].
    repeat split. intros rest items. simpl. unfold bind at 1.
    rewrite (Hrun db_key eq_refl). reflexivity.
  - assert (Hraise : export_database cfg out dry w = Raised e w).
    { unfold export_database, bind. now rewrite Hkey. }
    rewrite Hraise. split; [reflexivity|].
    split; [discriminate|]. discriminate.
Qed.

(** C7. When the fetch returns no record, in dry-run and in real mode alike,
    the export returns a manifest item whose row count is 0, the item joins
    the manifest, and the file system is left as it was. *)
Theorem zero_records_no_file (cfg db_key : json) (url id : string)
    (out : Path) (dry : bool) (w w1 w2 : world) :
  py_index cfg "key" = Ok db_key ->
  py_get cfg "notion_url" (JStr "") = Ok (JStr url) ->
  extract_notion_id url = Some id -> id <> "" ->
  print ("  Exporting '" ++ py_str db_key ++ "' (ID: "
         ++ take 8 id ++ "...)") w = Done tt w1 ->
  query_all_pages id w1 = Done [] w2 ->
  exists w',
    export_database cfg out dry w = Done (item3 db_key) w' /\
    py_index (item3 db_key) "row_count" = Ok (JInt 0) /\
    fs w' = fs w /\
    forall rest items,
      export_all (cfg :: rest) out dry items w
      = export_all rest out dry (items ++ [item3 db_key]) w'.
Proof.
  intros Hkey Hurl Hid Hne Hprint Hq.
  apply String.eqb_neq in Hne.
  assert (Hrun : export_database cfg out dry w
                 = Done (item3 db_key)
                     (with_stdout
                        (with_stdout w2
                           (stdout w2 ++ [Text ("    Fetched "
                                                ++ py_str (len (@nil json))
                                                ++ " rows")]))
                        ((stdout w2 ++ [Text ("    Fetched "
                                              ++ py_str (len (@nil json))
                                              ++ " rows")])
                         ++ [Text ("    No data to export for '"
                                   ++ py_str db_key ++ "'")]))).
  { unfold export_database, bind.
    rewrite Hkey. cbn [lift ret]. rewrite Hurl. cbn [lift ret].
    rewrite Hid, Hne, Hprint, Hq. reflexivity. }
  eexists. split; [exact Hrun|]. split; [reflexivity|]. split.
  - simpl. pose proof (fs_frame_query_all_pages id w1) as F.
    rewrite Hq in F. simpl in F. rewrite F.
    apply print_Done in Hprint. now subst.
  - intros rest items. simpl. unfold bind at 1. now rewrite Hrun.
Qed.

(** C3, as amended. The manifest item of an export holds the database key,
    the relative output path and the number of records the export fetched as
    its row count; it holds the column count as well exactly when at least
    one record was fetched, and the item of an export that fetched none is
    the three-field item. *)
Theorem manifest_item_fields (cfg db_key : json) (url id : string)
    (out : Path) (dry : bool) (w w1 w2 w' : world) (pages : list json)
    (v : json) :
  py_index cfg "key" = Ok db_key ->
  py_get cfg "notion_url" (JStr "") = Ok (JStr url) ->
  extract_notion_id url = Some id -> id <> "" ->
  print ("  Exporting '" ++ py_str db_key ++ "' (ID: "
         ++ take 8 id ++ "...)") w = Done tt w1 ->
  query_all_pages id w1 = Done pages w2 ->
  export_database cfg out dry w = Done v w' ->
  py_index v "db_key" = Ok db_key /\
  py_index v "output" = Ok (JStr ("data/" ++ py_str db_key ++ ".csv")) /\
  py_index v "row_count" = Ok (JInt (Z.of_nat (List.length pages))) /\
  (has_field v "columns" = true <-> pages <> []) /\
  (pages = [] -> v = item3 db_key) /\
  (pages <> [] -> exists n, py_index v "columns" = Ok (JInt n) /\ 2 <= n).
Proof.
  intros Hkey Hurl Hid Hne Hp Hq H.
  destruct (export_database_fetched cfg db_key url id out dry w w1 w2 w'
              pages v Hkey Hurl Hid Hne Hp Hq H)
    as [(-> & -> & _) | (first & rest & fp & rows & -> & Hfp & Hrun)].
  - repeat split; try reflexivity; try discriminate; congruence.
  - cbv zeta in Hrun. destruct Hrun as (Hrows & -> & _).
    apply map_result_length in Hrows.
    split; [reflexivity|]. split; [reflexivity|]. split.
    { cbn [item4 py_index Dict.get String.eqb Ascii.eqb Bool.eqb].
      now rewrite Hrows. }
    split; [split; [discriminate | reflexivity]|].
    split; [discriminate|]. intros _. eexists. split; [reflexivity|].
    rewrite length_app. simpl. lia.
Qed.

(* every item an export returns is the item of a fetch *)
Lemma item_has_fetch (cfg : json) (out : Path) (dry : bool) (w w' : world)
    (v : json) :
  export_database cfg out dry w = Done v w' -> v <> JNull ->
  exists db_key url id w1 pages w2,
    py_index cfg "key" = Ok db_key /\
    py_get cfg "notion_url" (JStr "") = Ok (JStr url) /\
    extract_notion_id url = Some id /\ id <> "" /\
    print ("  Exporting '" ++ py_str db_key ++ "' (ID: "
           ++ take 8 id ++ "...)") w = Done tt w1 /\
    query_all_pages id w1 = Done pages w2.
Proof.
  intros H Hv.
  apply export_database_resolved in H
    as (db_key & Hkey &
        [[-> _] | (url & id & w1 & pages & w2 & Hurl & Hid & Hne & Hp & Hq)]);
    [contradiction|].
  exists db_key, url, id, w1, pages, w2. auto 10.
Qed.

End Runs.

Section Fetch.

Context {RT : PyRuntime}.

Lemma query_loop_run (id : string) (rs : list json) :
  forall (recss : list (list json)) (last : json) (last_recs : list json)
         (tail : list reply) (fuel : nat) (cursor : json) (pages : list json)
         (w : world),
  remote w = (map Response (rs ++ [last]) ++ tail)%list ->
  (List.length rs < fuel)%nat ->
  Forall2 (fun r recs => results_of r = Ok recs /\ has_more r = true) rs recss ->
  results_of last = Ok last_recs -> has_more last = false ->
  query_loop fuel id cursor pages w
  = Done (pages ++ concat recss ++ last_recs)%list
         (with_remote w tail
            (queries w ++ query_kwargs id cursor
               :: map (fun r => query_kwargs id (next_cursor r)) rs)).
Proof.
  induction rs as [|r rs IH];
    intros recss last last_recs tail fuel cursor pages w Hrem Hfuel Hrs Hlast Hend.
  - inversion Hrs; subst. destruct fuel as [|fuel]; [lia|].
    simpl in Hrem. cbn [query_loop]. unfold bind at 1, databases_query.
    rewrite Hrem. unfold bind at 1. rewrite Hlast. cbn [lift ret].
    destruct last; try discriminate.
    unfold has_more in Hend. cbn [py_get] in Hend.
    unfold bind. cbn [py_get lift ret]. rewrite Hend. reflexivity.
  - inversion Hrs as [|? recs ? recss' [Hr Hmore] Hrs']; subst.
    destruct fuel as [|fuel]; [simpl in Hfuel; lia|].
    simpl in Hrem. cbn [query_loop]. unfold bind at 1, databases_query.
    rewrite Hrem. unfold bind at 1. rewrite Hr. cbn [lift ret].
    destruct r; try discriminate.
    unfold has_more in Hmore. cbn [py_get] in Hmore.
    unfold bind at 1. cbn [py_get lift ret]. rewrite Hmore. cbn [negb].
    unfold bind at 1. cbn [lift ret].
    rewrite (IH recss' last last_recs tail); try assumption;
      [|reflexivity | simpl in Hfuel; lia].
    f_equal.
    + cbn [concat]. now rewrite !app_assoc.
    + cbn [queries with_remote map next_cursor py_get].
      rewrite <- app_assoc. reflexivity.
Qed.

Lemma export_database_item (cfg : json) (out : Path) (dry : bool)
    (w w' : world) (v : json) :
  export_database cfg out dry w = Done v w' -> v = JNull \/ is_item v.
Proof.
  intros H.
  apply export_database_Done in H
    as (key & _ & [[-> _] | (id & w1 & pages & w2 & _ & Hq & H)]);
    [now left | right].
  destruct H as [(_ & -> & _) | (first & rest & fp & rows & -> & Hfp & H)].
  - split; [reflexivity|]. exists 0. split; [reflexivity | lia].
  - cbv zeta in H. destruct H as (_ & -> & _).
    split; [reflexivity|]. eexists. split; [reflexivity | lia].
Qed.

Lemma export_all_items (dbs : list json) (out : Path) (dry : bool) :
  forall (items items' : list json) (w w' : world),
  export_all dbs out dry items w = Done items' w' ->
  Forall is_item items -> Forall is_item items'.
Proof.
  induction dbs as [|db dbs IH]; intros items items' w w' H Hitems; simpl in H.
  - unfold ret in H. now injection H as <- _.
  - apply bind_Done in H as (v & w1 & Hv & H).
    apply IH in H; [exact H|].
    apply export_database_item in Hv as [-> | Hv]; [exact Hitems|].
    destruct (proj1 Hv). simpl.
    destruct Hv as [Ht Hv]. rewrite Ht.
    apply Forall_app. split; [exact Hitems | now constructor].
Qed.

Lemma sum_row_counts_items (items : list json) :
  Forall is_item items ->
  forall acc, sum_row_counts items (JInt acc) = Ok (JInt (acc + total_rows items)).
Proof.
  induction 1 as [|i items [_ (n & Hn & _)] _ IH]; intros acc; simpl.
  - now rewrite Z.add_0_r.
  - destruct i; try discriminate. simpl in Hn.
    unfold row_count. cbn [py_get].
    destruct (Dict.get d "row_count") as [x|]; [|discriminate].
    injection Hn as ->. cbn [rbind py_add as_int].
    rewrite IH. now rewrite Z.add_assoc.
Qed.

Ltac inv_lift H x Hx :=
  let w1 := fresh "w" in
  apply bind_Done in H as (x & w1 & Hx & H);
  apply lift_Done in Hx as [Hx ->].

Ltac inv_skip H :=
  let w1 := fresh "w" in
  apply bind_Done in H as (? & w1 & _ & H).

Lemma getenv_Done (name default v : string) (w w' : world) :
  getenv name default w = Done v w' -> w' = w.
Proof. unfold getenv. now intros [= _ <-]. Qed.

Lemma utcnow_Done (v : string) (w w' : world) :
  utcnow_isoformat w = Done v w' -> w' = w.
Proof. unfold utcnow_isoformat. now intros [= _ <-]. Qed.

Lemma print_json_Done (v : json) (w w' : world) (u : unit) :
  print_json v w = Done u w' -> w' = with_stdout w (stdout w ++ [JsonText v]).
Proof.
  unfold print_json. destruct (serializable v); [|discriminate].
  intros H. now injection H as _ <-.
Qed.

Lemma json_dump_Done (v : json) (p : Path) (w w' : world) (u : unit) :
  json_dump v p w = Done u w' ->
  w' = with_fs w (put_file p (JsonFile v) (fs w)).
Proof.
  unfold json_dump. destruct (serializable v); [|discriminate].
  intros H. now injection H as _ <-.
Qed.

Lemma parse_args_Done (a : args) (w w' : world) :
  parse_args w = Done a w' -> w' = w.
Proof.
  unfold parse_args. destruct (argv w); try discriminate.
  now intros [= _ <-].
Qed.

(* the run of a command line that was accepted starts from its namespace *)
Ltac parsed H Hparse :=
  let a' := fresh "a" in
  let w0 := fresh "w" in
  let Hp := fresh "Hp" in
  unfold main in H;
  apply bind_Done in H as (a' & w0 & Hp & H);
  rewrite Hparse in Hp; injection Hp as <- <-.

(* the manifest a completed run has built, and where it went *)
Lemma main_Done (a : args) (w w' : world) (u : unit) :
  parse_args w = Done a w ->
  main w = Done u w' ->
  exists (items : list json) (manifest : json) (target : Path),
    Forall is_item items /\
    py_index manifest "items" = Ok (JList items) /\
    py_index manifest "totals"
    = Ok (JDict [("databases", len items);
                 ("total_rows", JInt (total_rows items))]) /\
    if dry_run a then
      exists pre,
        stdout w'
        = (pre ++ [Text (nl ++ "[DRY RUN] Would write manifest to "
                         ++ path_str target);
                   JsonText manifest;
                   Text (nl ++ "Export complete: " ++ py_str (len items)
                         ++ " databases, "
                         ++ py_str (JInt (total_rows items))
                         ++ " total rows")])%list
    else
      hd_error (files (fs w')) = Some (target, JsonFile manifest).
Proof.
  intros Hparse H. parsed H Hparse.
  inv_skip H.
  inv_lift H bundles Hbundles. inv_lift H defaults Hdefaults.
  inv_lift H known Hknown.
  destruct (negb known).
  { inv_skip H. inv_lift H names Hnames. inv_skip H. discriminate. }
  inv_lift H bundle_cfg Hbcfg. inv_lift H root Hroot.
  inv_lift H output_root Hout.
  inv_skip H. inv_lift H name Hname. inv_skip H.
  inv_lift H schema Hschema. inv_skip H. inv_skip H. inv_skip H. inv_skip H.
  apply bind_Done in H as (token & w7 & _ & H).
  destruct (String.eqb token "").
  { inv_skip H. discriminate. }
  inv_lift H dbs Hdbs. inv_lift H databases Hdatabases.
  apply bind_Done in H as (items & w8 & Hall & H).
  inv_lift H manifest_name Hmname.
  apply bind_Done in H as (exported_at & w9 & _ & H).
  apply bind_Done in H as (chitty_id & w10 & _ & H).
  apply bind_Done in H as (workflow & w11 & _ & H).
  apply bind_Done in H as (actor & w12 & _ & H).
  inv_lift H total Htotal.
  apply export_all_items in Hall; [|constructor].
  rewrite (sum_row_counts_items _ Hall 0) in Htotal. injection Htotal as <-.
  change (0 + total_rows items) with (total_rows items) in H.
  inv_lift H manifest_filename Hfilename.
  apply bind_Done in H as ([] & w13 & Hemit & H).
  apply print_Done in H. subst w'.
  destruct (dry_run a).
  - inv_lift Hemit target Htarget.
    apply bind_Done in Hemit as ([] & w14 & Hp & Hemit).
    apply print_Done in Hp. subst w14.
    apply print_json_Done in Hemit. subst w13.
    exists items. eexists. exists target. split; [exact Hall|].
    refine (conj _ (conj _ _)).
    3: { cbn [stdout with_stdout]. rewrite <- !app_assoc.
         eexists. reflexivity. }
    all: reflexivity.
  - inv_skip Hemit.
    inv_lift Hemit target Htarget.
    inv_skip Hemit.
    apply bind_Done in Hemit as ([] & w16 & Hwrite & Hemit).
    apply print_Done in Hemit. subst w13.
    apply json_dump_Done in Hwrite. subst w16.
    exists items. eexists. exists target. split; [exact Hall|].
    refine (conj _ (conj _ _)).
    3: reflexivity.
    all: reflexivity.
Qed.

Lemma query_kwargs_fields (id : string) (cursor : json) :
  Dict.get (query_kwargs id cursor) "database_id" = Some (JStr id) /\
  Dict.get (query_kwargs id cursor) "page_size" = Some (JInt 100) /\
  Dict.get (query_kwargs id cursor) "start_cursor"
  = (if py_truthy cursor then Some cursor else None).
Proof.
  unfold query_kwargs. destruct (py_truthy cursor); repeat split.
Qed.

(** C4. Against replies of which all but the last signal more data, the
    fetcher issues one query per reply, each with page size 100, the first
    without a cursor and each later one built from the continuation cursor of
    the reply before it (which it carries whenever that cursor is not empty);
    it stops at the first reply that signals no more data, leaving the
    replies after it unread, and returns the records of all pages in the
    order received. *)
Theorem fetch_all_pages (id : string) (rs : list json)
    (recss : list (list json)) (last : json) (last_recs : list json)
    (tail : list reply) (w : world) :
  remote w = (map Response (rs ++ [last]) ++ tail)%list ->
  Forall2 (fun r recs => results_of r = Ok recs /\ has_more r = true) rs recss ->
  results_of last = Ok last_recs ->
  has_more last = false ->
  let issued :=
    query_kwargs id JNull :: map (fun r => query_kwargs id (next_cursor r)) rs in
  query_all_pages id w
  = Done (concat recss ++ last_recs)%list
         (with_remote w tail (queries w ++ issued)) /\
  List.length issued = S (List.length rs) /\
  Forall (fun q => Dict.get q "page_size" = Some (JInt 100) /\
                   Dict.get q "database_id" = Some (JStr id)) issued /\
  Dict.get (query_kwargs id JNull) "start_cursor" = None /\
  Forall (fun r => py_truthy (next_cursor r) = true ->
                   Dict.get (query_kwargs id (next_cursor r)) "start_cursor"
                   = Some (next_cursor r)) rs.
Proof.
  intros Hrem Hrs Hlast Hend issued. split; [|split; [|split; [|split]]].
  - unfold query_all_pages.
    rewrite (query_loop_run id rs recss last last_recs tail); auto.
    rewrite Hrem, length_app, length_map, length_app. simpl. lia.
  - unfold issued. simpl. now rewrite length_map.
  - unfold issued. constructor.
    + destruct (query_kwargs_fields id JNull) as (? & ? & _). auto.
    + apply Forall_map, Forall_forall. intros r _.
      destruct (query_kwargs_fields id (next_cursor r)) as (? & ? & _). auto.
  - reflexivity.
  - apply Forall_forall. intros r _ Ht.
    destruct (query_kwargs_fields id (next_cursor r)) as (_ & _ & ->).
    now rewrite Ht.
Qed.

(* a service that keeps signalling more data is never done with *)
Lemma fetch_never_stops (id : string) (rs : list json)
    (recss : list (list json)) (w : world) :
  remote w = map Response rs ->
  Forall2 (fun r recs => results_of r = Ok recs /\ has_more r = true) rs recss ->
  exists w', query_all_pages id w = Pending w'.
Proof.
  unfold query_all_pages. intros Hrem Hrs.
  rewrite Hrem, length_map. generalize (S (List.length rs)) at 1.
  intros fuel.
  generalize (JNull) as cursor. generalize (@nil json) as pages.
  revert w Hrem fuel. induction Hrs as [|r recs rs recss [Hr Hm] _ IH];
    intros w Hrem fuel pages cursor.
  - destruct fuel; [eexists; reflexivity|]. simpl in Hrem.
    cbn [query_loop]. unfold bind at 1, databases_query. rewrite Hrem.
    eexists. reflexivity.
  - destruct fuel; [eexists; reflexivity|]. simpl in Hrem.
    cbn [query_loop]. unfold bind at 1, databases_query. rewrite Hrem.
    unfold bind at 1. rewrite Hr. cbn [lift ret].
    destruct r; try discriminate. unfold has_more in Hm. cbn [py_get] in Hm.
    unfold bind at 1. cbn [py_get lift ret]. rewrite Hm. cbn [negb].
    unfold bind at 1. cbn [lift ret]. apply IH. reflexivity.
Qed.

(** C8. The manifest of a completed run, printed in dry-run mode and written
    otherwise, has in its totals the number of its items as the database
    count and the sum of their row counts as the row total. *)
Theorem manifest_totals (a : args) (w w' : world) (u : unit) :
  parse_args w = Done a w ->
  main w = Done u w' ->
  exists (items : list json) (manifest totals : json),
    (if dry_run a then In (JsonText manifest) (stdout w')
     else exists target,
         hd_error (files (fs w')) = Some (target, JsonFile manifest)) /\
    py_index manifest "items" = Ok (JList items) /\
    Forall is_item items /\
    py_index manifest "totals" = Ok totals /\
    py_index totals "databases" = Ok (JInt (Z.of_nat (List.length items))) /\
    py_index totals "total_rows" = Ok (JInt (total_rows items)).
Proof.
  intros Hparse H.
  apply (main_Done a) in H
    as (items & manifest & target & Hitems & Hi & Ht & Hout); [|exact Hparse].
  exists items, manifest. eexists. split; [|split; [exact Hi|]].
  - destruct (dry_run a).
    + destruct Hout as [pre ->]. apply in_or_app. right. simpl. auto.
    + eauto.
  - split; [exact Hitems|]. split; [exact Ht|]. split; reflexivity.
Qed.

Lemma fs_frame_main (a : args) (w : world) :
  parse_args w = Done a w -> dry_run a = true ->
  fs (final_world (main w)) = fs w.
Proof.
  intros Hparse Hdry. unfold main. unfold bind at 1. rewrite Hparse.
  match goal with
  | |- fs (final_world (?m w)) = fs w => enough (F : fs_frame m) by apply F
  end.
  rewrite Hdry.
  apply fs_frame_bind; [apply fs_frame_load | intros cfg].
  do 3 (apply fs_frame_bind; [apply fs_frame_lift | intros ?]).
  destruct (negb a2).
  { repeat first [ apply fs_frame_raise | apply fs_frame_lift
                 | apply fs_frame_print | apply fs_frame_eprint
                 | apply fs_frame_bind; [|intros ?] ]. }
  do 3 (apply fs_frame_bind; [apply fs_frame_lift | intros ?]).
  apply fs_frame_bind; [apply fs_frame_print | intros ?].
  apply fs_frame_bind; [apply fs_frame_lift | intros ?].
  apply fs_frame_bind; [apply fs_frame_print | intros ?].
  apply fs_frame_bind; [apply fs_frame_lift | intros ?].
  do 4 (apply fs_frame_bind; [apply fs_frame_print | intros ?]).
  apply fs_frame_bind; [apply fs_frame_getenv | intros token].
  destruct (String.eqb token "").
  { apply fs_frame_bind; [apply fs_frame_eprint | intros ?].
    apply fs_frame_raise. }
  do 2 (apply fs_frame_bind; [apply fs_frame_lift | intros ?]).
  apply fs_frame_bind; [apply fs_frame_export_all | intros items].
  apply fs_frame_bind; [apply fs_frame_lift | intros ?].
  apply fs_frame_bind; [apply fs_frame_utcnow | intros ?].
  do 3 (apply fs_frame_bind; [apply fs_frame_getenv | intros ?]).
  do 2 (apply fs_frame_bind; [apply fs_frame_lift | intros ?]).
  apply fs_frame_bind; [|intros ?; apply fs_frame_print].
  apply fs_frame_bind; [apply fs_frame_lift | intros ?].
  apply fs_frame_bind; [apply fs_frame_print | intros ?].
  apply fs_frame_print_json.
Qed.

(** C9. In dry-run mode the run, however it ends, leaves the file system as
    it found it: no directory is made and no file written, by the run and by
    each export in it.  An export with rows prints what it would have
    written, and a completed run prints the manifest it would have written. *)
Theorem dry_run_writes_nothing (a : args) (w : world) :
  parse_args w = Done a w ->
  dry_run a = true ->
  fs (final_world (main w)) = fs w /\
  (forall cfg out w1,
     fs (final_world (export_database cfg out true w1)) = fs w1) /\
  (forall cfg out w1 w2 v,
     export_database cfg out true w1 = Done v w2 ->
     has_field v "columns" = true ->
     exists pre n key,
       stdout w2
       = (pre ++ [Text ("    [DRY RUN] Would write " ++ n
                        ++ " rows to data/" ++ key ++ ".csv")])%list) /\
  (forall w' u,
     main w = Done u w' ->
     exists pre manifest target last_line,
       stdout w'
       = (pre ++ [Text (nl ++ "[DRY RUN] Would write manifest to "
                        ++ path_str target);
                  JsonText manifest; Text last_line])%list).
Proof.
  intros Hparse Hdry. split; [now apply (fs_frame_main a)|].
  split; [intros cfg out w1; apply fs_frame_export_database|]. split.
  - intros cfg out w1 w2 v H Hcols.
    apply export_database_Done in H
      as (key & _ & [[-> _] | (id & w3 & pages & w4 & _ & Hq & H)]);
      [discriminate|].
    destruct H as [(_ & -> & _) | (first & rest & fp & rows & -> & Hfp & H)];
      [discriminate|].
    cbv zeta in H. destruct H as (_ & _ & _ & Hout).
    rewrite Hout. eexists (_ ++ [_])%list, _, _.
    rewrite <- app_assoc. reflexivity.
  - intros w' u H.
    apply (main_Done a) in H
      as (items & manifest & target & _ & _ & _ & Hout); [|exact Hparse].
    rewrite Hdry in Hout. destruct Hout as [pre ->]. eauto.
Qed.

End Fetch.

(** * Further properties of the script *)

Lemma has_char_app (c : ascii) (a b : string) :
  has_char c (a ++ b) = has_char c a || has_char c b.
Proof.
  induction a as [|x a IH]; simpl; [reflexivity|].
  now rewrite IH, orb_assoc.
Qed.

Lemma length_append (a b : string) :
  String.length (a ++ b) = (String.length a + String.length b)%nat.
Proof. induction a; simpl; congruence. Qed.

Lemma remove_char_absent (c : ascii) (s : string) :
  has_char c s = false -> remove_char c s = s.
Proof.
  induction s as [|a s IH]; simpl; [reflexivity|].
  intros H. apply orb_false_iff in H as [Ha Hs].
  rewrite Ha. now rewrite IH.
Qed.

Lemma split_absent (c : ascii) (s : string) :
  has_char c s = false -> split c s = [s].
Proof.
  induction s as [|a s IH]; simpl; [reflexivity|].
  intros H. apply orb_false_iff in H as [Ha Hs].
  rewrite Ha, (IH Hs). reflexivity.
Qed.

(** X1. The resolver gives the not-resolvable signal for the references that
    begin with the placeholder marker and for no other. *)
Theorem resolver_none_iff_placeholder (s : string) :
  extract_notion_id s = None <-> startswith s "TODO:" = true.
Proof.
  unfold extract_notion_id.
  destruct (startswith s "TODO:"); [split; reflexivity|].
  destruct (contains "notion.so" s);
    [destruct (String.length (url_raw_id s) =? 32)%nat|];
    split; discriminate.
Qed.

(** X2. What the resolver returns is the reference itself or a text of
    exactly 32 characters. *)
Theorem resolver_result_shape (s r : string) :
  extract_notion_id s = Some r -> r = s \/ String.length r = 32%nat.
Proof.
  unfold extract_notion_id, raw_uuid.
  destruct (startswith s "TODO:"); [discriminate|].
  assert (Hraw : forall x,
            Some (if (String.length (remove_char "-" s) =? 32)%nat
                  then remove_char "-" s else s) = Some x ->
            x = s \/ String.length x = 32%nat).
  { intros x. destruct (String.length (remove_char "-" s) =? 32)%nat eqn:E;
      intros [= <-]; [right; now apply Nat.eqb_eq | now left]. }
  destruct (contains "notion.so" s); [|apply Hraw].
  destruct (String.length (url_raw_id s) =? 32)%nat eqn:E; [|apply Hraw].
  intros [= <-]. right. now apply Nat.eqb_eq.
Qed.

(** X3. A reference with the web domain marker whose last piece has not 32
    characters is treated like a raw reference: stripped of its hyphens when
    that leaves 32 characters, unchanged otherwise. *)
Theorem resolver_url_falls_through (s : string) :
  startswith s "TODO:" = false ->
  contains "notion.so" s = true ->
  String.length (url_raw_id s) <> 32%nat ->
  extract_notion_id s
  = Some (if (String.length (remove_char "-" s) =? 32)%nat
          then remove_char "-" s else s).
Proof.
  intros Htodo Hdom Hlen. unfold extract_notion_id, raw_uuid.
  rewrite Htodo, Hdom. apply Nat.eqb_neq in Hlen. now rewrite Hlen.
Qed.

(** X4. A text of 32 characters without a hyphen that is no placeholder is
    a fixed point of the resolver, whatever else it contains. *)
Theorem resolver_canonical_fixed (r : string) :
  String.length r = 32%nat ->
  has_char "-" r = false ->
  startswith r "TODO:" = false ->
  extract_notion_id r = Some r.
Proof.
  intros Hlen Hhy Htodo. unfold extract_notion_id, raw_uuid.
  rewrite Htodo, (remove_char_absent _ _ Hhy), Hlen. simpl.
  destruct (contains "notion.so" r); [|reflexivity].
  destruct (String.length (url_raw_id r) =? 32)%nat eqn:E; [|reflexivity].
  apply Nat.eqb_eq in E. f_equal.
  unfold url_raw_id in *.
  set (path := hd "" (split "?" r)) in *.
  set (seg := last (split "/" path) "") in *.
  destruct (hd_split "?" r) as [_ Hpath]. fold path in Hpath.
  destruct (last_split "/" path) as [_ (front & Hfront & _)]. fold seg in Hfront.
  assert (Hseg : has_char "-" seg = false).
  { assert (Hp : has_char "-" path = false).
    { destruct Hpath as [-> | [rest Hr]]; [exact Hhy|].
      rewrite Hr, has_char_app in Hhy. now apply orb_false_iff in Hhy. }
    rewrite Hfront, has_char_app in Hp. now apply orb_false_iff in Hp. }
  rewrite (split_absent _ _ Hseg) in *. simpl in *.
  assert (Lp : String.length path = (String.length front + 32)%nat).
  { rewrite Hfront at 1. now rewrite length_append, E. }
  destruct Hpath as [Hp | [rest Hr]].
  - rewrite Hp in Lp. assert (front = "") as ->.
    { destruct front; [reflexivity | simpl in Lp; lia]. }
    simpl in Hfront. congruence.
  - exfalso. rewrite Hr, length_append in Hlen. simpl in Hlen. lia.
Qed.

Lemma ro_Ok {A} (P : exn -> Prop) (a : A) : raises_only P (Ok a).
Proof. intros e. discriminate. Qed.

Lemma ro_Raise {A} (P : exn -> Prop) (e : exn) :
  P e -> raises_only (A := A) P (Raise e).
Proof. now intros H e' [= <-]. Qed.

Lemma ro_rbind {A B} (P : exn -> Prop) (r : result A) (k : A -> result B) :
  raises_only P r -> (forall a, raises_only P (k a)) ->
  raises_only P (rbind r k).
Proof.
  intros Hr Hk e. destruct r as [a|e']; simpl; [exact (Hk a e)|].
  intros [= <-]. now apply Hr.
Qed.

Lemma ro_map_result {A B} (P : exn -> Prop) (f : A -> result B) (l : list A) :
  (forall a, raises_only P (f a)) -> raises_only P (map_result f l).
Proof.
  intros Hf. induction l as [|a l IH]; simpl; [apply ro_Ok|].
  apply ro_rbind; [apply Hf | intros b].
  apply ro_rbind; [exact IH | intros bs; apply ro_Ok].
Qed.

Lemma ro_py_get (v : json) (k : string) (default : json) :
  raises_only lookup_error (py_get v k default).
Proof. destruct v; simpl; intros err [= <-]; now left. Qed.

Lemma ro_py_get_dyn (v k default : json) :
  raises_only lookup_error (py_get_dyn v k default).
Proof.
  destruct v; simpl; try (intros err [= <-]; now left).
  destruct k; intros err [= <-]; now right.
Qed.

Lemma ro_py_iter (v : json) : raises_only lookup_error (py_iter v).
Proof. destruct v; simpl; intros err [= <-]; now right. Qed.

Lemma ro_py_len (v : json) : raises_only lookup_error (py_len v).
Proof. destruct v; simpl; intros err [= <-]; now right. Qed.

Lemma ro_py_join (sep : string) (parts : list json) :
  raises_only lookup_error (py_join sep parts).
Proof.
  induction parts as [|p parts IH]; [apply ro_Ok|].
  destruct p; try (intros err [= <-]; now right).
  destruct parts as [|q parts]; [apply ro_Ok|].
  change (py_join sep (JStr s :: q :: parts))
    with (rbind (py_join sep (q :: parts)) (fun r => Ok (s ++ sep ++ r))).
  apply ro_rbind; [exact IH | intros r; apply ro_Ok].
Qed.

Section FlattenerErrors.

Context {RT : PyRuntime}.

Ltac ro :=
  repeat first
    [ apply ro_Ok | apply ro_py_get | apply ro_py_get_dyn | apply ro_py_iter
    | apply ro_py_len | apply ro_py_join
    | apply ro_map_result; intros ?
    | apply ro_rbind; [|intros ?]
    | match goal with
      | |- raises_only _ (if ?b then _ else _) => destruct b
      | |- raises_only _ (match ?x with _ => _ end) => destruct x
      end ].

Lemma ro_file_url (f : json) : raises_only lookup_error (file_url f).
Proof. unfold file_url. ro. Qed.

Lemma ro_flatten_property (prop : json) :
  raises_only lookup_error (flatten_property prop).
Proof.
  unfold flatten_property, join_field, name_of, get_or_empty.
  apply ro_rbind; [apply ro_py_get | intros prop_type].
  repeat match goal with
         | |- raises_only _ (if is_str prop_type ?k then _ else _) =>
             destruct (is_str prop_type k)
         end; ro; apply ro_file_url.
Qed.

(** X5. The flattener ends only with an attribute or a type error, and with
    an attribute error on whatever is no mapping. *)
Theorem flatten_errors (prop : json) :
  (forall e, flatten_property prop = Raise e ->
             e = AttributeError \/ e = TypeError) /\
  ((forall d, prop <> JDict d) -> flatten_property prop = Raise AttributeError).
Proof.
  split; [apply ro_flatten_property|].
  intros Hd. destruct prop; try reflexivity. now destruct (Hd d).
Qed.
End FlattenerErrors.

Section FlattenerRules.

Context {RT : PyRuntime}.

Lemma py_join_texts (sep : string) (texts : list string) :
  py_join sep (map JStr texts) = Ok (String.concat sep texts).
Proof.
  induction texts as [|a [|b texts] IH]; try reflexivity.
  change (py_join sep (map JStr (a :: b :: texts)))
    with (rbind (py_join sep (map JStr (b :: texts)))
                (fun r => Ok (a ++ sep ++ r))).
  now rewrite IH.
Qed.

Lemma map_result_Forall2_Ok {A B} (f : A -> result B) (l : list A) (l' : list B) :
  Forall2 (fun a b => f a = Ok b) l l' -> map_result f l = Ok l'.
Proof.
  induction 1 as [|a b l l' Hab _ IH]; simpl; [reflexivity|].
  now rewrite Hab, IH.
Qed.

Lemma join_field_texts (sep : string) (d : Dict.t) (field key : string)
    (items : list json) (texts : list string) :
  py_get (JDict d) field (JList []) = Ok (JList items) ->
  Forall2 (fun item text => py_get item key (JStr "") = Ok (JStr text))
          items texts ->
  join_field sep (JDict d) field key = Ok (JStr (String.concat sep texts)).
Proof.
  intros Hitems Htexts. unfold join_field. rewrite Hitems. cbn [rbind py_iter].
  rewrite (map_result_Forall2_Ok _ items (map JStr texts)).
  - cbn [rbind]. now rewrite py_join_texts.
  - clear Hitems. induction Htexts; simpl; constructor; assumption.
Qed.

(** X6. The list-valued kinds: title and rich text concatenate the plain text
    of their runs; multi-select, relation and people join the names (the ids
    for a relation) of their entries with a comma and a space. *)
Theorem flatten_joined (kind sep key : string) (d : Dict.t)
    (items : list json) (texts : list string) :
  In (kind, sep, key)
     [("title", "", "plain_text"); ("rich_text", "", "plain_text");
      ("multi_select", ", ", "name"); ("relation", ", ", "id");
      ("people", ", ", "name")] ->
  Dict.get d "type" = Some (JStr kind) ->
  py_get (JDict d) kind (JList []) = Ok (JList items) ->
  Forall2 (fun item text => py_get item key (JStr "") = Ok (JStr text))
          items texts ->
  flatten_property (JDict d) = Ok (JStr (String.concat sep texts)).
Proof.
  intros Hkind Htype Hitems Htexts.
  unfold flatten_property. cbn [py_get]. rewrite Htype.
  simpl in Hkind.
  repeat destruct Hkind as [[= <- <- <-] | Hkind]; try contradiction;
    cbn [rbind is_str String.eqb Ascii.eqb Bool.eqb];
    now apply (join_field_texts _ d _ _ items texts).
Qed.

(** X7. A number flattens to its text, zero included, and to the empty text
    when it is null or absent. *)
Theorem flatten_number (d : Dict.t) :
  Dict.get d "type" = Some (JStr "number") ->
  flatten_property (JDict d)
  = Ok (JStr (match Dict.get d "number" with
              | None | Some JNull => ""
              | Some v => py_str v
              end)) /\
  (forall z, Dict.get d "number" = Some (JInt z) ->
             flatten_property (JDict d) = Ok (JStr (str_of_Z z))) /\
  str_of_Z 0 = "0".
Proof.
  intros Htype.
  assert (H : flatten_property (JDict d)
              = Ok (JStr (match Dict.get d "number" with
                          | None | Some JNull => ""
                          | Some v => py_str v
                          end))).
  { unfold flatten_property. cbn [py_get]. rewrite Htype.
    cbn [rbind is_str String.eqb Ascii.eqb Bool.eqb].
    destruct (Dict.get d "number") as [[]|]; reflexivity. }
  split; [exact H|]. split; [|reflexivity].
  intros z Hz. now rewrite H, Hz.
Qed.

(** X8. Select and status flatten to the name of the option, and to the empty
    text without an option. *)
Theorem flatten_option_name (kind : string) (d : Dict.t) :
  kind = "select" \/ kind = "status" ->
  Dict.get d "type" = Some (JStr kind) ->
  (Dict.get d kind = None \/ Dict.get d kind = Some JNull \/
   Dict.get d kind = Some (JDict []) ->
   flatten_property (JDict d) = Ok (JStr "")) /\
  (forall o, Dict.get d kind = Some (JDict o) -> o <> [] ->
     flatten_property (JDict d)
     = Ok (match Dict.get o "name" with Some n => n | None => JStr "" end)).
Proof.
  intros Hkind Htype.
  assert (H : flatten_property (JDict d) = name_of (JDict d) kind).
  { unfold flatten_property. cbn [py_get]. rewrite Htype.
    destruct Hkind as [-> | ->]; reflexivity. }
  rewrite H. unfold name_of. cbn [py_get rbind]. split.
  - intros [-> | [-> | ->]]; reflexivity.
  - intros o -> Ho. destruct o; [contradiction | reflexivity].
Qed.

(** X9. A date flattens to its start, to start and end around a hyphen when
    there is an end, and to the empty text when there is no date. *)
Theorem flatten_date (d : Dict.t) :
  Dict.get d "type" = Some (JStr "date") ->
  (Dict.get d "date" = None \/ Dict.get d "date" = Some JNull ->
   flatten_property (JDict d) = Ok (JStr "")) /\
  (forall dd s,
     Dict.get d "date" = Some (JDict dd) ->
     Dict.get dd "start" = Some (JStr s) ->
     (Dict.get dd "end" = None \/ Dict.get dd "end" = Some JNull ->
      flatten_property (JDict d) = Ok (JStr s)) /\
     (forall e, Dict.get dd "end" = Some (JStr e) -> e <> "" ->
        flatten_property (JDict d) = Ok (JStr (s ++ " - " ++ e)))).
Proof.
  intros Htype.
  assert (H : flatten_property (JDict d)
              = rbind (py_get (JDict d) "date" JNull) (fun dv =>
                  if py_truthy dv then
                    rbind (py_get dv "start" (JStr "")) (fun start =>
                    rbind (py_get dv "end" (JStr "")) (fun end_ =>
                      Ok (if py_truthy end_
                          then JStr (py_str start ++ " - " ++ py_str end_)
                          else start)))
                  else Ok (JStr ""))).
  { unfold flatten_property. cbn [py_get]. now rewrite Htype. }
  rewrite H. cbn [py_get rbind]. split.
  - intros [-> | ->]; reflexivity.
  - intros dd s -> Hs.
    assert (Hdd : py_truthy (JDict dd) = true).
    { destruct dd; [discriminate | reflexivity]. }
    rewrite Hdd. cbn [py_get rbind]. rewrite Hs. split.
    + intros [-> | ->]; reflexivity.
    + intros e -> He. cbn [py_truthy py_str].
      apply String.eqb_neq in He. now rewrite He.
Qed.

(** X10. Url, email and phone number flatten to their value, and to the empty
    text when it is null, absent or empty. *)
Theorem flatten_contact (kind : string) (d : Dict.t) :
  kind = "url" \/ kind = "email" \/ kind = "phone_number" ->
  Dict.get d "type" = Some (JStr kind) ->
  (forall u, Dict.get d kind = Some (JStr u) -> u <> "" ->
             flatten_property (JDict d) = Ok (JStr u)) /\
  (Dict.get d kind = None \/ Dict.get d kind = Some JNull \/
   Dict.get d kind = Some (JStr "") ->
   flatten_property (JDict d) = Ok (JStr "")).
Proof.
  intros Hkind Htype.
  assert (H : flatten_property (JDict d) = get_or_empty (JDict d) kind).
  { unfold flatten_property. cbn [py_get]. rewrite Htype.
    destruct Hkind as [-> | [-> | ->]]; reflexivity. }
  rewrite H. unfold get_or_empty. cbn [py_get rbind]. split.
  - intros u -> Hu. cbn [py_truthy]. apply String.eqb_neq in Hu.
    now rewrite Hu.
  - intros [-> | [-> | ->]]; reflexivity.
Qed.

(** X11. A rollup of type array flattens to the number of its elements. *)
Theorem flatten_rollup_array (d r : Dict.t) :
  Dict.get d "type" = Some (JStr "rollup") ->
  Dict.get d "rollup" = Some (JDict r) ->
  Dict.get r "type" = Some (JStr "array") ->
  (forall l, Dict.get r "array" = Some (JList l) ->
     flatten_property (JDict d)
     = Ok (JStr (str_of_Z (Z.of_nat (List.length l))))) /\
  (Dict.get r "array" = None -> flatten_property (JDict d) = Ok (JStr "0")).
Proof.
  intros Htype Hr Hrt.
  assert (H : flatten_property (JDict d)
              = rbind (py_get (JDict r) "array" (JList [])) (fun a =>
                rbind (py_len a) (fun n => Ok (JStr (str_of_Z n))))).
  { unfold flatten_property. cbn [py_get]. rewrite Htype.
    cbn [rbind is_str String.eqb Ascii.eqb Bool.eqb]. rewrite Hr.
    cbn [rbind py_get]. rewrite Hrt. reflexivity. }
  rewrite H. cbn [py_get]. split.
  - now intros l ->.
  - now intros ->.
Qed.

(** X12. A files property joins the URLs of its entries, the external URL of
    an entry before the URL of an uploaded file. *)
Theorem flatten_files (d : Dict.t) (fs : list json) (urls : list string) :
  Dict.get d "type" = Some (JStr "files") ->
  py_get (JDict d) "files" (JList []) = Ok (JList fs) ->
  Forall2 file_text fs urls ->
  flatten_property (JDict d) = Ok (JStr (String.concat ", " urls)).
Proof.
  intros Htype Hfs Hurls.
  unfold flatten_property. cbn [py_get]. rewrite Htype.
  cbn [rbind is_str String.eqb Ascii.eqb Bool.eqb].
  change (match Dict.get d "files" with Some x => x | None => JList [] end)
    with (match py_get (JDict d) "files" (JList []) with
          | Ok x => x | Raise _ => JNull end).
  rewrite Hfs. cbn [py_iter rbind].
  rewrite (map_result_Forall2_Ok _ fs (map JStr urls)).
  - cbn [rbind]. now rewrite py_join_texts.
  - clear Hfs. induction Hurls as [|f u fs urls Hf _ IH]; simpl;
      constructor; [|exact IH].
    destruct Hf as (fd & -> & [(e & He & Hu & Hne) | (He & fl & Hfl & Hu)]);
      unfold file_url; cbn [py_get rbind]; rewrite He; cbn [py_get rbind].
    + rewrite Hu. cbn [py_truthy]. apply String.eqb_neq in Hne.
      now rewrite Hne.
    + cbn [Dict.get py_truthy String.eqb negb]. rewrite Hfl.
      cbn [py_get]. now rewrite Hu.
Qed.

(** X13. A property of no handled type, or without a type, flattens to the
    text of the whole mapping. *)
Theorem flatten_fallback (d : Dict.t) (t : json) :
  py_get (JDict d) "type" (JStr "") = Ok t ->
  (forall k, In k known_types -> is_str t k = false) ->
  flatten_property (JDict d) = Ok (JStr (container_str (JDict d))).
Proof.
  intros Htype Hno. unfold flatten_property. rewrite Htype. cbn [rbind].
  repeat match goal with
         | |- context [is_str t ?k] =>
             rewrite (Hno k) by (unfold known_types; simpl; tauto)
         end.
  reflexivity.
Qed.
End FlattenerRules.

Section FetchRuns.

Context {RT : PyRuntime}.

Lemma query_loop_more (id : string) (r : json) (recs : list json)
    (fuel : nat) (cursor : json) (pages : list json) (rest : list reply)
    (w : world) :
  remote w = Response r :: rest ->
  results_of r = Ok recs -> has_more r = true ->
  query_loop (S fuel) id cursor pages w
  = query_loop fuel id (next_cursor r) (pages ++ recs)
      (with_remote w rest (queries w ++ [query_kwargs id cursor])).
Proof.
  intros Hrem Hr Hmore.
  cbn [query_loop]. unfold bind at 1, databases_query.
  rewrite Hrem. unfold bind at 1. rewrite Hr. cbn [lift ret].
  destruct r; try discriminate.
  unfold has_more in Hmore. cbn [py_get] in Hmore.
  unfold bind at 1. cbn [py_get lift ret]. rewrite Hmore. cbn [negb].
  unfold bind at 1. cbn [lift ret]. reflexivity.
Qed.

Lemma query_loop_fail (id : string) (rs : list json) :
  forall (recss : list (list json)) (bad : reply) (e : exn)
         (tail : list reply) (fuel : nat) (cursor : json) (pages : list json)
         (w : world),
  remote w = (map Response rs ++ bad :: tail)%list ->
  (List.length rs < fuel)%nat ->
  Forall2 (fun r recs => results_of r = Ok recs /\ has_more r = true) rs recss ->
  reply_raises bad e ->
  query_loop fuel id cursor pages w
  = Raised e (with_remote w tail (queries w ++ issued_for id cursor rs)).
Proof.
  induction rs as [|r rs IH];
    intros recss bad e tail fuel cursor pages w Hrem Hfuel Hrs Hbad.
  - destruct fuel as [|fuel]; [simpl in Hfuel; lia|]. simpl in Hrem.
    cbn [query_loop]. unfold bind at 1, databases_query. rewrite Hrem.
    destruct Hbad as [[-> ->] | (r & -> & Hr)]; [reflexivity|].
    unfold bind at 1. rewrite Hr. reflexivity.
  - inversion Hrs as [|? recs ? recss' [Hr Hmore] Hrs']; subst.
    destruct fuel as [|fuel]; [simpl in Hfuel; lia|]. simpl in Hrem.
    rewrite (query_loop_more id r recs _ cursor pages _ w Hrem Hr Hmore).
    rewrite (IH recss' bad e tail); try assumption;
      [|reflexivity | simpl in Hfuel; lia].
    unfold issued_for. cbn [queries with_remote map].
    rewrite <- app_assoc. reflexivity.
Qed.

Lemma query_loop_pending (id : string) (rs : list json) :
  forall (recss : list (list json)) (fuel : nat) (cursor : json)
         (pages : list json) (w : world),
  remote w = map Response rs ->
  (List.length rs < fuel)%nat ->
  Forall2 (fun r recs => results_of r = Ok recs /\ has_more r = true) rs recss ->
  query_loop fuel id cursor pages w
  = Pending (with_remote w [] (queries w ++ issued_for id cursor rs)).
Proof.
  induction rs as [|r rs IH];
    intros recss fuel cursor pages w Hrem Hfuel Hrs.
  - destruct fuel as [|fuel]; [simpl in Hfuel; lia|]. simpl in Hrem.
    cbn [query_loop]. unfold bind at 1, databases_query. rewrite Hrem.
    reflexivity.
  - inversion Hrs as [|? recs ? recss' [Hr Hmore] Hrs']; subst.
    destruct fuel as [|fuel]; [simpl in Hfuel; lia|]. simpl in Hrem.
    rewrite (query_loop_more id r recs _ cursor pages _ w Hrem Hr Hmore).
    rewrite (IH recss'); try assumption; [|reflexivity | simpl in Hfuel; lia].
    unfold issued_for. cbn [queries with_remote map].
    rewrite <- app_assoc. reflexivity.
Qed.

(** X14. A failing query, or a reply that cannot be read, ends the fetch with
    that error after one query per reply; the replies after it stay unread. *)
Theorem fetch_failure_propagates (id : string) (rs : list json)
    (recss : list (list json)) (bad : reply) (e : exn) (tail : list reply)
    (w : world) :
  remote w = (map Response rs ++ bad :: tail)%list ->
  Forall2 (fun r recs => results_of r = Ok recs /\ has_more r = true) rs recss ->
  reply_raises bad e ->
  query_all_pages id w
  = Raised e (with_remote w tail (queries w ++ issued_for id JNull rs)) /\
  List.length (issued_for id JNull rs) = S (List.length rs).
Proof.
  intros Hrem Hrs Hbad. split.
  - unfold query_all_pages.
    apply (query_loop_fail id rs recss bad e tail); auto.
    rewrite Hrem, length_app, length_map. simpl. lia.
  - unfold issued_for. simpl. now rewrite length_map.
Qed.

(** X15. While the replies signal more data the fetcher goes on: after n such
    replies it has issued n+1 queries and waits for the next reply. *)
Theorem fetch_unbounded (id : string) (rs : list json)
    (recss : list (list json)) (w : world) :
  remote w = map Response rs ->
  Forall2 (fun r recs => results_of r = Ok recs /\ has_more r = true) rs recss ->
  query_all_pages id w
  = Pending (with_remote w [] (queries w ++ issued_for id JNull rs)) /\
  List.length (issued_for id JNull rs) = S (List.length rs).
Proof.
  intros Hrem Hrs. split.
  - unfold query_all_pages.
    apply (query_loop_pending id rs recss); auto.
    rewrite Hrem, length_map. lia.
  - unfold issued_for. simpl. now rewrite length_map.
Qed.

Lemma with_remote_twice (w : world) (r r' : list reply) (q q' : list Dict.t) :
  with_remote (with_remote w r q) r' q' = with_remote w r' q'.
Proof. reflexivity. Qed.

Lemma query_loop_effect (id : string) (fuel : nat) :
  forall (cursor : json) (pages : list json) (w : world),
  exists (consumed rest : list reply) (issued : list Dict.t),
    remote w = (consumed ++ rest)%list /\
    final_world (query_loop fuel id cursor pages w)
    = with_remote w rest (queries w ++ issued) /\
    (List.length consumed <= List.length issued)%nat /\
    Forall (fun q => Dict.get q "page_size" = Some (JInt 100) /\
                     Dict.get q "database_id" = Some (JStr id)) issued.
Proof.
  induction fuel as [|fuel IH]; intros cursor pages w.
  - exists [], (remote w), []. simpl. rewrite app_nil_r.
    repeat split; [now destruct w | lia | constructor].
  - assert (Hq : Dict.get (query_kwargs id cursor) "page_size"
                 = Some (JInt 100) /\
                 Dict.get (query_kwargs id cursor) "database_id"
                 = Some (JStr id)).
    { destruct (query_kwargs_fields id cursor) as (? & ? & _). auto. }
    cbn [query_loop]. unfold bind at 1, databases_query.
    destruct (remote w) as [|[r|] rem] eqn:Hrem.
    + exists [], [], [query_kwargs id cursor]. simpl.
      repeat split; [lia | now constructor].
    + assert (Hstop : exists consumed rest issued,
                Response r :: rem = (consumed ++ rest)%list /\
                with_remote w rem (queries w ++ [query_kwargs id cursor])
                = with_remote w rest (queries w ++ issued) /\
                (List.length consumed <= List.length issued)%nat /\
                Forall (fun q => Dict.get q "page_size" = Some (JInt 100) /\
                                 Dict.get q "database_id" = Some (JStr id))
                       issued).
      { exists [Response r], rem, [query_kwargs id cursor]. simpl.
        repeat split; [lia | now constructor]. }
      unfold bind at 1. destruct (results_of r) as [recs|e]; [|exact Hstop].
      cbn [lift ret]. unfold bind at 1.
      destruct (py_get r "has_more" JNull) as [hm|e]; [|exact Hstop].
      cbn [lift ret]. destruct (py_truthy hm); [|exact Hstop]. cbn [negb].
      unfold bind at 1.
      destruct (py_get r "next_cursor" JNull) as [c|e]; [|exact Hstop].
      cbn [lift ret].
      destruct (IH c (pages ++ recs)%list
                  (with_remote w rem (queries w ++ [query_kwargs id cursor])))
        as (consumed & rest & issued & Hsplit & Hfin & Hlen & Hall).
      exists (Response r :: consumed), rest, (query_kwargs id cursor :: issued).
      cbn [remote with_remote queries] in Hsplit, Hfin.
      rewrite Hfin. rewrite with_remote_twice, <- app_assoc.
      repeat split; [simpl; now rewrite Hsplit | simpl; lia | now constructor].
    + exists [Failure], rem, [query_kwargs id cursor]. simpl.
      repeat split; [lia | now constructor].
Qed.

(** X16. However it ends, the fetch only talks to the service: replies are
    taken from the front, at most one per query, every query has page size
    100 and the database id, and the rest of the world is as it was. *)
Theorem fetch_only_queries (id : string) (w : world) :
  exists (consumed rest : list reply) (issued : list Dict.t),
    remote w = (consumed ++ rest)%list /\
    final_world (query_all_pages id w)
    = with_remote w rest (queries w ++ issued) /\
    (List.length consumed <= List.length issued)%nat /\
    Forall (fun q => Dict.get q "page_size" = Some (JInt 100) /\
                     Dict.get q "database_id" = Some (JStr id)) issued.
Proof. unfold query_all_pages. apply query_loop_effect. Qed.
End FetchRuns.

Section ExportRuns.

Context {RT : PyRuntime}.

Lemma bind_Raised {A B} (m : M A) (k : A -> M B) (w w' : world) (e : exn) :
  bind m k w = Raised e w' ->
  m w = Raised e w' \/ exists a w1, m w = Done a w1 /\ k a w1 = Raised e w'.
Proof.
  unfold bind. destruct (m w); intros H;
    [right; eauto | left; now injection H as -> -> | discriminate].
Qed.

Lemma lift_Raised {A} (r : result A) (w w' : world) (e : exn) :
  lift r w = Raised e w' -> r = Raise e /\ w' = w.
Proof.
  destruct r; simpl; [discriminate|].
  unfold raise. intros H. now injection H as -> ->.
Qed.

(** X17. A database entry without a key, or one that is no mapping, aborts its
    export, and the loop over the databases with it, before any output and
    any query. *)
Theorem export_without_key (cfg : json) (e : exn) (out : Path) (dry : bool)
    (w : world) :
  py_index cfg "key" = Raise e ->
  export_database cfg out dry w = Raised e w /\
  (forall rest items, export_all (cfg :: rest) out dry items w = Raised e w) /\
  (e = KeyError \/ e = TypeError).
Proof.
  intros Hkey.
  assert (H : export_database cfg out dry w = Raised e w).
  { unfold export_database, bind. now rewrite Hkey. }
  split; [exact H|]. split.
  - intros rest items. simpl. unfold bind at 1. now rewrite H.
  - destruct cfg; simpl in Hkey; try (injection Hkey as <-; now right).
    destruct (Dict.get d "key"); [discriminate|].
    injection Hkey as <-. now left.
Qed.

(** X18. A database entry whose reference is missing or empty is skipped like
    a placeholder: a line on the error stream, no query, no item. *)
Theorem export_without_url (d : Dict.t) (db_key : json) (out : Path)
    (dry : bool) (w : world) :
  Dict.get d "key" = Some db_key ->
  Dict.get d "notion_url" = None \/ Dict.get d "notion_url" = Some (JStr "") ->
  export_database (JDict d) out dry w
  = Done JNull
      (with_stderr w (stderr w ++
         [Text ("  Skipping '" ++ py_str db_key ++ "': placeholder URL")])).
Proof.
  intros Hkey Hurl. unfold export_database, bind.
  cbn [py_index py_get]. rewrite Hkey. cbn [lift ret].
  destruct Hurl as [-> | ->]; reflexivity.
Qed.

(** X19. The item of an export counts what was fetched: its row count is the
    number of records, and its column count the number of properties of the
    first record plus the two synthetic columns. *)
Theorem export_counts (cfg db_key : json) (url id : string) (out : Path)
    (dry : bool) (w w1 w2 w' : world) (pages : list json) (v : json) :
  py_index cfg "key" = Ok db_key ->
  py_get cfg "notion_url" (JStr "") = Ok (JStr url) ->
  extract_notion_id url = Some id -> id <> "" ->
  print ("  Exporting '" ++ py_str db_key ++ "' (ID: "
         ++ take 8 id ++ "...)") w = Done tt w1 ->
  query_all_pages id w1 = Done pages w2 ->
  export_database cfg out dry w = Done v w' ->
  py_index v "row_count" = Ok (JInt (Z.of_nat (List.length pages))) /\
  forall first rest,
    pages = first :: rest ->
    exists first_props,
      py_get first "properties" (JDict []) = Ok (JDict first_props) /\
      py_index v "columns"
      = Ok (JInt (Z.of_nat (List.length (Dict.keys first_props) + 2))).
Proof.
  intros Hkey Hurl Hid Hne Hp Hq H.
  destruct (export_database_fetched cfg db_key url id out dry w w1 w2 w'
              pages v Hkey Hurl Hid Hne Hp Hq H)
    as [(-> & -> & _) | (first & rest & fp & rows & -> & Hfp & Hrun)].
  - split; [reflexivity | discriminate].
  - cbv zeta in Hrun. destruct Hrun as (Hrows & -> & _).
    apply map_result_length in Hrows. split.
    + cbn [item4 py_index Dict.get String.eqb Ascii.eqb Bool.eqb].
      now rewrite Hrows.
    + intros first' rest' [= <- <-]. exists fp. split; [exact Hfp|].
      cbn [item4 py_index Dict.get String.eqb Ascii.eqb Bool.eqb].
      rewrite length_app. simpl.
      now rewrite <- (Permutation_length (sorted_perm (Dict.keys fp))).
Qed.

Lemma dict_to_list_built (columns : list string) (page : json) (row : Dict.t) :
  build_row columns page = Ok row ->
  let all_columns := (columns ++ ["_notion_id"; "_last_edited"])%list in
  dict_to_list all_columns row = Ok (row_cells all_columns row).
Proof.
  intros H all_columns.
  apply build_row_columns in H as (Hkeys & _).
  unfold dict_to_list.
  replace (forallb _ (Dict.keys row)) with true; [reflexivity|].
  symmetry. apply forallb_forall. intros k Hk.
  apply existsb_exists. exists k. split; [now apply Hkeys|].
  apply String.eqb_refl.
Qed.

Lemma rows_built (columns : list string) (pages : list json)
    (rows : list Dict.t) :
  map_result (build_row columns) pages = Ok rows ->
  let all_columns := (columns ++ ["_notion_id"; "_last_edited"])%list in
  Forall (fun row => dict_to_list all_columns row
                     = Ok (row_cells all_columns row)) rows.
Proof.
  intros Hrows all_columns. apply map_result_Forall2 in Hrows.
  induction Hrows as [|pg r pgs rs Hr _ IH]; constructor; [|exact IH].
  now apply dict_to_list_built in Hr.
Qed.




Lemma line_fits_same (w w0 : world) (cells : list json) :
  encodes w0 = encodes w -> line_fits w0 cells = line_fits w cells.
Proof. intros E. unfold line_fits, encodable. now rewrite E. Qed.


(* the rows up to the first one that cannot be written *)
Lemma writerows_stops (p : Path) (fn : list string) (good : list Dict.t)
    (bad : Dict.t) (more : list Dict.t) :
  forall (written : list (list json)) (w : world),
  Forall (fun row => dict_to_list fn row = Ok (row_cells fn row))
         (good ++ [bad]) ->
  Forall (fun row => line_fits w (row_cells fn row) = true) good ->
  line_fits w (row_cells fn bad) = false ->
  exists w',
    writerows p fn (good ++ bad :: more) written w
    = Raised UnicodeEncodeError w' /\
    dirs (fs w') = dirs (fs w) /\
    (good = [] -> w' = w) /\
    (good <> [] ->
     hd_error (files (fs w'))
     = Some (p, CsvFile fn (written ++ map (row_cells fn) good))).
Proof.
  induction good as [|r good IH]; intros written w Hrows Hfit Hbad.
  - exists w. inversion Hrows as [|? ? Hr _]; subst.
    split; [|split; [reflexivity | split; [reflexivity | congruence]]].
    cbn [app writerows]. unfold bind at 1. rewrite Hr. cbn [lift ret].
    unfold bind at 1, write_line. unfold line_fits in Hbad. now rewrite Hbad.
  - inversion Hrows as [|? ? Hr Hrest]; subst.
    inversion Hfit as [|? ? Hf Hfrest]; subst.
    destruct (IH (written ++ [row_cells fn r])%list
                 (with_fs w (put_file p (CsvFile fn (written ++ [row_cells fn r]))
                                      (fs w))) Hrest Hfrest Hbad)
      as (w' & Hrun & Hdirs & Hnil & Hcons).
    exists w'. split; [|split; [exact Hdirs | split; [discriminate|]]].
    + cbn [app writerows]. unfold bind at 1. rewrite Hr. cbn [lift ret].
      unfold bind at 1, write_line. unfold line_fits in Hf. rewrite Hf.
      exact Hrun.
    + intros _. destruct good as [|r' good'].
      * rewrite (Hnil eq_refl). reflexivity.
      * rewrite Hcons by discriminate. cbn [map]. now rewrite <- app_assoc.
Qed.

(* off dry-run, an export whose rows are built and whose header is written
   goes on to write the rows *)
Lemma export_reaches_rows (d : Dict.t) (db_key : json) (url id : string)
    (out : Path) (w w1 w2 : world) (first : json) (rest : list json)
    (fp : Dict.t) (rows : list Dict.t) :
  Dict.get d "key" = Some db_key ->
  Dict.get d "notion_url" = Some (JStr url) ->
  extract_notion_id url = Some id -> id <> "" ->
  print ("  Exporting '" ++ py_str db_key ++ "' (ID: "
         ++ take 8 id ++ "...)") w = Done tt w1 ->
  query_all_pages id w1 = Done (first :: rest) w2 ->
  py_get first "properties" (JDict []) = Ok (JDict fp) ->
  let all_columns :=
    (sorted (Dict.keys fp) ++ ["_notion_id"; "_last_edited"])%list in
  let csv_path := path_div (path_div out "data") (py_str db_key ++ ".csv") in
  map_result (build_row (sorted (Dict.keys fp))) (first :: rest) = Ok rows ->
  writable w (path_parent csv_path) = true ->
  writable w csv_path = true ->
  forallb (encodable w) all_columns = true ->
  exists w6,
    encodes w6 = encodes w /\
    dirs (fs w6) = path_parent csv_path :: dirs (fs w) /\
    hd_error (files (fs w6)) = Some (csv_path, CsvFile all_columns []) /\
    export_database (JDict d) out false w
    = bind (bind (writerows csv_path all_columns rows [])
                 (fun _ => print ("    Wrote " ++ py_str (len rows)
                                  ++ " rows to " ++ path_str csv_path)))
           (fun _ => ret (item4 db_key (List.length rows)
                                (List.length all_columns))) w6.
Proof.
  intros Hkey Hurl Hid Hne Hprint Hq Hfp all_columns csv_path Hrows Hwd Hwf
         Hhead.
  apply String.eqb_neq in Hne.
  destruct (query_loop_effect id (S (List.length (remote w1))) JNull [] w1)
    as (consumed & rest' & issued & _ & Hfin & _).
  fold (query_all_pages id w1) in Hfin. rewrite Hq in Hfin. simpl in Hfin.
  apply print_Done in Hprint.
  set (w3 := with_stdout w2 (stdout w2 ++
               [Text ("    Fetched " ++ py_str (len (first :: rest)) ++ " rows")])).
  assert (Hw3 : writable w3 = writable w /\ fs w3 = fs w /\
                encodes w3 = encodes w).
  { subst w3 w2 w1. repeat split. }
  destruct Hw3 as (Hwr3 & Hfs3 & Hen3).
  set (w4 := with_fs w3 (mkFs (path_parent csv_path :: dirs (fs w3))
                              (files (fs w3)))).
  set (w5 := with_fs w4 (put_file csv_path Empty (fs w4))).
  set (w6 := with_fs w5 (put_file csv_path (CsvFile all_columns []) (fs w5))).
  exists w6. split; [exact Hen3|]. split.
  { subst w6 w5 w4. cbn [fs with_fs put_file dirs]. now rewrite Hfs3. }
  split; [reflexivity|].
  unfold export_database.
  unfold bind at 1. cbn [py_index]. rewrite Hkey. cbn [lift ret].
  unfold bind at 1. cbn [py_get]. rewrite Hurl. cbn [lift ret].
  unfold bind at 1. cbn [lift ret]. rewrite Hid, Hne.
  unfold bind at 1, print at 1.
  fold (with_stdout w (stdout w ++ [Text ("  Exporting '" ++ py_str db_key
                                          ++ "' (ID: " ++ take 8 id ++ "...)")])).
  rewrite <- Hprint.
  unfold bind at 1. rewrite Hq.
  unfold bind at 1, print at 1. fold w3.
  unfold bind at 1. rewrite Hfp. cbn [lift ret].
  unfold bind at 1. cbn [py_keys lift ret].
  unfold bind at 1. rewrite Hrows. cbn [lift ret].
  fold all_columns. fold csv_path.
  unfold bind at 1.
  unfold bind at 1, mkdir at 1. rewrite Hwr3, Hwd. fold w4.
  unfold bind at 1, open_w at 1.
  replace (writable w4 csv_path) with true by
    (subst w4; cbn [writable with_fs]; now rewrite Hwr3, Hwf).
  fold w5.
  unfold bind at 1, writeheader, write_line at 1.
  replace (forallb (encodable w5) all_columns) with true by
    (symmetry; rewrite <- Hhead; unfold encodable; subst w5 w4;
     cbn [encodes with_fs]; now rewrite Hen3).
  fold w6. reflexivity.
Qed.


(** X29. Off dry-run, an export stops at the first row that has a character
    the encoding of the file does not take: it ends with an encoding error
    and returns no item, and the file it has opened stays behind with the
    header and the rows before that one. *)
Theorem export_partial_csv (d : Dict.t) (db_key : json) (url id : string)
    (out : Path) (w w1 w2 : world) (first : json) (rest : list json)
    (fp : Dict.t) (good : list Dict.t) (bad : Dict.t) (more : list Dict.t) :
  Dict.get d "key" = Some db_key ->
  Dict.get d "notion_url" = Some (JStr url) ->
  extract_notion_id url = Some id -> id <> "" ->
  print ("  Exporting '" ++ py_str db_key ++ "' (ID: "
         ++ take 8 id ++ "...)") w = Done tt w1 ->
  query_all_pages id w1 = Done (first :: rest) w2 ->
  py_get first "properties" (JDict []) = Ok (JDict fp) ->
  let all_columns :=
    (sorted (Dict.keys fp) ++ ["_notion_id"; "_last_edited"])%list in
  let csv_path := path_div (path_div out "data") (py_str db_key ++ ".csv") in
  map_result (build_row (sorted (Dict.keys fp))) (first :: rest)
  = Ok (good ++ bad :: more)%list ->
  writable w (path_parent csv_path) = true ->
  writable w csv_path = true ->
  forallb (encodable w) all_columns = true ->
  Forall (fun row => line_fits w (row_cells all_columns row) = true) good ->
  line_fits w (row_cells all_columns bad) = false ->
  exists w',
    export_database (JDict d) out false w = Raised UnicodeEncodeError w' /\
    hd_error (files (fs w'))
    = Some (csv_path, CsvFile all_columns (map (row_cells all_columns) good)) /\
    dirs (fs w') = path_parent csv_path :: dirs (fs w).
Proof.
  intros Hkey Hurl Hid Hne Hprint Hq Hfp all_columns csv_path Hrows Hwd Hwf
         Hhead Hfit Hbad.
  destruct (export_reaches_rows d db_key url id out w w1 w2 first rest fp
              (good ++ bad :: more) Hkey Hurl Hid Hne Hprint Hq Hfp Hrows
              Hwd Hwf Hhead)
    as (w6 & Hen & Hdirs6 & Hhd6 & Hrun).
  fold all_columns csv_path in Hen, Hdirs6, Hhd6, Hrun.
  assert (Hfit6 : Forall (fun row => line_fits w6 (row_cells all_columns row)
                                     = true) good).
  { eapply Forall_impl; [|exact Hfit]. intros row Hrow. cbv beta in Hrow |- *.
    now rewrite (line_fits_same w w6 _ Hen). }
  assert (Hbad6 : line_fits w6 (row_cells all_columns bad) = false)
    by now rewrite (line_fits_same w w6 _ Hen).
  assert (Hbuilt : Forall (fun row => dict_to_list all_columns row
                                      = Ok (row_cells all_columns row))
                          (good ++ [bad])).
  { pose proof (rows_built _ _ _ Hrows) as B. cbv zeta in B.
    fold all_columns in B. rewrite Forall_forall in B |- *.
    intros row Hin. apply B. apply in_app_iff in Hin as [Hin | [<- | []]];
      apply in_app_iff; [now left | right; now left]. }
  destruct (writerows_stops csv_path all_columns good bad more [] w6
              Hbuilt Hfit6 Hbad6)
    as (w7 & Hw & Hdirs & Hnil & Hcons).
  exists w7. split; [|split].
  - rewrite Hrun. unfold bind at 1. unfold bind at 1. rewrite Hw. reflexivity.
  - destruct good as [|g good'].
    + rewrite (Hnil eq_refl). exact Hhd6.
    + now apply Hcons.
  - now rewrite Hdirs.
Qed.
End ExportRuns.

Lemma ro_weaken {A} (P Q : exn -> Prop) (r : result A) :
  (forall e, P e -> Q e) -> raises_only P r -> raises_only Q r.
Proof. intros HPQ Hr e He. apply HPQ, Hr, He. Qed.

Lemma lookup_plain (e : exn) : lookup_error e -> plain_error e.
Proof. unfold plain_error. intros [-> | ->]; auto. Qed.

Lemma rp_py_index (v : json) (k : string) :
  raises_only plain_error (py_index v k).
Proof.
  unfold plain_error.
  destruct v; simpl; try (intros err [= <-]; auto).
  destruct (Dict.get d k); intros err [= <-]; auto.
Qed.

Lemma rp_py_in (k : string) (v : json) : raises_only plain_error (py_in k v).
Proof. unfold plain_error. destruct v; simpl; intros err [= <-]; auto. Qed.

Lemma rp_py_keys (v : json) : raises_only plain_error (py_keys v).
Proof. unfold plain_error. destruct v; simpl; intros err [= <-]; auto. Qed.

Lemma rp_dict_to_list (fn : list string) (row : Dict.t) :
  raises_only plain_error (dict_to_list fn row).
Proof.
  unfold plain_error, dict_to_list.
  destruct (forallb _ _); intros err [= <-]; auto.
Qed.

Section PlainErrors.

Context {RT : PyRuntime}.

Lemma rp_py_path (v : json) : raises_only plain_error (py_path v).
Proof. unfold plain_error. destruct v; simpl; intros err [= <-]; auto. Qed.

Lemma rp_py_path_div (p : Path) (v : json) :
  raises_only plain_error (py_path_div p v).
Proof. unfold plain_error. destruct v; simpl; intros err [= <-]; auto. Qed.

Lemma rp_py_add (a b : json) : raises_only plain_error (py_add a b).
Proof.
  unfold plain_error, py_add.
  destruct (as_int a), (as_int b), a, b; intros err [= <-]; auto.
Qed.

Ltac rp :=
  repeat first
    [ apply ro_Ok
    | apply (ro_weaken _ _ _ lookup_plain); apply ro_py_get
    | apply (ro_weaken _ _ _ lookup_plain); apply ro_py_iter
    | apply (ro_weaken _ _ _ lookup_plain); apply ro_flatten_property
    | apply rp_py_index | apply rp_py_in | apply rp_py_keys
    | apply rp_dict_to_list | apply rp_py_path | apply rp_py_path_div
    | apply rp_py_add
    | apply ro_map_result; intros ?
    | apply ro_rbind; [|intros ?]
    | match goal with
      | |- raises_only _ (if ?b then _ else _) => destruct b
      | |- raises_only _ (match ?x with _ => _ end) => destruct x
      end ].

Lemma rp_results_of (r : json) : raises_only plain_error (results_of r).
Proof. unfold results_of. rp. Qed.

Lemma rp_fill_columns (columns : list string) (props : json) :
  forall row, raises_only plain_error (fill_columns columns props row).
Proof.
  induction columns as [|c columns IH]; intros row; simpl; [apply ro_Ok|].
  apply ro_rbind; [apply rp_py_in | intros present].
  apply ro_rbind; [rp | intros v; apply IH].
Qed.

Lemma rp_build_row (columns : list string) (page : json) :
  raises_only plain_error (build_row columns page).
Proof.
  unfold build_row.
  apply ro_rbind; [rp | intros props].
  apply ro_rbind; [apply rp_fill_columns | intros row]. rp.
Qed.

Lemma rp_sum_row_counts (items : list json) :
  forall acc, raises_only plain_error (sum_row_counts items acc).
Proof.
  induction items as [|i items IH]; intros acc; simpl; [apply ro_Ok|].
  apply ro_rbind; [rp | intros v].
  apply ro_rbind; [apply rp_py_add | intros acc'; apply IH].
Qed.
End PlainErrors.

Lemma plain_not_exit (e : exn) : plain_error e -> not_exit e.
Proof. intros [-> | [-> | [-> | ->]]]; exact I. Qed.

Section Exits.

Context {RT : PyRuntime}.

Lemma ne_ret {A} (a : A) : never_exits (ret a).
Proof. intros w e w'. discriminate. Qed.

Lemma ne_lift {A} (r : result A) :
  raises_only plain_error r -> never_exits (lift r).
Proof.
  intros Hr w e w' H. apply lift_Raised in H as [H _].
  now apply plain_not_exit, Hr.
Qed.

Lemma ne_bind {A B} (m : M A) (k : A -> M B) :
  never_exits m -> (forall a, never_exits (k a)) -> never_exits (bind m k).
Proof.
  intros Hm Hk w e w' H.
  apply bind_Raised in H as [H | (a & w1 & _ & H)];
    [exact (Hm _ _ _ H) | exact (Hk _ _ _ _ H)].
Qed.

Lemma ne_print (s : string) : never_exits (print s).
Proof. intros w e w'. discriminate. Qed.

Lemma ne_print_json (v : json) : never_exits (print_json v).
Proof.
  intros w e w'. unfold print_json.
  destruct (serializable v); intros [= <- _]. exact I.
Qed.

Lemma ne_eprint (s : string) : never_exits (eprint s).
Proof. intros w e w'. discriminate. Qed.

Lemma ne_getenv (name default : string) : never_exits (getenv name default).
Proof. intros w e w'. discriminate. Qed.

Lemma ne_utcnow : never_exits utcnow_isoformat.
Proof. intros w e w'. discriminate. Qed.

Lemma ne_write_line (p : Path) (cells : list string) (after : content) :
  never_exits (write_line p cells after).
Proof.
  intros w e w'. unfold write_line.
  destruct (forallb _ cells); intros [= <- _]. exact I.
Qed.

Lemma ne_json_dump (v : json) (p : Path) : never_exits (json_dump v p).
Proof.
  intros w e w'. unfold json_dump.
  destruct (serializable v); intros [= <- _]. exact I.
Qed.

Lemma ne_query (kwargs : Dict.t) : never_exits (databases_query kwargs).
Proof.
  intros w e w'. unfold databases_query.
  destruct (remote w) as [|[]]; intros [= <- _]; exact I.
Qed.

Lemma ne_mkdir (p : Path) : never_exits (mkdir p).
Proof.
  intros w e w'. unfold mkdir. destruct (writable w p); intros [= <- _].
  exact I.
Qed.

Lemma ne_open_w (p : Path) : never_exits (open_w p).
Proof.
  intros w e w'. unfold open_w. destruct (writable w p); intros [= <- _].
  exact I.
Qed.

Ltac ne :=
  repeat first
    [ apply ne_ret | apply ne_print | apply ne_print_json | apply ne_eprint
    | apply ne_getenv | apply ne_utcnow | apply ne_write_line
    | apply ne_json_dump | apply ne_query | apply ne_mkdir | apply ne_open_w
    | apply ne_bind; [|intros ?]
    | match goal with
      | |- never_exits (if ?b then _ else _) => destruct b
      | |- never_exits (match ?x with _ => _ end) => destruct x
      end ].

Lemma ne_query_loop (fuel : nat) (id : string) :
  forall cursor pages, never_exits (query_loop fuel id cursor pages).
Proof.
  induction fuel as [|fuel IH]; intros cursor pages; simpl.
  - intros w e w'. discriminate.
  - apply ne_bind; [apply ne_query | intros response].
    apply ne_bind; [apply ne_lift, rp_results_of | intros results].
    apply ne_bind;
      [apply ne_lift, (ro_weaken _ _ _ lookup_plain), ro_py_get | intros hm].
    destruct (negb (py_truthy hm)); [apply ne_ret|].
    apply ne_bind;
      [apply ne_lift, (ro_weaken _ _ _ lookup_plain), ro_py_get | intros c].
    apply IH.
Qed.

Lemma ne_query_all_pages (id : string) : never_exits (query_all_pages id).
Proof. intros w. apply ne_query_loop. Qed.

Lemma ne_writerows (p : Path) (fn : list string) (rows : list Dict.t) :
  forall written, never_exits (writerows p fn rows written).
Proof.
  induction rows as [|r rows IH]; intros written; simpl; [apply ne_ret|].
  apply ne_bind; [apply ne_lift, rp_dict_to_list | intros cells].
  apply ne_bind; [apply ne_write_line | intros _; apply IH].
Qed.

Lemma ne_export_database (cfg : json) (out : Path) (dry : bool) :
  never_exits (export_database cfg out dry).
Proof.
  unfold export_database.
  apply ne_bind; [apply ne_lift, rp_py_index | intros db_key].
  apply ne_bind;
    [apply ne_lift, (ro_weaken _ _ _ lookup_plain), ro_py_get | intros url].
  apply ne_bind.
  { apply ne_lift. destruct url; try apply ro_Ok;
      apply ro_Raise; unfold plain_error; auto. }
  intros db_id. destruct db_id as [id|]; [|ne].
  destruct (String.eqb id ""); [ne|].
  apply ne_bind; [apply ne_print | intros _].
  apply ne_bind; [apply ne_query_all_pages | intros pages].
  apply ne_bind; [apply ne_print | intros _].
  destruct pages as [|first rest]; [ne|].
  apply ne_bind;
    [apply ne_lift, (ro_weaken _ _ _ lookup_plain), ro_py_get | intros fp].
  apply ne_bind; [apply ne_lift, rp_py_keys | intros keys].
  apply ne_bind.
  { apply ne_lift, ro_map_result. intros page. apply rp_build_row. }
  intros rows. apply ne_bind; [|intros _; apply ne_ret].
  destruct dry; [apply ne_print|].
  apply ne_bind; [apply ne_mkdir | intros _].
  apply ne_bind; [apply ne_open_w | intros _].
  apply ne_bind; [apply ne_write_line | intros _].
  apply ne_bind; [apply ne_writerows | intros _; apply ne_print].
Qed.

Lemma ne_export_all (dbs : list json) (out : Path) (dry : bool) :
  forall items, never_exits (export_all dbs out dry items).
Proof.
  induction dbs as [|db dbs IH]; intros items; simpl; [apply ne_ret|].
  apply ne_bind; [apply ne_export_database | intros r; apply IH].
Qed.

Lemma untouched_refl (w : world) : untouched w w.
Proof. repeat split. Qed.

Lemma untouched_print (s : string) (w w0 w1 : world) (u : unit) :
  untouched w w0 -> print s w0 = Done u w1 -> untouched w w1.
Proof. intros H Hp. apply print_Done in Hp. now subst w1. Qed.

Lemma exit_after_eprint {A} (s : string) (w w0 w' : world) (e : exn) (c : Z) :
  untouched w w0 ->
  bind (eprint s) (fun _ => raise (A := A) (SystemExit 1)) w0 = Raised e w' ->
  e = SystemExit c -> c = 1 /\ untouched w w'.
Proof.
  intros H Hr ->. unfold bind, eprint, raise in Hr.
  injection Hr as <- <-. split; [reflexivity | exact H].
Qed.

(** X22. Whenever the run leaves the process, no query has been issued and the
    file system is as it was.  The argument parser leaves with status 0 after
    the help and with status 2 after a command line it does not accept; once
    the arguments are parsed, every exit of the script has status 1. *)
Theorem main_exits_early (w w' : world) (c : Z) :
  main w = Raised (SystemExit c) w' ->
  (queries w' = queries w /\ remote w' = remote w /\ fs w' = fs w) /\
  ((exists msg, argv w = HelpRequested msg /\ c = 0) \/
   (exists msg, argv w = UsageError msg /\ c = 2) \/
   (exists a, parse_args w = Done a w /\ c = 1)).
Proof.
  intros H. unfold main in H.
  apply bind_Raised in H as [H | (a & w0 & Hparse & H)].
  { unfold parse_args in H. destruct (argv w) as [b cf d|msg|msg];
      [discriminate| |];
      unfold bind, eprint, print, raise in H; injection H as <- <-;
      (split; [repeat split|]); [right; left; eauto | left; eauto]. }
  pose proof (parse_args_Done _ _ _ Hparse) as ->.
  enough (Hrest : c = 1 /\ untouched w w').
  { split; [exact (proj2 Hrest)|]. right. right. exists a.
    split; [exact Hparse | exact (proj1 Hrest)]. }
  clear Hparse.
  assert (Hlift : forall A (r : result A) w0,
            raises_only plain_error r ->
            lift r w0 = Raised (SystemExit c) w' -> False).
  { intros A r w0 Hr Hl. exact (ne_lift r Hr _ _ _ Hl). }
  apply bind_Raised in H as [H | (cfg & w0 & Hd & H)].
  { unfold load_yaml_config in H.
    destruct (config_files w (config a)); [| |discriminate];
      exact (exit_after_eprint _ w w w' _ c (untouched_refl w) H eq_refl). }
  assert (w0 = w) as ->.
  { unfold load_yaml_config in Hd.
    destruct (config_files w (config a)); try discriminate.
    now injection Hd as _ <-. }
  clear Hd.
  apply bind_Raised in H as [H | (bundles & w0 & Hd & H)];
    [destruct (Hlift _ _ _ (ro_weaken _ _ _ lookup_plain (ro_py_get _ _ _)) H)|].
  apply lift_Done in Hd as [_ ->].
  apply bind_Raised in H as [H | (defaults & w0 & Hd & H)];
    [destruct (Hlift _ _ _ (ro_weaken _ _ _ lookup_plain (ro_py_get _ _ _)) H)|].
  apply lift_Done in Hd as [_ ->].
  apply bind_Raised in H as [H | (known & w0 & Hd & H)];
    [destruct (Hlift _ _ _ (rp_py_in _ _) H)|].
  apply lift_Done in Hd as [_ ->].
  destruct (negb known).
  { apply bind_Raised in H as [H | ([] & w0 & Hd & H)]; [discriminate|].
    assert (U0 : untouched w w0).
    { unfold eprint in Hd. injection Hd as <-. repeat split. }
    apply bind_Raised in H as [H | (names & w1 & Hd1 & H)];
      [destruct (Hlift _ _ _ (rp_py_keys _) H)|].
    apply lift_Done in Hd1 as [_ ->].
    apply bind_Raised in H as [H | ([] & w1 & Hd1 & H)]; [discriminate|].
    apply (untouched_print _ w) in Hd1; [|exact U0].
    unfold raise in H. injection H as <- <-. split; [reflexivity | exact Hd1]. }
  apply bind_Raised in H as [H | (bundle_cfg & w0 & Hd & H)];
    [destruct (Hlift _ _ _ (rp_py_index _ _) H)|].
  apply lift_Done in Hd as [_ ->].
  apply bind_Raised in H as [H | (root & w0 & Hd & H)];
    [destruct (Hlift _ _ _ (ro_weaken _ _ _ lookup_plain (ro_py_get _ _ _)) H)|].
  apply lift_Done in Hd as [_ ->].
  apply bind_Raised in H as [H | (output_root & w0 & Hd & H)];
    [destruct (Hlift _ _ _ (rp_py_path _) H)|].
  apply lift_Done in Hd as [_ ->].
  apply bind_Raised in H as [H | ([] & w1 & Hp & H)]; [discriminate|].
  apply (untouched_print _ w) in Hp; [|apply untouched_refl].
  apply bind_Raised in H as [H | (name & w0 & Hd & H)];
    [destruct (Hlift _ _ _ (ro_weaken _ _ _ lookup_plain (ro_py_get _ _ _)) H)|].
  apply lift_Done in Hd as [_ ->].
  apply bind_Raised in H as [H | ([] & w2 & Hp2 & H)]; [discriminate|].
  apply (untouched_print _ w) in Hp2; [|exact Hp].
  apply bind_Raised in H as [H | (schema & w0 & Hd & H)];
    [destruct (Hlift _ _ _ (ro_weaken _ _ _ lookup_plain (ro_py_get _ _ _)) H)|].
  apply lift_Done in Hd as [_ ->].
  apply bind_Raised in H as [H | ([] & w3 & Hp3 & H)]; [discriminate|].
  apply (untouched_print _ w) in Hp3; [|exact Hp2].
  apply bind_Raised in H as [H | ([] & w4 & Hp4 & H)]; [discriminate|].
  apply (untouched_print _ w) in Hp4; [|exact Hp3].
  apply bind_Raised in H as [H | ([] & w5 & Hp5 & H)];
    [destruct (dry_run a); discriminate|].
  assert (U5 : untouched w w5).
  { destruct (dry_run a).
    - exact (untouched_print _ w _ _ _ Hp4 Hp5).
    - unfold ret in Hp5. now injection Hp5 as <-. }
  apply bind_Raised in H as [H | ([] & w6 & Hp6 & H)]; [discriminate|].
  apply (untouched_print _ w) in Hp6; [|exact U5].
  apply bind_Raised in H as [H | (token & w7 & Hd & H)]; [discriminate|].
  unfold getenv in Hd. injection Hd as _ <-.
  destruct (String.eqb token "").
  { exact (exit_after_eprint _ w w6 w' _ c Hp6 H eq_refl). }
  exfalso.
  assert (Hne : never_exits (A := unit)
            ltac:(match type of H with ?m _ = _ => exact m end)).
  { apply ne_bind;
      [apply ne_lift, (ro_weaken _ _ _ lookup_plain), ro_py_get | intros dbs].
    apply ne_bind;
      [apply ne_lift, (ro_weaken _ _ _ lookup_plain), ro_py_iter | intros dl].
    apply ne_bind; [apply ne_export_all | intros items].
    apply ne_bind;
      [apply ne_lift, (ro_weaken _ _ _ lookup_plain), ro_py_get | intros mn].
    apply ne_bind; [apply ne_utcnow | intros ts].
    do 3 (apply ne_bind; [apply ne_getenv | intros ?]).
    apply ne_bind; [apply ne_lift, rp_sum_row_counts | intros total].
    apply ne_bind;
      [apply ne_lift, (ro_weaken _ _ _ lookup_plain), ro_py_get | intros fnm].
    apply ne_bind; [|intros _; apply ne_print].
    destruct (dry_run a).
    - apply ne_bind; [apply ne_lift, rp_py_path_div | intros t].
      apply ne_bind; [apply ne_print | intros _; apply ne_print_json].
    - apply ne_bind; [apply ne_mkdir | intros _].
      apply ne_bind; [apply ne_lift, rp_py_path_div | intros t].
      apply ne_bind; [apply ne_open_w | intros _].
      apply ne_bind; [apply ne_json_dump | intros _; apply ne_print]. }
  exact (Hne _ _ _ H).
Qed.
End Exits.

Section Startup.

Context {RT : PyRuntime}.

Lemma export_database_item_of (cfg : json) (out : Path) (dry : bool)
    (w w' : world) (v : json) :
  export_database cfg out dry w = Done v w' -> item_of cfg v.
Proof.
  intros H. pose proof (export_database_item _ _ _ _ _ _ H) as Hitem.
  apply export_database_Done in H
    as (key & Hkey & [[-> _] | (id & w1 & pages & w2 & _ & Hq & H)]);
    [now left|].
  destruct Hitem as [-> | Hitem]; [now left | right].
  split; [exact Hitem|]. exists key. split; [exact Hkey|].
  destruct H as [(_ & -> & _) | (first & rest & fp & rows & -> & Hfp & H)].
  - reflexivity.
  - cbv zeta in H. destruct H as (_ & -> & _). reflexivity.
Qed.

(** X23. The loop over the databases exports them one after the other, in
    their order, each from the world the one before has left; it appends to
    the manifest items, in that order, the results that are items, and the
    result of a database is nothing or an item under the key of that
    database. *)
Theorem export_all_appends (dbs : list json) (out : Path) (dry : bool)
    (items items' : list json) (w w' : world) :
  export_all dbs out dry items w = Done items' w' ->
  exists results,
    exported out dry w dbs results w' /\
    Forall2 item_of dbs results /\
    items' = (items ++ filter py_truthy results)%list.
Proof.
  revert items w. induction dbs as [|db dbs IH]; intros items w H; simpl in H.
  - unfold ret in H. injection H as <- <-. exists [].
    split; [constructor|]. split; [constructor|].
    simpl. now rewrite app_nil_r.
  - apply bind_Done in H as (v & w1 & Hv & H).
    apply IH in H as (rs & Hex & Hrs & ->).
    exists (v :: rs).
    split; [econstructor; eassumption|].
    split; [constructor; [now apply export_database_item_of in Hv | exact Hrs]|].
    simpl. destruct (py_truthy v); [|reflexivity].
    now rewrite <- app_assoc.
Qed.

(** X24. A configuration file that is missing or is not YAML ends the run with
    code 1 after one line on the error stream; nothing else happens. *)
Theorem main_config_error (a : args) (w : world) (line : string) :
  parse_args w = Done a w ->
  (config_files w (config a) = FileNotFound /\
   line = "Config file not found: " ++ config a) \/
  (exists msg, config_files w (config a) = YAMLError msg /\
               line = "Invalid YAML in " ++ config a ++ ": " ++ msg) ->
  main w = Raised (SystemExit 1) (with_stderr w (stderr w ++ [Text line])).
Proof.
  intros Hparse H. unfold main. unfold bind at 1. rewrite Hparse.
  unfold bind at 1, load_yaml_config.
  destruct H as [[-> ->] | (msg & -> & ->)]; reflexivity.
Qed.


End Startup.

Section Manifest.

Context {RT : PyRuntime}.

Lemma sk_ret {A} (a : A) : settings_kept (ret a).
Proof. now intros w. Qed.

Lemma sk_raise {A} (e : exn) : settings_kept (raise (A := A) e).
Proof. now intros w. Qed.

Lemma sk_lift {A} (r : result A) : settings_kept (lift r).
Proof. destruct r; now intros w. Qed.

Lemma sk_bind {A B} (m : M A) (k : A -> M B) :
  settings_kept m -> (forall a, settings_kept (k a)) -> settings_kept (bind m k).
Proof.
  intros Hm Hk w. unfold bind. specialize (Hm w).
  destruct (m w) as [a w1|e w1|w1]; simpl in *; [|assumption..].
  destruct (Hk a w1) as [He Hc]. destruct Hm as [He' Hc'].
  split; congruence.
Qed.

Lemma sk_print (s : string) : settings_kept (print s).
Proof. now intros w. Qed.

Lemma sk_print_json (v : json) : settings_kept (print_json v).
Proof. intros w. unfold print_json. now destruct (serializable v). Qed.

Lemma sk_eprint (s : string) : settings_kept (eprint s).
Proof. now intros w. Qed.

Lemma sk_getenv (name default : string) : settings_kept (getenv name default).
Proof. now intros w. Qed.

Lemma sk_utcnow : settings_kept utcnow_isoformat.
Proof. now intros w. Qed.

Lemma sk_write_line (p : Path) (cells : list string) (after : content) :
  settings_kept (write_line p cells after).
Proof. intros w. unfold write_line. now destruct (forallb _ cells). Qed.

Lemma sk_json_dump (v : json) (p : Path) : settings_kept (json_dump v p).
Proof. intros w. unfold json_dump. now destruct (serializable v). Qed.

Lemma sk_query (kwargs : Dict.t) : settings_kept (databases_query kwargs).
Proof. intros w. unfold databases_query. now destruct (remote w) as [|[]]. Qed.

Lemma sk_mkdir (p : Path) : settings_kept (mkdir p).
Proof. intros w. unfold mkdir. now destruct (writable w p). Qed.

Lemma sk_open_w (p : Path) : settings_kept (open_w p).
Proof. intros w. unfold open_w. now destruct (writable w p). Qed.

Lemma sk_load (path : string) : settings_kept (load_yaml_config path).
Proof. intros w. unfold load_yaml_config. now destruct (config_files w path). Qed.

Ltac kept :=
  repeat first
    [ apply sk_ret | apply sk_raise | apply sk_lift | apply sk_print
    | apply sk_print_json | apply sk_eprint | apply sk_getenv | apply sk_utcnow
    | apply sk_write_line | apply sk_json_dump | apply sk_query
    | apply sk_mkdir | apply sk_open_w
    | apply sk_load
    | apply sk_bind; [|intros ?]
    | match goal with
      | |- settings_kept (if ?b then _ else _) => destruct b
      | |- settings_kept (match ?x with _ => _ end) => destruct x
      end ].

Lemma sk_query_loop (fuel : nat) (id : string) :
  forall cursor pages, settings_kept (query_loop fuel id cursor pages).
Proof.
  induction fuel as [|fuel IH]; intros cursor pages; simpl.
  - now intros w.
  - kept. apply IH.
Qed.

Lemma sk_query_all_pages (id : string) : settings_kept (query_all_pages id).
Proof. intros w. apply sk_query_loop. Qed.

Lemma sk_writerows (p : Path) (fn : list string) (rows : list Dict.t) :
  forall written, settings_kept (writerows p fn rows written).
Proof.
  induction rows as [|r rows IH]; intros written; simpl; [apply sk_ret|].
  kept. apply IH.
Qed.

Lemma sk_export_database (cfg : json) (out : Path) (dry : bool) :
  settings_kept (export_database cfg out dry).
Proof.
  unfold export_database.
  kept; first [apply sk_query_all_pages | apply sk_writerows].
Qed.

Lemma sk_export_all (dbs : list json) (out : Path) (dry : bool) :
  forall items, settings_kept (export_all dbs out dry items).
Proof.
  induction dbs as [|db dbs IH]; intros items; simpl; [apply sk_ret|].
  apply sk_bind; [apply sk_export_database | intros r; apply IH].
Qed.

Lemma sk_Done {A} (m : M A) (w w' : world) (a : A) :
  settings_kept m -> m w = Done a w' -> env w' = env w /\ clock w' = clock w.
Proof. intros Hm H. specialize (Hm w). now rewrite H in Hm. Qed.

Ltac inv_lift H x Hx :=
  let w1 := fresh "w" in
  apply bind_Done in H as (x & w1 & Hx & H);
  apply lift_Done in Hx as [Hx ->].

Ltac parsed H Hparse :=
  let a' := fresh "a" in
  let w0 := fresh "w" in
  let Hp := fresh "Hp" in
  unfold main in H;
  apply bind_Done in H as (a' & w0 & Hp & H);
  rewrite Hparse in Hp; injection Hp as <- <-.

Ltac inv_print H :=
  let w1 := fresh "w" in
  let Hm := fresh "Hm" in
  apply bind_Done in H as ([] & w1 & Hm & H);
  apply print_Done in Hm; subst w1.

Ltac inv_getenv H x :=
  let w1 := fresh "w" in
  let Hm := fresh "Hm" in
  apply bind_Done in H as (x & w1 & Hm & H);
  unfold getenv in Hm; injection Hm as <- <-.

(** X27. The manifest of a completed run: the bundle key, the name and schema
    version of the bundle (null and 1.0.0 when the configuration has none),
    the clock reading, the items, the audit block read from the environment
    (empty, manual and local when unset) and the totals; off dry-run it is
    written to the manifest file name (manifest.json unless configured) under
    the output root (packages unless configured) and the bundle key, in a
    directory the run has made. *)
Theorem main_manifest (a : args) (w w' : world) (u : unit) :
  parse_args w = Done a w ->
  main w = Done u w' ->
  exists cfg bundles defaults bundle_cfg root filename name schema items,
    config_files w (config a) = Loaded cfg /\
    py_get cfg "export_bundles" (JDict []) = Ok bundles /\
    py_index bundles (bundle a) = Ok bundle_cfg /\
    py_get cfg "defaults" (JDict []) = Ok defaults /\
    py_get defaults "output_root" (JStr "packages") = Ok (JStr root) /\
    py_get defaults "manifest_filename" (JStr "manifest.json")
    = Ok (JStr filename) /\
    py_get bundle_cfg "name" JNull = Ok name /\
    py_get bundle_cfg "schema_version" (JStr "1.0.0") = Ok schema /\
    let output_dir := path_div (path_of root) (bundle a) in
    let manifest :=
      JDict [("bundle", JStr (bundle a));
             ("name", name);
             ("schema_version", schema);
             ("exported_at", JStr (clock w));
             ("items", JList items);
             ("audit",
              JDict [("chitty_id", JStr (getenv_or w "CHITTY_ID" ""));
                     ("workflow", JStr (getenv_or w "GITHUB_WORKFLOW" "manual"));
                     ("actor", JStr (getenv_or w "GITHUB_ACTOR" "local"))]);
             ("totals", JDict [("databases", len items);
                               ("total_rows", JInt (total_rows items))])] in
    if dry_run a then In (JsonText manifest) (stdout w')
    else
      hd_error (files (fs w'))
      = Some (path_div output_dir filename, JsonFile manifest) /\
      hd_error (dirs (fs w')) = Some output_dir.
Proof.
  intros Hparse H. parsed H Hparse.
  apply bind_Done in H as (cfg & w0 & Hcfg & H).
  assert (Hload : config_files w (config a) = Loaded cfg /\ w0 = w).
  { unfold load_yaml_config in Hcfg.
    destruct (config_files w (config a)); try discriminate.
    now injection Hcfg as <- <-. }
  destruct Hload as [Hload ->]. clear Hcfg.
  inv_lift H bundles Hbundles. inv_lift H defaults Hdefaults.
  inv_lift H known Hknown.
  destruct (negb known).
  { apply bind_Done in H as ([] & w0 & _ & H).
    inv_lift H names Hnames.
    apply bind_Done in H as ([] & w1 & _ & H). discriminate. }
  inv_lift H bundle_cfg Hbcfg. inv_lift H root Hroot.
  inv_lift H output_root Hout.
  destruct root as [| | | |root| | |]; try discriminate.
  injection Hout as <-.
  inv_print H. inv_lift H name Hname. inv_print H.
  inv_lift H schema Hschema. inv_print H. inv_print H.
  apply bind_Done in H as ([] & w1 & Hmode & H).
  assert (E1 : env w1 = env w /\ clock w1 = clock w).
  { destruct (dry_run a).
    - apply print_Done in Hmode. now subst w1.
    - unfold ret in Hmode. now injection Hmode as <-. }
  clear Hmode.
  apply bind_Done in H as ([] & w2 & Hp & H).
  apply print_Done in Hp.
  assert (E2 : env w2 = env w /\ clock w2 = clock w) by (now subst w2).
  clear Hp E1.
  inv_getenv H token.
  destruct (String.eqb _ "").
  { apply bind_Done in H as ([] & w3 & _ & H). discriminate. }
  inv_lift H dbs Hdbs. inv_lift H databases Hdatabases.
  apply bind_Done in H as (items & w3 & Hall & H).
  assert (E3 : env w3 = env w /\ clock w3 = clock w).
  { destruct (sk_Done _ _ _ _ (sk_export_all _ _ _ _) Hall) as [He Hc].
    destruct E2. split; congruence. }
  inv_lift H manifest_name Hmname.
  apply bind_Done in H as (exported_at & w4 & Hnow & H).
  unfold utcnow_isoformat in Hnow. injection Hnow as <- <-.
  inv_getenv H chitty_id. inv_getenv H workflow. inv_getenv H actor.
  inv_lift H total Htotal.
  apply export_all_items in Hall; [|constructor].
  rewrite (sum_row_counts_items _ Hall 0) in Htotal. injection Htotal as <-.
  change (0 + total_rows items) with (total_rows items) in H.
  inv_lift H manifest_filename Hfilename.
  apply bind_Done in H as ([] & w5 & Hemit & H).
  apply print_Done in H. subst w'.
  destruct E3 as [Eenv Eclock].
  exists cfg, bundles, defaults, bundle_cfg, root.
  assert (Hfn : exists filename, manifest_filename = JStr filename).
  { destruct (dry_run a).
    - inv_lift Hemit target Htarget.
      destruct manifest_filename; try discriminate. eauto.
    - apply bind_Done in Hemit as ([] & w6 & _ & Hemit).
      inv_lift Hemit target Htarget.
      destruct manifest_filename; try discriminate. eauto. }
  destruct Hfn as [filename ->].
  exists filename, manifest_name, schema, items.
  repeat (split; [assumption|]).
  cbv zeta. unfold getenv_or. rewrite <- Eenv, <- Eclock.
  destruct (dry_run a).
  - inv_lift Hemit target Htarget.
    apply bind_Done in Hemit as ([] & w6 & Hp & Hemit).
    apply print_Done in Hp. subst w6.
    apply print_json_Done in Hemit. subst w5.
    cbn [stdout with_stdout]. apply in_or_app. left.
    apply in_or_app. right. now left.
  - apply bind_Done in Hemit as ([] & w6 & Hmk & Hemit).
    inv_lift Hemit target Htarget. injection Htarget as <-.
    apply bind_Done in Hemit as ([] & w7 & Hopen & Hemit).
    apply bind_Done in Hemit as ([] & w8 & Hwrite & Hemit).
    apply print_Done in Hemit. subst w5.
    apply json_dump_Done in Hwrite. subst w8.
    unfold open_w in Hopen. destruct (writable w6 _); [|discriminate].
    injection Hopen as <-.
    unfold mkdir in Hmk. destruct (writable w3 _); [|discriminate].
    injection Hmk as <-.
    split; reflexivity.
Qed.
End Manifest.

Section Aborts.

Context {RT : PyRuntime}.



















End Aborts.

(** ** The properties at concrete inputs *)

#[local] Existing Instance Demo.runtime.

Example extract_url :
  extract_notion_id
    "https://www.notion.so/ws/Services-0123456789abcdef0123456789abcdef?v=1"
  = Some Demo.uuid.
Proof. reflexivity. Qed.

Lemma resolver_raw_reference_witness :
  let s := "01234567-89ab-cdef-0123-456789abcdef" in
  startswith s "TODO:" = false /\
  contains "notion.so" s = false /\
  extract_notion_id s = Some Demo.uuid.
Proof.
  intros s. split; [reflexivity|]. split; [reflexivity|].
  exact (proj1 (resolver_raw_reference s eq_refl eq_refl)).
Defined.

Lemma resolver_url_witness :
  let s := "https://www.notion.so/ws/Services-0123456789abcdef0123456789abcdef?v=1" in
  startswith s "TODO:" = false /\
  contains "notion.so" s = true /\
  String.length (url_raw_id s) = 32%nat /\
  extract_notion_id s = Some Demo.uuid.
Proof.
  intros s. split; [reflexivity|]. split; [reflexivity|]. split; [reflexivity|].
  exact (proj1 (resolver_url s eq_refl eq_refl eq_refl)).
Defined.

Lemma flatten_null_is_None_witness :
  let d := Demo.formula JNull in
  let f := [("type", JStr "string"); ("string", JNull)] in
  Dict.get d "type" = Some (JStr "formula") /\
  py_get (JDict d) "formula" (JDict []) = Ok (JDict f) /\
  py_get (JDict f) "type" (JStr "") = Ok (JStr "string") /\
  flatten_property (JDict d) = Ok (JStr "None").
Proof.
  intros d f. split; [reflexivity|]. split; [reflexivity|]. split; [reflexivity|].
  apply (proj1 (flatten_null_is_None "formula" d f "string"
                  (or_introl eq_refl) eq_refl eq_refl eq_refl)).
  reflexivity.
Defined.

(** C10, the claim as written fails: a formula whose value under its tag is
    the empty text flattens to the empty text although the tagged key is
    there. *)
Lemma flatten_empty_text_value :
  let d := Demo.formula (JStr "") in
  Dict.get [("type", JStr "string"); ("string", JStr "")] "string"
  = Some (JStr "") /\
  flatten_property (JDict d) = Ok (JStr "").
Proof. split; reflexivity. Qed.

Lemma placeholder_skipped_witness :
  let cfg := Demo.db "pending" "TODO: paste the URL" in
  let w := Demo.bundle_world in
  startswith "TODO: paste the URL" "TODO:" = true /\
  py_get cfg "notion_url" (JStr "") = Ok (JStr "TODO: paste the URL") /\
  queries (final_world (export_database cfg "packages/services" false w))
  = queries w.
Proof.
  intros cfg w. split; [reflexivity|]. split; [reflexivity|].
  exact (proj1 (proj2 (placeholder_skipped cfg "TODO: paste the URL"
                         "packages/services" false w eq_refl eq_refl))).
Defined.

Lemma zero_records_no_file_witness :
  let cfg := Demo.db "svc" Demo.uuid in
  let w := Demo.empty_world [Response (Demo.page_reply [] false JNull)] in
  let w1 := with_stdout w [Text "  Exporting 'svc' (ID: 01234567...)"] in
  let w2 := with_remote w1 [] [query_kwargs Demo.uuid JNull] in
  py_index cfg "key" = Ok (JStr "svc") /\
  py_get cfg "notion_url" (JStr "") = Ok (JStr Demo.uuid) /\
  extract_notion_id Demo.uuid = Some Demo.uuid /\
  Demo.uuid <> "" /\
  print "  Exporting 'svc' (ID: 01234567...)" w = Done tt w1 /\
  query_all_pages Demo.uuid w1 = Done [] w2 /\
  fs (final_world (export_database cfg "packages/services" false w)) = fs w.
Proof.
  intros cfg w w1 w2.
  assert (Hne : Demo.uuid <> "") by discriminate.
  assert (Hq : query_all_pages Demo.uuid w1 = Done [] w2)
    by (vm_compute; reflexivity).
  repeat (split; [first [exact Hne | exact Hq | reflexivity]|]).
  destruct (zero_records_no_file (RT := Demo.runtime) cfg (JStr "svc")
              Demo.uuid Demo.uuid "packages/services" false w w1 w2
              eq_refl eq_refl eq_refl Hne eq_refl Hq)
    as (w' & Hrun & _ & Hfs & _).
  rewrite Hrun. exact Hfs.
Defined.

(** C3, the claim as written fails: the manifest item of an export that
    fetched no record has no column count. *)
Lemma manifest_item_without_columns :
  let w := Demo.empty_world [Response (Demo.page_reply [] false JNull)] in
  let run := export_database (Demo.db "svc" Demo.uuid) "packages/services"
                             false w in
  run = Done (item3 (JStr "svc")) (final_world run) /\
  has_field (item3 (JStr "svc")) "columns" = false /\
  py_index (item3 (JStr "svc")) "columns" = Raise KeyError.
Proof. split; [vm_compute; reflexivity|]. split; reflexivity. Qed.

Lemma manifest_item_fields_witness :
  let cfg := Demo.db "svc" Demo.uuid in
  let w := Demo.empty_world
             [Response (Demo.page_reply Sample.two_records false JNull)] in
  let w1 := with_stdout w [Text "  Exporting 'svc' (ID: 01234567...)"] in
  let w2 := with_remote w1 [] [query_kwargs Demo.uuid JNull] in
  let w' := final_world (export_database cfg "packages/services" false w) in
  let v := item4 (JStr "svc") 2 4 in
  py_index cfg "key" = Ok (JStr "svc") /\
  py_get cfg "notion_url" (JStr "") = Ok (JStr Demo.uuid) /\
  extract_notion_id Demo.uuid = Some Demo.uuid /\
  Demo.uuid <> "" /\
  print "  Exporting 'svc' (ID: 01234567...)" w = Done tt w1 /\
  query_all_pages Demo.uuid w1 = Done Sample.two_records w2 /\
  export_database cfg "packages/services" false w = Done v w' /\
  py_index v "row_count" = Ok (JInt 2) /\
  (has_field v "columns" = true <-> Sample.two_records <> []).
Proof.
  intros cfg w w1 w2 w' v.
  assert (Hne : Demo.uuid <> "") by discriminate.
  assert (Hq : query_all_pages Demo.uuid w1 = Done Sample.two_records w2)
    by (vm_compute; reflexivity).
  assert (Hrun : export_database cfg "packages/services" false w = Done v w')
    by (vm_compute; reflexivity).
  do 7 (split; [first [exact Hne | exact Hq | exact Hrun | reflexivity]|]).
  destruct (manifest_item_fields (RT := Demo.runtime) cfg (JStr "svc")
              Demo.uuid Demo.uuid "packages/services" false w w1 w2 w'
              Sample.two_records v eq_refl eq_refl eq_refl Hne eq_refl Hq Hrun)
    as (_ & _ & Hrows & Hcols & _).
  split; [exact Hrows | exact Hcols].
Defined.


Lemma fetch_all_pages_witness :
  let w := Demo.empty_world [Response Demo.page1; Response Demo.page2] in
  remote w = (map Response ([Demo.page1] ++ [Demo.page2]) ++ [])%list /\
  Forall2 (fun r recs => results_of r = Ok recs /\ has_more r = true)
          [Demo.page1] [Demo.numbered 0 100] /\
  results_of Demo.page2 = Ok (Demo.numbered 100 50) /\
  has_more Demo.page2 = false /\
  query_all_pages Demo.uuid w
  = Done (concat [Demo.numbered 0 100] ++ Demo.numbered 100 50)%list
         (with_remote w []
            (queries w ++
             [query_kwargs Demo.uuid JNull;
              query_kwargs Demo.uuid (next_cursor Demo.page1)])) /\
  List.length (concat [Demo.numbered 0 100] ++ Demo.numbered 100 50) = 150%nat /\
  next_cursor Demo.page1 = JStr "cursor-1".
Proof.
  intros w.
  assert (H1 : Forall2 (fun r recs => results_of r = Ok recs /\ has_more r = true)
                 [Demo.page1] [Demo.numbered 0 100]).
  { repeat constructor. }
  split; [reflexivity|]. split; [exact H1|]. split; [reflexivity|].
  split; [reflexivity|]. split; [|split; reflexivity].
  exact (proj1 (fetch_all_pages (RT := Demo.runtime) Demo.uuid [Demo.page1]
                  [Demo.numbered 0 100] Demo.page2 (Demo.numbered 100 50) [] w
                  eq_refl H1 eq_refl eq_refl)).
Defined.

Lemma manifest_totals_witness :
  let a := mkArgs "services" "chittyos-export.yaml" false in
  let w := Demo.bundle_world in
  let w' := final_world (main w) in
  parse_args w = Done a w /\
  main w = Done tt w' /\
  exists (items : list json) (manifest totals : json),
    (if dry_run a then In (JsonText manifest) (stdout w')
     else exists target,
         hd_error (files (fs w')) = Some (target, JsonFile manifest)) /\
    py_index manifest "items" = Ok (JList items) /\
    Forall is_item items /\
    py_index manifest "totals" = Ok totals /\
    py_index totals "databases" = Ok (JInt (Z.of_nat (List.length items))) /\
    py_index totals "total_rows" = Ok (JInt (total_rows items)).
Proof.
  intros a w w'.
  assert (Hrun : main w = Done tt w') by (vm_compute; reflexivity).
  split; [reflexivity|]. split; [exact Hrun|].
  exact (manifest_totals (RT := Demo.runtime) a w w' tt eq_refl Hrun).
Defined.

Lemma dry_run_writes_nothing_witness :
  let a := mkArgs "services" "chittyos-export.yaml" true in
  let w := Demo.called (Namespace "services" None true) Demo.bundle_world in
  parse_args w = Done a w /\
  dry_run a = true /\
  fs (final_world (main w)) = fs w.
Proof.
  intros a w. split; [reflexivity|]. split; [reflexivity|].
  exact (proj1 (dry_run_writes_nothing (RT := Demo.runtime) a w
                  eq_refl eq_refl)).
Defined.

(* a placeholder and a database of three records: one item, three rows *)
Example end_to_end :
  let w' := final_world (main Demo.bundle_world) in
  main Demo.bundle_world = Done tt w' /\
  match files (fs w') with
  | [(manifest_path, JsonFile manifest); (csv_path, CsvFile header rows)] =>
      manifest_path = "packages/services/manifest.json" /\
      csv_path = "packages/services/data/svc.csv" /\
      header = ["Name"; "Status"; "_notion_id"; "_last_edited"] /\
      List.length rows = 3%nat /\
      py_index manifest "totals"
      = Ok (JDict [("databases", JInt 1); ("total_rows", JInt 3)])
  | _ => False
  end.
Proof. vm_compute. repeat split. Qed.

(** ** The further properties at concrete inputs *)

Lemma resolver_result_shape_witness :
  let s := "01234567-89ab-cdef-0123-456789abcdef" in
  extract_notion_id s = Some Demo.uuid /\
  (Demo.uuid = s \/ String.length Demo.uuid = 32%nat).
Proof.
  intros s. split; [reflexivity|].
  exact (resolver_result_shape s Demo.uuid eq_refl).
Defined.

Lemma resolver_url_falls_through_witness :
  let s := "https://www.notion.so/workspace/Roadmap" in
  startswith s "TODO:" = false /\
  contains "notion.so" s = true /\
  String.length (url_raw_id s) <> 32%nat /\
  extract_notion_id s = Some s.
Proof.
  intros s.
  assert (H : String.length (url_raw_id s) <> 32%nat) by discriminate.
  split; [reflexivity|]. split; [reflexivity|]. split; [exact H|].
  exact (resolver_url_falls_through s eq_refl eq_refl H).
Defined.

Lemma resolver_canonical_fixed_witness :
  String.length Demo.uuid = 32%nat /\
  has_char "-" Demo.uuid = false /\
  startswith Demo.uuid "TODO:" = false /\
  extract_notion_id Demo.uuid = Some Demo.uuid.
Proof.
  repeat (split; [reflexivity|]).
  exact (resolver_canonical_fixed Demo.uuid eq_refl eq_refl eq_refl).
Defined.

Lemma flatten_errors_witness :
  (forall d, JNull <> JDict d) /\
  flatten_property JNull = Raise AttributeError.
Proof.
  assert (H : forall d, JNull <> JDict d) by discriminate.
  split; [exact H|].
  exact (proj2 (flatten_errors (RT := Demo.runtime) JNull) H).
Defined.

Lemma flatten_joined_witness :
  let items := [JDict [("name", JStr "A")]; JDict [("name", JStr "B")]] in
  let d := [("type", JStr "multi_select"); ("multi_select", JList items)] in
  In ("multi_select", ", ", "name")
     [("title", "", "plain_text"); ("rich_text", "", "plain_text");
      ("multi_select", ", ", "name"); ("relation", ", ", "id");
      ("people", ", ", "name")] /\
  Dict.get d "type" = Some (JStr "multi_select") /\
  py_get (JDict d) "multi_select" (JList []) = Ok (JList items) /\
  Forall2 (fun item text => py_get item "name" (JStr "") = Ok (JStr text))
          items ["A"; "B"] /\
  flatten_property (JDict d) = Ok (JStr "A, B").
Proof.
  intros items d.
  assert (Hin : In ("multi_select", ", ", "name")
                   [("title", "", "plain_text"); ("rich_text", "", "plain_text");
                    ("multi_select", ", ", "name"); ("relation", ", ", "id");
                    ("people", ", ", "name")]) by (simpl; tauto).
  assert (Hf : Forall2 (fun item text =>
                          py_get item "name" (JStr "") = Ok (JStr text))
                       items ["A"; "B"]) by (repeat constructor).
  split; [exact Hin|]. split; [reflexivity|]. split; [reflexivity|].
  split; [exact Hf|].
  exact (flatten_joined (RT := Demo.runtime) "multi_select" ", " "name" d
           items ["A"; "B"] Hin eq_refl eq_refl Hf).
Defined.

Lemma flatten_number_witness :
  let d := [("type", JStr "number"); ("number", JInt 0)] in
  Dict.get d "type" = Some (JStr "number") /\
  flatten_property (JDict d) = Ok (JStr "0").
Proof.
  intros d. split; [reflexivity|].
  exact (proj1 (proj2 (flatten_number (RT := Demo.runtime) d eq_refl))
           0 eq_refl).
Defined.

Lemma flatten_option_name_witness :
  let o := [("name", JStr "Open")] in
  let d := [("type", JStr "status"); ("status", JDict o)] in
  ("status" = "select" \/ "status" = "status") /\
  Dict.get d "type" = Some (JStr "status") /\
  o <> [] /\
  flatten_property (JDict d) = Ok (JStr "Open").
Proof.
  intros o d.
  assert (Ho : o <> []) by discriminate.
  split; [now right|]. split; [reflexivity|]. split; [exact Ho|].
  exact (proj2 (flatten_option_name (RT := Demo.runtime) "status" d
                  (or_intror eq_refl) eq_refl) o eq_refl Ho).
Defined.

Lemma flatten_date_witness :
  let dd := [("start", JStr "2024-01-01"); ("end", JStr "2024-01-31")] in
  let d := [("type", JStr "date"); ("date", JDict dd)] in
  Dict.get d "type" = Some (JStr "date") /\
  "2024-01-31" <> "" /\
  flatten_property (JDict d) = Ok (JStr "2024-01-01 - 2024-01-31").
Proof.
  intros dd d.
  assert (He : "2024-01-31" <> "") by discriminate.
  split; [reflexivity|]. split; [exact He|].
  exact (proj2 (proj2 (flatten_date (RT := Demo.runtime) d eq_refl)
                  dd "2024-01-01" eq_refl eq_refl)
           "2024-01-31" eq_refl He).
Defined.

Lemma flatten_contact_witness :
  let d := [("type", JStr "email"); ("email", JStr "ops@example.org")] in
  ("email" = "url" \/ "email" = "email" \/ "email" = "phone_number") /\
  Dict.get d "type" = Some (JStr "email") /\
  "ops@example.org" <> "" /\
  flatten_property (JDict d) = Ok (JStr "ops@example.org").
Proof.
  intros d.
  assert (Hu : "ops@example.org" <> "") by discriminate.
  split; [tauto|]. split; [reflexivity|]. split; [exact Hu|].
  exact (proj1 (flatten_contact (RT := Demo.runtime) "email" d
                  (or_intror (or_introl eq_refl)) eq_refl)
           "ops@example.org" eq_refl Hu).
Defined.

Lemma flatten_rollup_array_witness :
  let r := [("type", JStr "array"); ("array", JList [JInt 1; JInt 2])] in
  let d := [("type", JStr "rollup"); ("rollup", JDict r)] in
  Dict.get d "type" = Some (JStr "rollup") /\
  Dict.get d "rollup" = Some (JDict r) /\
  Dict.get r "type" = Some (JStr "array") /\
  flatten_property (JDict d) = Ok (JStr "2").
Proof.
  intros r d. repeat (split; [reflexivity|]).
  exact (proj1 (flatten_rollup_array (RT := Demo.runtime) d r
                  eq_refl eq_refl eq_refl) [JInt 1; JInt 2] eq_refl).
Defined.

Lemma flatten_files_witness :
  let f1 := JDict [("name", JStr "spec");
                   ("external", JDict [("url", JStr "https://a.example/s")])] in
  let f2 := JDict [("name", JStr "scan");
                   ("file", JDict [("url", JStr "https://files.example/x")])] in
  let d := [("type", JStr "files"); ("files", JList [f1; f2])] in
  Dict.get d "type" = Some (JStr "files") /\
  py_get (JDict d) "files" (JList []) = Ok (JList [f1; f2]) /\
  Forall2 file_text [f1; f2]
          ["https://a.example/s"; "https://files.example/x"] /\
  flatten_property (JDict d)
  = Ok (JStr "https://a.example/s, https://files.example/x").
Proof.
  intros f1 f2 d.
  assert (Hf : Forall2 file_text [f1; f2]
                 ["https://a.example/s"; "https://files.example/x"]).
  { constructor; [|constructor; [|constructor]].
    - eexists. split; [reflexivity|]. left. eexists.
      split; [reflexivity|]. split; [reflexivity | discriminate].
    - eexists. split; [reflexivity|]. right. split; [reflexivity|].
      eexists. split; reflexivity. }
  split; [reflexivity|]. split; [reflexivity|]. split; [exact Hf|].
  exact (flatten_files (RT := Demo.runtime) d [f1; f2] _ eq_refl eq_refl Hf).
Defined.

Lemma flatten_fallback_witness :
  let d := [("type", JStr "button"); ("button", JDict [])] in
  py_get (JDict d) "type" (JStr "") = Ok (JStr "button") /\
  (forall k, In k known_types -> is_str (JStr "button") k = false) /\
  flatten_property (JDict d) = Ok (JStr "<object>").
Proof.
  intros d.
  assert (Hno : forall k, In k known_types -> is_str (JStr "button") k = false).
  { intros k Hk. unfold known_types in Hk. simpl in Hk.
    repeat destruct Hk as [<- | Hk]; try reflexivity. contradiction. }
  split; [reflexivity|]. split; [exact Hno|].
  exact (flatten_fallback (RT := Demo.runtime) d (JStr "button") eq_refl Hno).
Defined.

Lemma fetch_failure_propagates_witness :
  let w := Demo.empty_world [Response Demo.page1; Failure;
                             Response Demo.page2] in
  remote w = (map Response [Demo.page1] ++ Failure :: [Response Demo.page2])%list /\
  Forall2 (fun r recs => results_of r = Ok recs /\ has_more r = true)
          [Demo.page1] [Demo.numbered 0 100] /\
  reply_raises Failure APIResponseError /\
  query_all_pages Demo.uuid w
  = Raised APIResponseError
      (with_remote w [Response Demo.page2]
         (queries w ++ issued_for Demo.uuid JNull [Demo.page1])).
Proof.
  intros w.
  assert (H1 : Forall2 (fun r recs => results_of r = Ok recs /\ has_more r = true)
                 [Demo.page1] [Demo.numbered 0 100]) by (repeat constructor).
  assert (Hbad : reply_raises Failure APIResponseError) by (left; split; reflexivity).
  split; [reflexivity|]. split; [exact H1|]. split; [exact Hbad|].
  exact (proj1 (fetch_failure_propagates (RT := Demo.runtime) Demo.uuid
                  [Demo.page1] [Demo.numbered 0 100] Failure APIResponseError
                  [Response Demo.page2] w eq_refl H1 Hbad)).
Defined.

Lemma fetch_unbounded_witness :
  let w := Demo.empty_world [Response Demo.page1] in
  remote w = map Response [Demo.page1] /\
  Forall2 (fun r recs => results_of r = Ok recs /\ has_more r = true)
          [Demo.page1] [Demo.numbered 0 100] /\
  query_all_pages Demo.uuid w
  = Pending (with_remote w []
               (queries w ++ issued_for Demo.uuid JNull [Demo.page1])) /\
  List.length (issued_for Demo.uuid JNull [Demo.page1]) = 2%nat.
Proof.
  intros w.
  assert (H1 : Forall2 (fun r recs => results_of r = Ok recs /\ has_more r = true)
                 [Demo.page1] [Demo.numbered 0 100]) by (repeat constructor).
  split; [reflexivity|]. split; [exact H1|].
  exact (fetch_unbounded (RT := Demo.runtime) Demo.uuid [Demo.page1]
           [Demo.numbered 0 100] w eq_refl H1).
Defined.

Lemma export_without_key_witness :
  let cfg := JDict [("notion_url", JStr Demo.uuid)] in
  let w := Demo.empty_world [] in
  py_index cfg "key" = Raise KeyError /\
  export_database cfg "packages/services" false w = Raised KeyError w.
Proof.
  intros cfg w. split; [reflexivity|].
  exact (proj1 (export_without_key (RT := Demo.runtime) cfg KeyError
                  "packages/services" false w eq_refl)).
Defined.

Lemma export_without_url_witness :
  let d := [("key", JStr "svc")] in
  let w := Demo.empty_world [] in
  Dict.get d "key" = Some (JStr "svc") /\
  (Dict.get d "notion_url" = None \/ Dict.get d "notion_url" = Some (JStr "")) /\
  export_database (JDict d) "packages/services" false w
  = Done JNull
      (with_stderr w (stderr w ++ [Text "  Skipping 'svc': placeholder URL"])).
Proof.
  intros d w. split; [reflexivity|]. split; [now left|].
  exact (export_without_url (RT := Demo.runtime) d (JStr "svc")
           "packages/services" false w eq_refl (or_introl eq_refl)).
Defined.

Lemma export_counts_witness :
  let cfg := Demo.db "svc" Demo.uuid in
  let first := Demo.record "a" "N1" "Open" in
  let rest := [Demo.record "b" "N2" "Done"] in
  let w := Demo.empty_world
             [Response (Demo.page_reply (first :: rest) false JNull)] in
  let w1 := with_stdout w [Text "  Exporting 'svc' (ID: 01234567...)"] in
  let w2 := with_remote w1 [] [query_kwargs Demo.uuid JNull] in
  let w' := final_world (export_database cfg "packages/services" false w) in
  let v := item4 (JStr "svc") 2 4 in
  py_index cfg "key" = Ok (JStr "svc") /\
  py_get cfg "notion_url" (JStr "") = Ok (JStr Demo.uuid) /\
  extract_notion_id Demo.uuid = Some Demo.uuid /\
  Demo.uuid <> "" /\
  print "  Exporting 'svc' (ID: 01234567...)" w = Done tt w1 /\
  query_all_pages Demo.uuid w1 = Done (first :: rest) w2 /\
  export_database cfg "packages/services" false w = Done v w' /\
  py_index v "row_count" = Ok (JInt 2) /\
  exists first_props,
    py_get first "properties" (JDict []) = Ok (JDict first_props) /\
    py_index v "columns"
    = Ok (JInt (Z.of_nat (List.length (Dict.keys first_props) + 2))).
Proof.
  intros cfg first rest w w1 w2 w' v.
  assert (Hne : Demo.uuid <> "") by discriminate.
  assert (Hq : query_all_pages Demo.uuid w1 = Done (first :: rest) w2)
    by (vm_compute; reflexivity).
  assert (Hrun : export_database cfg "packages/services" false w = Done v w')
    by (vm_compute; reflexivity).
  do 7 (split; [first [exact Hne | exact Hq | exact Hrun | reflexivity]|]).
  destruct (export_counts (RT := Demo.runtime) cfg (JStr "svc")
              Demo.uuid Demo.uuid "packages/services" false w w1 w2 w'
              (first :: rest) v eq_refl eq_refl eq_refl Hne eq_refl Hq Hrun)
    as [Hrows Hcols].
  split; [exact Hrows | exact (Hcols first rest eq_refl)].
Defined.



Lemma export_partial_csv_witness :
  let d := [("key", JStr "svc"); ("notion_url", JStr Demo.uuid)] in
  let first := Demo.record "a" "N1" "Open" in
  let rest := [Sample.accented; Demo.record "b" "N2" "Done"] in
  let w := Sample.ascii_world
             [Response (Demo.page_reply (first :: rest) false JNull)] in
  let w1 := with_stdout w [Text "  Exporting 'svc' (ID: 01234567...)"] in
  let w2 := with_remote w1 [] [query_kwargs Demo.uuid JNull] in
  let fp := match py_get first "properties" (JDict []) with
            | Ok (JDict x) => x
            | _ => []
            end in
  let all_columns :=
    (sorted (Dict.keys fp) ++ ["_notion_id"; "_last_edited"])%list in
  let rows := match map_result (build_row (sorted (Dict.keys fp)))
                               (first :: rest) with
              | Ok r => r
              | Raise _ => []
              end in
  let good := firstn 1 rows in
  let bad := nth 1 rows [] in
  let more := skipn 2 rows in
  Dict.get d "key" = Some (JStr "svc") /\
  Dict.get d "notion_url" = Some (JStr Demo.uuid) /\
  extract_notion_id Demo.uuid = Some Demo.uuid /\
  Demo.uuid <> "" /\
  print "  Exporting 'svc' (ID: 01234567...)" w = Done tt w1 /\
  query_all_pages Demo.uuid w1 = Done (first :: rest) w2 /\
  py_get first "properties" (JDict []) = Ok (JDict fp) /\
  map_result (build_row (sorted (Dict.keys fp))) (first :: rest)
  = Ok (good ++ bad :: more)%list /\
  writable w "packages/services/data" = true /\
  writable w "packages/services/data/svc.csv" = true /\
  forallb (encodable w) all_columns = true /\
  Forall (fun row => line_fits w (row_cells all_columns row) = true) good /\
  line_fits w (row_cells all_columns bad) = false /\
  exists w',
    export_database (JDict d) "packages/services" false w
    = Raised UnicodeEncodeError w' /\
    hd_error (files (fs w'))
    = Some ("packages/services/data/svc.csv",
            CsvFile ["Name"; "Status"; "_notion_id"; "_last_edited"]
                    [[JStr "N1"; JStr "Open"; JStr "a"; JStr "2024-01-01"]]).
Proof.
  intros d first rest w w1 w2 fp all_columns rows good bad more.
  assert (Hne : Demo.uuid <> "") by discriminate.
  assert (Hq : query_all_pages Demo.uuid w1 = Done (first :: rest) w2)
    by (vm_compute; reflexivity).
  assert (Hrows : map_result (build_row (sorted (Dict.keys fp)))
                             (first :: rest) = Ok (good ++ bad :: more)%list)
    by (vm_compute; reflexivity).
  assert (Hfit : Forall (fun row => line_fits w (row_cells all_columns row)
                                    = true) good)
    by (vm_compute; repeat constructor).
  assert (Hbad : line_fits w (row_cells all_columns bad) = false)
    by (vm_compute; reflexivity).
  repeat (split; [first [exact Hne | exact Hq | exact Hrows | exact Hfit
                        | exact Hbad | reflexivity]|]).
  destruct (export_partial_csv (RT := Demo.runtime) d (JStr "svc") Demo.uuid
              Demo.uuid "packages/services" w w1 w2 first rest fp good bad
              more eq_refl eq_refl eq_refl Hne eq_refl Hq eq_refl Hrows
              eq_refl eq_refl eq_refl Hfit Hbad)
    as (w' & Hrun & Hhd & _).
  exists w'. split; [exact Hrun | exact Hhd].
Defined.

Lemma main_exits_early_witness :
  let w := Demo.called (UsageError "usage: export_bundles.py [-h] bundle")
                       Demo.bundle_world in
  let w' := final_world (main w) in
  main w = Raised (SystemExit 2) w' /\
  queries w' = queries w /\ remote w' = remote w /\ fs w' = fs w.
Proof.
  intros w w'.
  assert (Hrun : main w = Raised (SystemExit 2) w')
    by (vm_compute; reflexivity).
  split; [exact Hrun|].
  exact (proj1 (main_exits_early (RT := Demo.runtime) w w' 2 Hrun)).
Defined.

Lemma export_all_appends_witness :
  let dbs := [Demo.db "pending" "TODO: paste the URL";
              Demo.db "svc" Demo.uuid] in
  let w := Demo.bundle_world in
  let w' := final_world (export_all dbs "packages/services" false [] w) in
  let items' := [item4 (JStr "svc") 3 4] in
  export_all dbs "packages/services" false [] w = Done items' w' /\
  exists results,
    exported "packages/services" false w dbs results w' /\
    Forall2 item_of dbs results /\
    items' = ([] ++ filter py_truthy results)%list.
Proof.
  intros dbs w w' items'.
  assert (Hrun : export_all dbs "packages/services" false [] w
                 = Done items' w') by (vm_compute; reflexivity).
  split; [exact Hrun|].
  exact (export_all_appends (RT := Demo.runtime) dbs "packages/services"
           false [] items' w w' Hrun).
Defined.

Lemma main_config_error_witness :
  let a := Sample.run_args false in
  let w := Demo.empty_world [] in
  let line := "Config file not found: chittyos-export.yaml" in
  parse_args w = Done a w /\
  ((config_files w (config a) = FileNotFound /\
    line = "Config file not found: " ++ config a) \/
   (exists msg, config_files w (config a) = YAMLError msg /\
                line = "Invalid YAML in " ++ config a ++ ": " ++ msg)) /\
  main w = Raised (SystemExit 1) (with_stderr w (stderr w ++ [Text line])).
Proof.
  intros a w line.
  assert (H : (config_files w (config a) = FileNotFound /\
               line = "Config file not found: " ++ config a) \/
              (exists msg, config_files w (config a) = YAMLError msg /\
                           line = "Invalid YAML in " ++ config a ++ ": " ++ msg))
    by (left; split; reflexivity).
  split; [reflexivity|]. split; [exact H|].
  exact (main_config_error (RT := Demo.runtime) a w line eq_refl H).
Defined.



Lemma main_manifest_witness :
  let a := Sample.run_args false in
  let w := Demo.bundle_world in
  let w' := final_world (main w) in
  parse_args w = Done a w /\
  main w = Done tt w' /\
  exists cfg bundles defaults bundle_cfg root filename name schema items,
    config_files w (config a) = Loaded cfg /\
    py_get cfg "export_bundles" (JDict []) = Ok bundles /\
    py_index bundles (bundle a) = Ok bundle_cfg /\
    py_get cfg "defaults" (JDict []) = Ok defaults /\
    py_get defaults "output_root" (JStr "packages") = Ok (JStr root) /\
    py_get defaults "manifest_filename" (JStr "manifest.json")
    = Ok (JStr filename) /\
    py_get bundle_cfg "name" JNull = Ok name /\
    py_get bundle_cfg "schema_version" (JStr "1.0.0") = Ok schema /\
    let output_dir := path_div (path_of root) (bundle a) in
    let manifest :=
      JDict [("bundle", JStr (bundle a));
             ("name", name);
             ("schema_version", schema);
             ("exported_at", JStr (clock w));
             ("items", JList items);
             ("audit",
              JDict [("chitty_id", JStr (getenv_or w "CHITTY_ID" ""));
                     ("workflow", JStr (getenv_or w "GITHUB_WORKFLOW" "manual"));
                     ("actor", JStr (getenv_or w "GITHUB_ACTOR" "local"))]);
             ("totals", JDict [("databases", len items);
                               ("total_rows", JInt (total_rows items))])] in
    if dry_run a then In (JsonText manifest) (stdout w')
    else
      hd_error (files (fs w'))
      = Some (path_div output_dir filename, JsonFile manifest) /\
      hd_error (dirs (fs w')) = Some output_dir.
Proof.
  intros a w w'.
  assert (Hrun : main w = Done tt w') by (vm_compute; reflexivity).
  split; [reflexivity|]. split; [exact Hrun|].
  exact (main_manifest (RT := Demo.runtime) a w w' tt eq_refl Hrun).
Defined.

